(** * Med_Vault: the document ingestion pipeline of [UploadDocumentModal]

    A shallow embedding of the upload dialog of the patient dashboard
    (text extraction from a PDF, analysis by a generative model, parsing of
    the model's answer, derivation of the stored metadata, upload to the
    object store and the write to the document database), followed by the
    properties of the pipeline.

    Conventions.
    - A JavaScript string is a sequence of UTF-16 code units.  The embedding
      covers the strings whose code units are all below 256 and represents
      such a string by the Rocq [string] with the same code units.  Over
      this range [trim], [toLowerCase], [includes], [startsWith] and the
      regular expressions of the source are modelled exactly.
    - The services the dialog talks to (pdf.js, the generative model, the
      object store, the document database, [localStorage], the clock) are
      the fields of an environment record [Env]: each field gives the
      answer of the service for a request.
    - Every visible effect of a handler is appended to a log, and the React
      state of the dialog is a record; handlers are written in a small
      state-and-exception monad [M].  Calls to [console] are not logged. *)

From Stdlib Require Import String Ascii List Bool Arith NArith Lia DecimalString.
From Stdlib Require Import DecimalN.
Import ListNotations.
Local Open Scope list_scope.
Local Open Scope string_scope.
Local Open Scope nat_scope.
#[local] Set Warnings "-register-all,-abstract-large-number".

(* ================================================================== *)
(** * JavaScript string primitives                                     *)
(* ================================================================== *)

Module Js.

(** Code unit [n] as a one-character string; used for the characters that
    cannot be written inside a string literal here. *)
Definition chr (n : nat) : string := String (ascii_of_nat n) EmptyString.

(** The line feed, the double quote, the backslash. *)
Definition LF : string := chr 10.
Definition DQ : string := chr 34.
Definition BSL : string := chr 92.

Definition is_empty (s : string) : bool :=
  match s with EmptyString => true | String _ _ => false end.

(** [a || b] on strings: the empty string is the only falsy string. *)
Definition or_else (a b : string) : string := if is_empty a then b else a.

(** [a || b] where [a] may be [undefined]. *)
Definition opt_or_else (a : option string) (b : string) : string :=
  match a with
  | Some s => or_else s b
  | None => b
  end.

(** ECMAScript WhiteSpace and LineTerminator code units below 256:
    TAB, LF, VT, FF, CR, SPACE and NBSP.  This is the set [trim] strips and
    the class [\s] of regular expressions. *)
Definition isWhiteSpace (c : ascii) : bool :=
  let n := nat_of_ascii c in
  ((9 <=? n) && (n <=? 13)) || (n =? 32) || (n =? 160).

Fixpoint trimStart (s : string) : string :=
  match s with
  | EmptyString => EmptyString
  | String c s' => if isWhiteSpace c then trimStart s' else s
  end.

Fixpoint trimEnd (s : string) : string :=
  match s with
  | EmptyString => EmptyString
  | String c s' =>
      let r := trimEnd s' in
      if isWhiteSpace c && is_empty r then EmptyString else String c r
  end.

(** [s.trim()] *)
Definition trim (s : string) : string := trimEnd (trimStart s).

(** [s.startsWith(p)] *)
Definition startsWith (s p : string) : bool := prefix p s.

(** [s.includes(p)] *)
Fixpoint includes (s p : string) : bool :=
  prefix p s ||
  match s with
  | EmptyString => false
  | String _ s' => includes s' p
  end.

(** Lower-case mapping of one code unit below 256: A-Z, and the Latin-1
    capitals U+00C0..U+00DE except the multiplication sign U+00D7. *)
Definition lower_char (c : ascii) : ascii :=
  let n := nat_of_ascii c in
  if ((65 <=? n) && (n <=? 90)) ||
     ((192 <=? n) && (n <=? 222) && negb (n =? 215))
  then ascii_of_nat (n + 32) else c.

(** [s.toLowerCase()] *)
Fixpoint toLowerCase (s : string) : string :=
  match s with
  | EmptyString => EmptyString
  | String c s' => String (lower_char c) (toLowerCase s')
  end.

(** [l.join(sep)] *)
Definition join (sep : string) (l : list string) : string := String.concat sep l.

(** Template-literal rendering of a non-negative integer. *)
Definition show_nat (n : nat) : string := NilEmpty.string_of_uint (Nat.to_uint n).
Definition show_N (n : N) : string := NilEmpty.string_of_uint (N.to_uint n).

(** [s.split(sep)] for a one-character separator. *)
Fixpoint split (sep : ascii) (s : string) : list string :=
  match s with
  | EmptyString => [EmptyString]
  | String c s' =>
      if Ascii.eqb c sep then EmptyString :: split sep s'
      else match split sep s' with
           | [] => [String c EmptyString]
           | h :: t => String c h :: t
           end
  end.

(** [s.split(".").pop()] *)
Definition split_pop (sep : ascii) (s : string) : string :=
  last (split sep s) EmptyString.

(** [s.replace(/\s+/g, "_")]: every maximal run of white space becomes one
    underscore.  [in_run] tells that the previous code unit was white space. *)
Fixpoint replace_ws_runs (in_run : bool) (s : string) : string :=
  match s with
  | EmptyString => EmptyString
  | String c s' =>
      if isWhiteSpace c
      then (if in_run then replace_ws_runs true s'
            else String "_" (replace_ws_runs true s'))
      else String c (replace_ws_runs false s')
  end.

Fixpoint no_slash_dot (s : string) : bool :=
  match s with
  | EmptyString => true
  | String c s' =>
      negb (Ascii.eqb c "/") && negb (Ascii.eqb c ".") && no_slash_dot s'
  end.

(** [s.replace(/\.[^/.]+$/, "")]: drops a final extension, that is a dot
    followed, up to the end of the string, by one or more code units other
    than a slash and a dot. *)
Fixpoint strip_extension (s : string) : string :=
  match s with
  | EmptyString => EmptyString
  | String c s' =>
      if Ascii.eqb c "." && negb (is_empty s') && no_slash_dot s'
      then EmptyString
      else String c (strip_extension s')
  end.

(** Whether the code unit of [s] at index [n] is a line feed. *)
Definition followed_by_LF (n : nat) (s : string) : bool :=
  match String.get n s with
  | Some c => Ascii.eqb c (ascii_of_nat 10)
  | None => false
  end.

(** [s.replace(/PAT\n?/g, "")] for a literal, non-empty [pat]: scanning from
    the left, every occurrence of [pat], with the line feed that follows it
    if there is one, is deleted.  [skip] counts the code units of the
    current match that remain to be dropped. *)
Fixpoint remove_all (pat : string) (skip : nat) (s : string) : string :=
  match s with
  | EmptyString => EmptyString
  | String c s' =>
      match skip with
      | S k => remove_all pat k s'
      | O =>
          if prefix pat s
          then remove_all pat
                 (String.length pat - 1 +
                  (if followed_by_LF (String.length pat) s then 1 else 0)) s'
          else String c (remove_all pat 0 s')
      end
  end.

(** [s.replace(/PAT\n?$/g, "")] for a literal [pat]: a final [pat],
    possibly followed by one final line feed, is deleted ([$] is the end of
    the input, there is no [m] flag). *)
Fixpoint remove_final (pat : string) (s : string) : string :=
  match s with
  | EmptyString => EmptyString
  | String c s' =>
      if String.eqb s pat || String.eqb s (pat ++ LF) then EmptyString
      else String c (remove_final pat s')
  end.

(** [s.substring(0, n)] *)
Definition substring0 (n : nat) (s : string) : string := substring 0 n s.

(** Every code unit of [s] is white space. *)
Fixpoint all_ws (s : string) : bool :=
  match s with
  | EmptyString => true
  | String c s' => isWhiteSpace c && all_ws s'
  end.

End Js.

(* ================================================================== *)
(** * Results of calls that may throw                                  *)
(* ================================================================== *)

(** A thrown value; only its [message] is ever read. *)
Record Error : Type := mkError { message : string }.

(** The outcome of an awaited call. *)
Inductive Res (A : Type) : Type :=
| Ok (a : A)
| Throw (e : Error).
Arguments Ok {A} a.
Arguments Throw {A} e.

(* ================================================================== *)
(** * Text extraction ([extractTextFromPdf])                           *)
(* ================================================================== *)

Module Pdf.
Import Js.

(** What pdf.js gives for a document: its page count and, for a page
    number, the [str] of every text item of the page in order
    ([getPage(n)] then [getTextContent()], either of which may reject). *)
Record PDFDocumentProxy : Type := mkPdf {
  numPages : nat;
  getPageItems : nat -> Res (list string)
}.

(** The text appended for one page: [`\n\n=== Page ${pageNum} ===\n${pageText}`]. *)
Definition pageHeader (pageNum : nat) : string :=
  "=== Page " ++ show_nat pageNum ++ " ===".

Definition pageSegment (pageNum : nat) (items : list string) : string :=
  LF ++ LF ++ pageHeader pageNum ++ LF ++ join " " items.

(** The [for] loop of [extractTextFromPdf]: [todo] pages remain, the next
    one is [pageNum], [fullText] is the text so far. *)
Fixpoint pageLoop (pdf : PDFDocumentProxy) (todo pageNum : nat)
    (fullText : string) : Res string :=
  match todo with
  | O => Ok fullText
  | S todo' =>
      match getPageItems pdf pageNum with
      | Throw e => Throw e
      | Ok items =>
          pageLoop pdf todo' (S pageNum) (fullText ++ pageSegment pageNum items)
      end
  end.

(** [extractTextFromPdf] once pdf.js has opened the document. *)
Definition extractText (pdf : PDFDocumentProxy) : Res string :=
  match pageLoop pdf (numPages pdf) 1 EmptyString with
  | Ok fullText => Ok (trim fullText)
  | Throw e => Throw e
  end.

(** The result of [extractTextFromPdf(file)], given the outcome of reading
    the file (lines 43-44). *)
Definition textOfDocument (loaded : Res PDFDocumentProxy) : Res string :=
  match loaded with
  | Ok pdf => extractText pdf
  | Throw e => Throw e
  end.

(** The segments of the pages numbered [k], [k+1], ... whose items are
    [pages]: one per page, in the order of the pages. *)
Definition segments (k : nat) (pages : list (list string)) : list string :=
  map (fun p => pageSegment (fst p) (snd p))
      (combine (seq k (List.length pages)) pages).

(** The page headers of a document of [n] pages. *)
Definition headers (n : nat) : list string := map pageHeader (seq 1 n).

(** Three line feeds: what separates two headers when a page has no text. *)
Definition SEP3 : string := LF ++ LF ++ LF.

(** A document whose pages all load, given by the items of its pages. *)
Definition pdf_of_pages (pages : list (list string)) : PDFDocumentProxy :=
  {| numPages := List.length pages;
     getPageItems := fun n => Ok (nth (n - 1) pages []) |}.

End Pdf.

(* ================================================================== *)
(** * [JSON.parse]                                                     *)
(* ================================================================== *)

(** The JSON grammar (ECMA-404) as [JSON.parse] reads it: a lexer that is
    one pass over the code units, and a pushdown recogniser that is one
    pass over the tokens.  A number keeps its lexeme.  A [\u] escape of a
    code unit above 255 takes the text out of the strings the embedding
    represents, which is reported as [Outside]. *)
Module Json.
Import Js.

Inductive JsValue : Type :=
| JNull
| JBool (b : bool)
| JNum (lexeme : string)
| JStr (s : string)
| JArr (elements : list JsValue)
| JObj (members : list (string * JsValue)).

Inductive token : Type :=
| TLBrace | TRBrace | TLBrack | TRBrack | TColon | TComma
| TString (s : string)
| TNumber (lexeme : string)
| TTrue | TFalse | TNull.

(** ** Lexer *)

(** Where the lexer stands inside a number. *)
Inductive num_state : Type :=
| NMinus | NZero | NInt | NDot | NFrac | NExp | NExpSign | NExpDigits.

Definition is_digit (c : ascii) : bool :=
  let n := nat_of_ascii c in (48 <=? n) && (n <=? 57).

Definition is_exp (c : ascii) : bool := Ascii.eqb c "e" || Ascii.eqb c "E".

Definition num_start (c : ascii) : option num_state :=
  if Ascii.eqb c "-" then Some NMinus
  else if Ascii.eqb c "0" then Some NZero
  else if is_digit c then Some NInt
  else None.

Definition num_step (st : num_state) (c : ascii) : option num_state :=
  match st with
  | NMinus =>
      if Ascii.eqb c "0" then Some NZero
      else if is_digit c then Some NInt else None
  | NZero =>
      if Ascii.eqb c "." then Some NDot
      else if is_exp c then Some NExp else None
  | NInt =>
      if is_digit c then Some NInt
      else if Ascii.eqb c "." then Some NDot
      else if is_exp c then Some NExp else None
  | NDot => if is_digit c then Some NFrac else None
  | NFrac =>
      if is_digit c then Some NFrac
      else if is_exp c then Some NExp else None
  | NExp =>
      if Ascii.eqb c "+" || Ascii.eqb c "-" then Some NExpSign
      else if is_digit c then Some NExpDigits else None
  | NExpSign => if is_digit c then Some NExpDigits else None
  | NExpDigits => if is_digit c then Some NExpDigits else None
  end.

(** The states in which the digits read so far are a complete number. *)
Definition num_final (st : num_state) : bool :=
  match st with
  | NZero | NInt | NFrac | NExpDigits => true
  | NMinus | NDot | NExp | NExpSign => false
  end.

(** JSON white space: space, TAB, LF, CR. *)
Definition is_json_ws (c : ascii) : bool :=
  let n := nat_of_ascii c in
  (n =? 32) || (n =? 9) || (n =? 10) || (n =? 13).

Definition hex_value (c : ascii) : option nat :=
  let n := nat_of_ascii c in
  if (48 <=? n) && (n <=? 57) then Some (n - 48)
  else if (65 <=? n) && (n <=? 70) then Some (n - 55)
  else if (97 <=? n) && (n <=? 102) then Some (n - 87)
  else None.

(** The three literal names. *)
Inductive literal : Type := LitTrue | LitFalse | LitNull.

Definition literal_name (l : literal) : string :=
  match l with
  | LitTrue => "true"
  | LitFalse => "false"
  | LitNull => "null"
  end.

Definition literal_token (l : literal) : token :=
  match l with
  | LitTrue => TTrue
  | LitFalse => TFalse
  | LitNull => TNull
  end.

Inductive lex_state : Type :=
| LStart                                   (* between two tokens *)
| LStr (acc : string)                      (* inside a string *)
| LEsc (acc : string)                      (* after a backslash *)
| LUni (acc : string) (read code : nat)    (* inside the digits of \u *)
| LNum (ns : num_state) (acc : string)     (* inside a number *)
| LWord (l : literal) (read : nat).        (* [read] letters into a literal name *)

Inductive stepped : Type :=
| Next (st : lex_state) (emitted : list token)
| Bad
| Beyond.

Definition snoc (s : string) (c : ascii) : string := s ++ String c EmptyString.

Definition step_start (c : ascii) : stepped :=
  if is_json_ws c then Next LStart []
  else if Ascii.eqb c "{" then Next LStart [TLBrace]
  else if Ascii.eqb c "}" then Next LStart [TRBrace]
  else if Ascii.eqb c "[" then Next LStart [TLBrack]
  else if Ascii.eqb c "]" then Next LStart [TRBrack]
  else if Ascii.eqb c ":" then Next LStart [TColon]
  else if Ascii.eqb c "," then Next LStart [TComma]
  else if nat_of_ascii c =? 34 then Next (LStr EmptyString) []
  else if Ascii.eqb c "t" then Next (LWord LitTrue 1) []
  else if Ascii.eqb c "f" then Next (LWord LitFalse 1) []
  else if Ascii.eqb c "n" then Next (LWord LitNull 1) []
  else match num_start c with
       | Some ns => Next (LNum ns (String c EmptyString)) []
       | None => Bad
       end.

Definition step_escape (acc : string) (c : ascii) : stepped :=
  let n := nat_of_ascii c in
  if (n =? 34) || (n =? 92) || (n =? 47) then Next (LStr (snoc acc c)) []
  else if Ascii.eqb c "b" then Next (LStr (acc ++ chr 8)) []
  else if Ascii.eqb c "f" then Next (LStr (acc ++ chr 12)) []
  else if Ascii.eqb c "n" then Next (LStr (acc ++ chr 10)) []
  else if Ascii.eqb c "r" then Next (LStr (acc ++ chr 13)) []
  else if Ascii.eqb c "t" then Next (LStr (acc ++ chr 9)) []
  else if Ascii.eqb c "u" then Next (LUni acc 0 0) []
  else Bad.

Definition step (st : lex_state) (c : ascii) : stepped :=
  match st with
  | LStart => step_start c
  | LStr acc =>
      let n := nat_of_ascii c in
      if n =? 34 then Next LStart [TString acc]
      else if n =? 92 then Next (LEsc acc) []
      else if n <? 32 then Bad
      else Next (LStr (snoc acc c)) []
  | LEsc acc => step_escape acc c
  | LUni acc read code =>
      match hex_value c with
      | None => Bad
      | Some d =>
          let code' := 16 * code + d in
          if read =? 3
          then (if code' <? 256 then Next (LStr (acc ++ chr code')) [] else Beyond)
          else Next (LUni acc (S read) code') []
      end
  | LNum ns acc =>
      match num_step ns c with
      | Some ns' => Next (LNum ns' (snoc acc c)) []
      | None =>
          if num_final ns
          then match step_start c with
               | Next st' emitted => Next st' (TNumber acc :: emitted)
               | Bad => Bad
               | Beyond => Beyond
               end
          else Bad
      end
  | LWord l read =>
      match String.get read (literal_name l) with
      | None => Bad
      | Some r =>
          if Ascii.eqb c r
          then (if S read =? String.length (literal_name l)
                then Next LStart [literal_token l]
                else Next (LWord l (S read)) [])
          else Bad
      end
  end.

Inductive lexed : Type :=
| Tokens (ts : list token)
| BadSyntax
| Unrepresentable.

(** What the end of the input means in a state. *)
Definition finish (st : lex_state) : lexed :=
  match st with
  | LStart => Tokens []
  | LNum ns acc => if num_final ns then Tokens [TNumber acc] else BadSyntax
  | _ => BadSyntax
  end.

Fixpoint lex_from (st : lex_state) (s : string) : lexed :=
  match s with
  | EmptyString => finish st
  | String c s' =>
      match step st c with
      | Next st' emitted =>
          match lex_from st' s' with
          | Tokens ts => Tokens (emitted ++ ts)%list
          | BadSyntax => BadSyntax
          | Unrepresentable => Unrepresentable
          end
      | Bad => BadSyntax
      | Beyond => Unrepresentable
      end
  end.

Definition lex (s : string) : lexed := lex_from LStart s.

(** ** Recogniser *)

(** An open array with its elements so far (latest first), an open object
    with its members so far, an open object whose key [k] waits for its
    value. *)
Inductive frame : Type :=
| FArr (acc : list JsValue)
| FObj (acc : list (string * JsValue))
| FKey (acc : list (string * JsValue)) (k : string).

(** What the recogniser expects next. *)
Inductive mode : Type :=
| MValue | MArrStart | MObjStart | MKey | MColon | MSep
| MDone (v : JsValue).

(** A value [v] is complete: it is the whole text, an element of the open
    array or the value of the waiting key. *)
Definition complete (v : JsValue) (stack : list frame) : option (list frame * mode) :=
  match stack with
  | [] => Some ([], MDone v)
  | FArr acc :: st => Some (FArr (v :: acc) :: st, MSep)
  | FKey acc k :: st => Some (FObj ((k, v) :: acc) :: st, MSep)
  | FObj _ :: _ => None
  end.

Definition close_array (stack : list frame) : option (list frame * mode) :=
  match stack with
  | FArr acc :: st => complete (JArr (rev acc)) st
  | _ => None
  end.

Definition close_object (stack : list frame) : option (list frame * mode) :=
  match stack with
  | FObj acc :: st => complete (JObj (rev acc)) st
  | _ => None
  end.

Definition open_key (k : string) (stack : list frame) : option (list frame * mode) :=
  match stack with
  | FObj acc :: st => Some (FKey acc k :: st, MColon)
  | _ => None
  end.

Definition value_step (stack : list frame) (t : token) : option (list frame * mode) :=
  match t with
  | TLBrack => Some (FArr [] :: stack, MArrStart)
  | TLBrace => Some (FObj [] :: stack, MObjStart)
  | TString s => complete (JStr s) stack
  | TNumber n => complete (JNum n) stack
  | TTrue => complete (JBool true) stack
  | TFalse => complete (JBool false) stack
  | TNull => complete JNull stack
  | TRBrace | TRBrack | TColon | TComma => None
  end.

Definition parse_step (stack : list frame) (m : mode) (t : token)
  : option (list frame * mode) :=
  match m with
  | MValue => value_step stack t
  | MArrStart =>
      match t with
      | TRBrack => close_array stack
      | _ => value_step stack t
      end
  | MObjStart =>
      match t with
      | TRBrace => close_object stack
      | TString k => open_key k stack
      | _ => None
      end
  | MKey =>
      match t with
      | TString k => open_key k stack
      | _ => None
      end
  | MColon =>
      match t with
      | TColon => Some (stack, MValue)
      | _ => None
      end
  | MSep =>
      match t, stack with
      | TComma, FArr _ :: _ => Some (stack, MValue)
      | TComma, FObj _ :: _ => Some (stack, MKey)
      | TRBrack, _ => close_array stack
      | TRBrace, _ => close_object stack
      | _, _ => None
      end
  | MDone _ => None
  end.

Fixpoint parse_from (stack : list frame) (m : mode) (ts : list token) : option JsValue :=
  match ts with
  | [] =>
      match stack, m with
      | [], MDone v => Some v
      | _, _ => None
      end
  | t :: ts' =>
      match parse_step stack m t with
      | Some (stack', m') => parse_from stack' m' ts'
      | None => None
      end
  end.

Definition parse_tokens (ts : list token) : option JsValue := parse_from [] MValue ts.

(** The three outcomes of [JSON.parse(text)]. *)
Inductive parse_result : Type :=
| Parsed (v : JsValue)
| SyntaxError
| Outside.

Definition JSON_parse (text : string) : parse_result :=
  match lex text with
  | Tokens ts =>
      match parse_tokens ts with
      | Some v => Parsed v
      | None => SyntaxError
      end
  | BadSyntax => SyntaxError
  | Unrepresentable => Outside
  end.

(** [o[k]] for an object read by [JSON.parse]: of two members with the same
    key the later one is kept. *)
Fixpoint get_member (k : string) (members : list (string * JsValue)) : option JsValue :=
  match members with
  | [] => None
  | (k', v) :: rest =>
      match get_member k rest with
      | Some v' => Some v'
      | None => if String.eqb k' k then Some v else None
      end
  end.

End Json.

(* ================================================================== *)
(** * The analysis of the model's answer                               *)
(* ================================================================== *)

Module Analysis.
Import Js Json.

(** One entry of [tests] (interface [GeminiAnalysis]). *)
Record TestFinding : Type := mkTest {
  t_parameter : string;
  t_value : string;
  t_unit : string;
  t_reference_range : string;
  t_status : string
}.

(** Interface [GeminiAnalysis]: every field is optional. *)
Record GeminiAnalysis : Type := mkAnalysis {
  report_title : option string;
  doctor_name : option string;
  report_date : option string;
  tests : option (list TestFinding);
  summary : option string
}.

(** ** Removing the Markdown fence *)

Definition FENCE : string := "```".
Definition JSON_FENCE : string := "```json".

(** Lines 303-308: the text that is handed to [JSON.parse]. *)
Definition cleanJson (aiAnalysis : string) : string :=
  let cleanedJson := trim aiAnalysis in
  if startsWith cleanedJson JSON_FENCE
  then remove_final FENCE (remove_all JSON_FENCE 0 cleanedJson)
  else if startsWith cleanedJson FENCE
  then remove_all FENCE 0 cleanedJson
  else cleanedJson.

(** An answer inside a Markdown fence, tagged [json] or not. *)
Definition fence_tagged (payload : string) : string :=
  JSON_FENCE ++ LF ++ payload ++ LF ++ FENCE.

Definition fence_plain (payload : string) : string :=
  FENCE ++ LF ++ payload ++ LF ++ FENCE.

(** ** Reading a JSON value at type [GeminiAnalysis | null]

    [parsedAnalysis = JSON.parse(cleanedJson)] assigns a value of type
    [any].  The embedding follows the handler on the values of the declared
    type: [null], or an object whose [report_title], [doctor_name],
    [report_date] and [summary] are strings and whose [tests] is an array
    of objects with five string fields.  A member that is [null] is read as
    a missing one, since the handler only uses these members through [||],
    [&&] and [?.].  Other members are ignored.  [None] is a value outside
    the declared type. *)

Definition string_member (k : string) (o : list (string * JsValue)) : option (option string) :=
  match get_member k o with
  | None | Some JNull => Some None
  | Some (JStr s) => Some (Some s)
  | Some _ => None
  end.

Definition required_string (k : string) (o : list (string * JsValue)) : option string :=
  match get_member k o with
  | Some (JStr s) => Some s
  | _ => None
  end.

Definition as_test (v : JsValue) : option TestFinding :=
  match v with
  | JObj o =>
      match required_string "parameter" o, required_string "value" o,
            required_string "unit" o, required_string "reference_range" o,
            required_string "status" o with
      | Some p, Some va, Some u, Some r, Some st => Some (mkTest p va u r st)
      | _, _, _, _, _ => None
      end
  | _ => None
  end.

Fixpoint as_tests (l : list JsValue) : option (list TestFinding) :=
  match l with
  | [] => Some []
  | v :: l' =>
      match as_test v, as_tests l' with
      | Some t, Some ts => Some (t :: ts)
      | _, _ => None
      end
  end.

Definition tests_member (o : list (string * JsValue)) : option (option (list TestFinding)) :=
  match get_member "tests" o with
  | None | Some JNull => Some None
  | Some (JArr l) =>
      match as_tests l with
      | Some ts => Some (Some ts)
      | None => None
      end
  | Some _ => None
  end.

Definition as_analysis (v : JsValue) : option (option GeminiAnalysis) :=
  match v with
  | JNull => Some None
  | JObj o =>
      match string_member "report_title" o, string_member "doctor_name" o,
            string_member "report_date" o, tests_member o,
            string_member "summary" o with
      | Some rt, Some dn, Some rd, Some ts, Some su =>
          Some (Some (mkAnalysis rt dn rd ts su))
      | _, _, _, _, _ => None
      end
  | _ => None
  end.

(** ** The inner [try]/[catch] (lines 301-315) *)

(** [{ summary: aiAnalysis } as GeminiAnalysis] *)
Definition fallbackAnalysis (aiAnalysis : string) : GeminiAnalysis :=
  mkAnalysis None None None None (Some aiAnalysis).

(** [parsedAnalysis] after the inner [try]/[catch]; [None] when the answer
    is JSON outside the declared type (or outside the represented strings),
    where the embedding does not follow the handler. *)
Definition parseAnalysis (aiAnalysis : string) : option (option GeminiAnalysis) :=
  match JSON_parse (cleanJson aiAnalysis) with
  | SyntaxError => Some (Some (fallbackAnalysis aiAnalysis))
  | Parsed v => as_analysis v
  | Outside => None
  end.

(** ** The stored record (lines 362-422) *)

(** [documentData.aiAnalysis] *)
Record AiAnalysis : Type := mkAi {
  reportTitle : string;
  doctorName : string;
  reportDate : string;
  ai_tests : list TestFinding;
  ai_summary : string;
  processedAt : string
}.

(** [serverTimestamp()] *)
Inductive FieldValue : Type := ServerTimestamp.

(** [documentData].  A member the handler assigns on some paths only is an
    [option]: [None] is a member the object does not have. *)
Record DocumentData : Type := mkDoc {
  title : string;
  fileUrl : string;
  fileName : string;
  fileType : string;
  fileSize : N;
  userId : string;
  uploadedAt : FieldValue;
  createdAt : string;
  extractedText : option string;
  aiAnalysis : option AiAnalysis;
  anomalies : option (list string);
  hasAnomalies : option bool;
  anomalyCount : option nat;
  category : string;
  processingStatus : string
}.

(** [`${test.parameter}: ${test.value} ${test.unit} (${test.status})`] *)
Definition anomalyLine (test : TestFinding) : string :=
  t_parameter test ++ ": " ++ t_value test ++ " " ++ t_unit test ++
  " (" ++ t_status test ++ ")".

(** Lines 380-387. *)
Definition buildAiAnalysis (parsedAnalysis : GeminiAnalysis)
    (documentTitle now : string) : AiAnalysis :=
  {| reportTitle := opt_or_else (report_title parsedAnalysis) documentTitle;
     doctorName := opt_or_else (doctor_name parsedAnalysis) "Not specified";
     reportDate := opt_or_else (report_date parsedAnalysis) "Not specified";
     ai_tests := match tests parsedAnalysis with Some ts => ts | None => [] end;
     ai_summary := opt_or_else (summary parsedAnalysis) "No summary available";
     processedAt := now |}.

(** Lines 390-400: [(anomalies, hasAnomalies, anomalyCount)]. *)
Definition deriveAnomalies (parsedAnalysis : GeminiAnalysis)
  : list string * bool * nat :=
  match tests parsedAnalysis with
  | Some (t :: ts) =>
      (map anomalyLine (t :: ts), true, List.length (t :: ts))
  | Some [] | None => ([], false, 0)
  end.

(** Lines 403-416. *)
Definition deriveCategory (parsedAnalysis : GeminiAnalysis) : string :=
  let reportTitle :=
    match report_title parsedAnalysis with
    | Some s => or_else (toLowerCase s) EmptyString
    | None => EmptyString
    end in
  if includes reportTitle "blood" then "Blood Test"
  else if includes reportTitle "kidney" then "Kidney Function"
  else if includes reportTitle "liver" then "Liver Function"
  else if includes reportTitle "thyroid" then "Thyroid"
  else if includes reportTitle "prescription" then "Prescription"
  else "General Medical Report".

(** Lines 362-422: [documentData] as it is handed to [addDoc]. *)
Definition buildDocumentData (documentTitle publicUrl fileName fileType : string)
    (fileSize : N) (userId createdAt processedAt : string)
    (extractedText : option string) (parsedAnalysis : option GeminiAnalysis)
  : DocumentData :=
  let text :=
    match extractedText with
    | Some t => if is_empty t then None else Some t
    | None => None
    end in
  match parsedAnalysis with
  | Some pa =>
      let '(lines, has, count) := deriveAnomalies pa in
      {| title := documentTitle; fileUrl := publicUrl; fileName := fileName;
         fileType := fileType; fileSize := fileSize; userId := userId;
         uploadedAt := ServerTimestamp; createdAt := createdAt;
         extractedText := text;
         aiAnalysis := Some (buildAiAnalysis pa documentTitle processedAt);
         anomalies := Some lines;
         hasAnomalies := Some has;
         anomalyCount := Some count;
         category := deriveCategory pa;
         processingStatus := "completed" |}
  | None =>
      {| title := documentTitle; fileUrl := publicUrl; fileName := fileName;
         fileType := fileType; fileSize := fileSize; userId := userId;
         uploadedAt := ServerTimestamp; createdAt := createdAt;
         extractedText := text;
         aiAnalysis := None;
         anomalies := None;
         hasAnomalies := None;
         anomalyCount := None;
         category := "Uncategorized";
         processingStatus := "uploaded_without_analysis" |}
  end.

(** ** The category rules, as the specification words them *)

(** Keyword and category, in the order of precedence. *)
Definition categoryRules : list (string * string) :=
  [("blood", "Blood Test"); ("kidney", "Kidney Function");
   ("liver", "Liver Function"); ("thyroid", "Thyroid");
   ("prescription", "Prescription")].

Definition DEFAULT_CATEGORY : string := "General Medical Report".

(** [kw] occurs in [title] when letter case is ignored. *)
Definition ci_substring (title kw : string) : Prop :=
  exists pre mid post,
    title = pre ++ mid ++ post /\ toLowerCase mid = toLowerCase kw.

(** The category of the first rule whose keyword occurs in the lower-cased
    title. *)
Fixpoint firstMatch (rules : list (string * string)) (title : string) : string :=
  match rules with
  | [] => DEFAULT_CATEGORY
  | (kw, cat) :: rest =>
      if includes (toLowerCase title) kw then cat else firstMatch rest title
  end.

Definition categoryOf (title : string) : string := firstMatch categoryRules title.

(** The report title the model supplied, empty when it supplied none. *)
Definition modelTitle (parsedAnalysis : GeminiAnalysis) : string :=
  match report_title parsedAnalysis with
  | Some s => s
  | None => EmptyString
  end.

End Analysis.

(* ================================================================== *)
(** * The dialog: state, services and effects                          *)
(* ================================================================== *)

Module Modal.
Import Js Pdf Analysis.

(** A browser [File]. *)
Record File : Type := mkFile {
  name : string;
  size : N;
  type : string;
  bytes : list Byte.byte
}.

(** The React state of the dialog (the [useState] cells). *)
Record ModalState : Type := mkState {
  selectedFile : option File;
  documentTitle : string;
  uploading : bool;
  uploadProgress : string;
  aiLoading : bool;
  aiOutput : option string;
  extractLoading : bool;
  extractedText : option string
}.

(** The prompt sent with the document: the fixed instruction text of
    [runGeminiAnalysis], or the trimmed [customPrompt]. *)
Inductive Prompt : Type :=
| DefaultPrompt
| CustomPrompt (text : string).

(** The services, the configuration and the clock. *)
Record Env : Type := mkEnv {
  (** [supabase !== null]: both Supabase variables are set. *)
  supabase : bool;
  (** [VITE_GEMINI_API_KEY || ""] *)
  geminiApiKey : string;
  (** [localStorage.getItem("userId")] *)
  localStorage_userId : option string;
  (** [Date.now()] *)
  Date_now : N;
  (** [new Date().toISOString()] at lines 370 and 386 *)
  createdAt_now : string;
  processedAt_now : string;
  (** Lines 43-44: [file.arrayBuffer()] followed by
      [pdfjsLib.getDocument({ data }).promise]; [Throw] is the rejection of
      either of the two. *)
  getDocument : File -> Res PDFDocumentProxy;
  (** [model.generateContent([prompt, documentPart])] then [response.text()] *)
  generateContent : Prompt -> string -> Res string;
  (** [uploadError] of [storage.from(...).upload(fileName, file, ...)] *)
  storage_upload : string -> File -> option Error;
  (** [getPublicUrl(fileName).data.publicUrl] *)
  getPublicUrl : string -> string;
  (** [addDoc(collection(db, "documents"), documentData)]: the new id *)
  addDoc : DocumentData -> Res string
}.

(** The toasts of the dialog, by title, with the part of the description
    that varies. *)
Inductive Toast : Type :=
| FileTooLarge
| InvalidFileType
| NoFileSelected
| UnsupportedFile
| ExtractionSuccessful
| ExtractionFailed (description : string)
| AnalysisComplete
| AnalysisFailed (description : string)
| MissingInformation
| AIAnalysisWarning
| UploadSuccessful (found : option nat)
| FirestoreSaveFailed (description : string)
| UploadFailed (description : string).

(** What a handler does to the outside, in the order it does it.
    [GetDocument f] is the point where the read of [f] begins (lines 43-44:
    the bytes of the file, then the document): the two awaits have one
    answer in [Env], so the effect says that the read was started, not that
    [pdfjsLib.getDocument] was reached. *)
Inductive Effect : Type :=
| ShowToast (t : Toast)
| Progress (text : string)
| GetDocument (f : File)
| GenerateContent (p : Prompt) (documentPart : string)
| StorageUpload (fileName : string) (f : File)
| AddDoc (documentData : DocumentData)
| OnOpenChange (open : bool)
| OnDocumentAdded.

Record World : Type := mkWorld {
  modal : ModalState;
  workerConfigured : bool;
  effects : list Effect
}.

(** ** The monad of handlers *)

(** A handler returns, throws, or leaves the values the embedding follows
    (see [parseAnalysis]). *)
Inductive Outcome (A : Type) : Type :=
| Returned (a : A)
| Threw (e : Error)
| Unfollowed.
Arguments Returned {A} a.
Arguments Threw {A} e.
Arguments Unfollowed {A}.

Definition M (A : Type) : Type := World -> Outcome A * World.

Definition ret {A} (a : A) : M A := fun w => (Returned a, w).

Definition bind {A B} (m : M A) (k : A -> M B) : M B :=
  fun w =>
    match m w with
    | (Returned a, w') => k a w'
    | (Threw e, w') => (Threw e, w')
    | (Unfollowed, w') => (Unfollowed, w')
    end.

Definition throw {A} (e : Error) : M A := fun w => (Threw e, w).

Definition unfollowed {A} : M A := fun w => (Unfollowed, w).

(** [try { m } catch (e) { handler e }] *)
Definition try_catch {A} (m : M A) (handler : Error -> M A) : M A :=
  fun w =>
    match m w with
    | (Threw e, w') => handler e w'
    | r => r
    end.

(** [try { m } finally { cleanup }] *)
Definition try_finally {A} (m : M A) (cleanup : M unit) : M A :=
  fun w =>
    match m w with
    | (Unfollowed, w') => (Unfollowed, w')
    | (r, w') =>
        match cleanup w' with
        | (Returned _, w'') => (r, w'')
        | (Threw e, w'') => (Threw e, w'')
        | (Unfollowed, w'') => (Unfollowed, w'')
        end
    end.

(** An awaited call. *)
Definition await {A} (r : Res A) : M A :=
  match r with
  | Ok a => ret a
  | Throw e => throw e
  end.

Definition emit (e : Effect) : M unit :=
  fun w => (Returned tt, mkWorld (modal w) (workerConfigured w) (effects w ++ [e])%list).

Definition toast (t : Toast) : M unit := emit (ShowToast t).

Definition update (f : ModalState -> ModalState) : M unit :=
  fun w => (Returned tt, mkWorld (f (modal w)) (workerConfigured w) (effects w)).

Definition read : M ModalState := fun w => (Returned (modal w), w).

Declare Scope handler_scope.
Delimit Scope handler_scope with handler.
Notation "x <- c1 ;; c2" := (bind c1 (fun x => c2))
  (at level 61, c1 at next level, right associativity) : handler_scope.
Notation "c1 ;; c2" := (bind c1 (fun _ => c2))
  (at level 61, right associativity) : handler_scope.
Local Open Scope handler_scope.

(** ** The state setters *)

Definition setSelectedFile (v : option File) : M unit :=
  update (fun s => mkState v (documentTitle s) (uploading s) (uploadProgress s)
                     (aiLoading s) (aiOutput s) (extractLoading s) (extractedText s)).

Definition setDocumentTitle (v : string) : M unit :=
  update (fun s => mkState (selectedFile s) v (uploading s) (uploadProgress s)
                     (aiLoading s) (aiOutput s) (extractLoading s) (extractedText s)).

Definition setUploading (v : bool) : M unit :=
  update (fun s => mkState (selectedFile s) (documentTitle s) v (uploadProgress s)
                     (aiLoading s) (aiOutput s) (extractLoading s) (extractedText s)).

Definition setUploadProgress (v : string) : M unit :=
  emit (Progress v) ;;
  update (fun s => mkState (selectedFile s) (documentTitle s) (uploading s) v
                     (aiLoading s) (aiOutput s) (extractLoading s) (extractedText s)).

Definition setAiLoading (v : bool) : M unit :=
  update (fun s => mkState (selectedFile s) (documentTitle s) (uploading s) (uploadProgress s)
                     v (aiOutput s) (extractLoading s) (extractedText s)).

Definition setAiOutput (v : option string) : M unit :=
  update (fun s => mkState (selectedFile s) (documentTitle s) (uploading s) (uploadProgress s)
                     (aiLoading s) v (extractLoading s) (extractedText s)).

Definition setExtractLoading (v : bool) : M unit :=
  update (fun s => mkState (selectedFile s) (documentTitle s) (uploading s) (uploadProgress s)
                     (aiLoading s) (aiOutput s) v (extractedText s)).

Definition setExtractedText (v : option string) : M unit :=
  update (fun s => mkState (selectedFile s) (documentTitle s) (uploading s) (uploadProgress s)
                     (aiLoading s) (aiOutput s) (extractLoading s) v).

(** ** The two stages that read the document *)

(** [configurePdfWorker()] *)
Definition configurePdfWorker : M unit :=
  fun w => (Returned tt, mkWorld (modal w) true (effects w)).

(** [extractTextFromPdf(file)]: the worker is configured, the file is read
    (lines 43-44, one answer for both awaits), the pages are read. *)
Definition extractTextFromPdf (env : Env) (file : File) : M string :=
  configurePdfWorker ;;
  emit (GetDocument file) ;;
  await (Pdf.textOfDocument (getDocument env file)).

(** The cap on the document text sent to the model. *)
Definition MAX_CHARS : nat := 60000.

(** [customPrompt?.trim() || <the instruction text>] *)
Definition choosePrompt (customPrompt : option string) : Prompt :=
  match customPrompt with
  | Some p => if is_empty (trim p) then DefaultPrompt else CustomPrompt (trim p)
  | None => DefaultPrompt
  end.

(** ["\n\nDocument Text:\n" + text.substring(0, 60000)] *)
Definition documentPart (text : string) : string :=
  LF ++ LF ++ "Document Text:" ++ LF ++ substring0 MAX_CHARS text.

(** [runGeminiAnalysis(text, customPrompt)] *)
Definition runGeminiAnalysis (env : Env) (text : string)
    (customPrompt : option string) : M string :=
  if is_empty (geminiApiKey env)
  then throw (mkError "Gemini API key missing. Add VITE_GEMINI_API_KEY to your .env file.")
  else
    let prompt := choosePrompt customPrompt in
    emit (GenerateContent prompt (documentPart text)) ;;
    await (generateContent env prompt (documentPart text)).

(** ** Selecting a file *)

Definition MAX_FILE_SIZE : N := 10 * 1024 * 1024.

Definition allowedTypes : list string :=
  ["application/pdf"; "image/jpeg"; "image/png"; "image/jpg"].

(** [allowedTypes.includes(t)] *)
Definition type_allowed (t : string) : bool :=
  existsb (String.eqb t) allowedTypes.

(** [handleFileChange], on [event.target.files?.[0]]. *)
Definition handleFileChange (file : option File) : M unit :=
  match file with
  | None => ret tt
  | Some file =>
      if (MAX_FILE_SIZE <? size file)%N then toast FileTooLarge
      else if negb (type_allowed (type file)) then toast InvalidFileType
      else
        st <- read ;;
        setSelectedFile (Some file) ;;
        if is_empty (documentTitle st)
        then setDocumentTitle (strip_extension (name file))
        else ret tt
  end.

Definition handleRemoveFile : M unit :=
  setSelectedFile None ;;
  setAiOutput None ;;
  setExtractedText None.

(** ** The two preview buttons *)

Definition PDF : string := "application/pdf".

Definition handleExtract (env : Env) : M unit :=
  st <- read ;;
  match selectedFile st with
  | None => toast NoFileSelected
  | Some file =>
      if negb (String.eqb (type file) PDF) then toast UnsupportedFile
      else
        try_finally
          (try_catch
             (setExtractLoading true ;;
              setExtractedText None ;;
              setUploadProgress "Extracting text from PDF..." ;;
              text <- extractTextFromPdf env file ;;
              setExtractedText (Some text) ;;
              setUploadProgress EmptyString ;;
              toast ExtractionSuccessful)
             (fun err =>
                setUploadProgress EmptyString ;;
                toast (ExtractionFailed (or_else (message err) "Could not extract text"))))
          (setExtractLoading false)
  end.

Definition handleAnalyze (env : Env) : M unit :=
  st <- read ;;
  match selectedFile st with
  | None => toast NoFileSelected
  | Some file =>
      if negb (String.eqb (type file) PDF) then toast UnsupportedFile
      else
        try_finally
          (try_catch
             (setAiLoading true ;;
              setAiOutput None ;;
              setUploadProgress "Extracting text from PDF..." ;;
              text <- extractTextFromPdf env file ;;
              setUploadProgress "Analyzing with Gemini..." ;;
              analysis <- runGeminiAnalysis env text None ;;
              setAiOutput (Some analysis) ;;
              setUploadProgress EmptyString ;;
              toast AnalysisComplete)
             (fun err =>
                setUploadProgress EmptyString ;;
                toast (AnalysisFailed (or_else (message err) "Could not analyze document"))))
          (setAiLoading false)
  end.

(** ** The ingestion ([handleUpload]) *)

(** Lines 296-323: the analysis with its two [try]/[catch]. *)
Definition analyse (env : Env) (text : string) : M (option GeminiAnalysis) :=
  try_catch
    (aiAnalysis <- runGeminiAnalysis env text None ;;
     match parseAnalysis aiAnalysis with
     | Some parsedAnalysis => ret parsedAnalysis
     | None => unfollowed
     end)
    (fun aiErr => toast AIAnalysisWarning ;; ret None).

(** Lines 287-324 (step 0): [(extractedText, parsedAnalysis)]. *)
Definition step0 (env : Env) (file : File)
  : M (option string * option GeminiAnalysis) :=
  if String.eqb (type file) PDF
  then
    setUploadProgress "Extracting text from PDF..." ;;
    text <- extractTextFromPdf env file ;;
    setUploadProgress "Analyzing with Gemini AI..." ;;
    parsedAnalysis <- analyse env text ;;
    ret (Some text, parsedAnalysis)
  else ret (None, None).

(** Lines 330-334. *)
Definition storageKey (userId : string) (timestamp : N) (documentTitle : string)
    (file : File) : string :=
  userId ++ "/" ++ show_N timestamp ++ "-" ++
  replace_ws_runs false documentTitle ++ "." ++ split_pop "." (name file).

(** Lines 424-442. *)
Definition saveDocument (env : Env) (documentData : DocumentData) : M unit :=
  try_catch
    (emit (AddDoc documentData) ;;
     _ <- await (addDoc env documentData) ;;
     toast (UploadSuccessful (anomalyCount documentData)))
    (fun firestoreErr =>
       toast (FirestoreSaveFailed
                (or_else (message firestoreErr) "Could not save to Firestore")) ;;
       throw firestoreErr).

(** Lines 275-453: the body of the outer [try]. *)
Definition uploadBody (env : Env) (file : File) (documentTitle : string) : M unit :=
  (if supabase env then ret tt
   else throw (mkError
     "Supabase is not configured. Please add VITE_SUPABASE_URL and VITE_SUPABASE_ANON_KEY to your .env file")) ;;
  r <- step0 env file ;;
  let '(extractedText, parsedAnalysis) := r in
  setUploadProgress "Uploading file to storage..." ;;
  let userId := opt_or_else (localStorage_userId env) "anonymous" in
  let fileName := storageKey userId (Date_now env) documentTitle file in
  emit (StorageUpload fileName file) ;;
  match storage_upload env fileName file with
  | Some uploadError => throw uploadError
  | None => ret tt
  end ;;
  let publicUrl := getPublicUrl env fileName in
  setUploadProgress "Saving document metadata to Firestore..." ;;
  saveDocument env
    (buildDocumentData documentTitle publicUrl fileName (type file) (size file)
       userId (createdAt_now env) (processedAt_now env) extractedText parsedAnalysis) ;;
  setSelectedFile None ;;
  setDocumentTitle EmptyString ;;
  setAiOutput None ;;
  setExtractedText None ;;
  setUploadProgress EmptyString ;;
  emit (OnOpenChange false) ;;
  emit OnDocumentAdded.

(** [handleUpload] *)
Definition handleUpload (env : Env) : M unit :=
  st <- read ;;
  match selectedFile st with
  | None => toast MissingInformation
  | Some file =>
      if is_empty (trim (documentTitle st)) then toast MissingInformation
      else
        setUploading true ;;
        try_finally
          (try_catch
             (uploadBody env file (documentTitle st))
             (fun error =>
                toast (UploadFailed
                         (or_else (message error) "Failed to upload document"))))
          (setUploading false ;; setUploadProgress EmptyString)
  end.

(** ** Reading a log *)

(** The effects that are a stage of the pipeline: extraction, analysis,
    upload, persistence. *)
Definition is_stage (e : Effect) : bool :=
  match e with
  | GetDocument _ | GenerateContent _ _ | StorageUpload _ _ | AddDoc _ => true
  | ShowToast _ | Progress _ | OnOpenChange _ | OnDocumentAdded => false
  end.

Definition is_AddDoc (e : Effect) : bool :=
  match e with AddDoc _ => true | _ => false end.

Definition is_StorageUpload (e : Effect) : bool :=
  match e with StorageUpload _ _ => true | _ => false end.

(** The records handed to the database, in order. *)
Fixpoint written (log : list Effect) : list DocumentData :=
  match log with
  | [] => []
  | AddDoc d :: log' => d :: written log'
  | _ :: log' => written log'
  end.

(** Whether every write to the database in [log] comes after an upload
    that the object store accepted; [uploaded] tells that such an upload
    came before [log]. *)
Fixpoint writes_follow_upload (env : Env) (uploaded : bool) (log : list Effect) : bool :=
  match log with
  | [] => true
  | StorageUpload fileName file :: log' =>
      writes_follow_upload env
        (match storage_upload env fileName file with
         | None => true
         | Some _ => uploaded
         end) log'
  | AddDoc _ :: log' => uploaded && writes_follow_upload env uploaded log'
  | _ :: log' => writes_follow_upload env uploaded log'
  end.

(** The dialog as first rendered. *)
Definition initialState : ModalState :=
  mkState None EmptyString false EmptyString false None false None.

Definition initialWorld : World := mkWorld initialState false [].

(** ** The dialog as a transition system *)

(** What the user can do: pick a file, remove it, type a title, press one
    of the three buttons. *)
Inductive Action : Type :=
| FileChange (file : option File)
| RemoveFile
| TitleChange (v : string)
| Extract
| Analyze
| Upload.

Definition perform (env : Env) (a : Action) : M unit :=
  match a with
  | FileChange file => handleFileChange file
  | RemoveFile => handleRemoveFile
  | TitleChange v => setDocumentTitle v
  | Extract => handleExtract env
  | Analyze => handleAnalyze env
  | Upload => handleUpload env
  end.

(** The worlds the dialog can be in; the services may answer differently
    from one action to the next. *)
Inductive reachable : World -> Prop :=
| reachable_initial : reachable initialWorld
| reachable_step (env : Env) (a : Action) (w w' : World) (out : Outcome unit) :
    reachable w -> perform env a w = (out, w') -> reachable w'.

(** The file a stage works on. *)
Definition stage_file (e : Effect) : option File :=
  match e with
  | GetDocument f | StorageUpload _ f => Some f
  | _ => None
  end.

(** The two tests of [handleFileChange]. *)
Definition file_accepted (f : File) : bool :=
  negb (MAX_FILE_SIZE <? size f)%N && type_allowed (type f).

End Modal.

(* ================================================================== *)
(** * Sample data                                                      *)
(* ================================================================== *)

(** A configured dialog with a two-page blood report selected, and the
    answers of well-behaved services; the runs below vary one answer at a
    time. *)
Module Sample.
Import Js Pdf Analysis Modal.

Definition report : File := mkFile "cbc report.pdf" 48213 "application/pdf" [].

Definition pages : list (list string) :=
  [["Complete"; "Blood"; "Count"]; ["Hemoglobin"; "9.1"; "g/dL"]].

Definition q (s : string) : string := DQ ++ s ++ DQ.

(** One entry of [tests] as JSON text. *)
Definition test_json (parameter value unit reference_range status : string) : string :=
  "{" ++ q "parameter" ++ ": " ++ q parameter ++ ", "
  ++ q "value" ++ ": " ++ q value ++ ", " ++ q "unit" ++ ": " ++ q unit ++ ", "
  ++ q "reference_range" ++ ": " ++ q reference_range ++ ", "
  ++ q "status" ++ ": " ++ q status ++ "}".

(** A well-formed answer with two abnormal tests. *)
Definition answer : string :=
  "{" ++ q "report_title" ++ ": " ++ q "Complete Blood Count" ++ ", "
  ++ q "tests" ++ ": ["
  ++ test_json "Hemoglobin" "9.1" "g/dL" "12-16" "LOW" ++ ", "
  ++ test_json "WBC" "13.2" "10^3/uL" "4-11" "HIGH" ++ "], "
  ++ q "summary" ++ ": " ++ q "Your hemoglobin is a little low." ++ "}".

(** A scan of the same report. *)
Definition scan : File := mkFile "cbc.png" 730112 "image/png" [].

Definition ready_scan : World :=
  mkWorld (mkState (Some scan) "CBC scan" false EmptyString false None false None)
    false [].

Definition env : Env :=
  {| supabase := true;
     geminiApiKey := "secret";
     localStorage_userId := Some "u7";
     Date_now := 1700000000000;
     createdAt_now := "2023-11-14T22:13:20.000Z";
     processedAt_now := "2023-11-14T22:13:20.000Z";
     getDocument := fun _ => Ok (pdf_of_pages pages);
     generateContent := fun _ _ => Ok answer;
     storage_upload := fun _ _ => None;
     getPublicUrl := fun k => "https://store.example/" ++ k;
     addDoc := fun _ => Ok "doc1" |}.

(** The same with another model and another object store. *)
Definition with_model (model : Prompt -> string -> Res string) (e : Env) : Env :=
  mkEnv (supabase e) (geminiApiKey e) (localStorage_userId e) (Date_now e)
    (createdAt_now e) (processedAt_now e) (getDocument e) model
    (storage_upload e) (getPublicUrl e) (addDoc e).

Definition with_store (store : string -> File -> option Error) (e : Env) : Env :=
  mkEnv (supabase e) (geminiApiKey e) (localStorage_userId e) (Date_now e)
    (createdAt_now e) (processedAt_now e) (getDocument e) (generateContent e)
    store (getPublicUrl e) (addDoc e).

(** The model is down. *)
Definition env_model_down : Env :=
  with_model (fun _ _ => Throw (mkError "503 Service Unavailable")) env.

(** The store refuses the upload. *)
Definition env_store_down : Env :=
  with_store (fun _ _ => Some (mkError "Bucket not found")) env.

(** The model answers in prose. *)
Definition prose : string := "I am sorry, I cannot read this report.".

Definition env_prose : Env := with_model (fun _ _ => Ok prose) env.

(** The model answers with nothing. *)
Definition env_silent : Env := with_model (fun _ _ => Ok EmptyString) env.

(** A well-formed answer whose summary mentions the fence marker. *)
Definition answer_with_marker : string :=
  "{" ++ q "summary" ++ ": " ++ q "Values after ```json are in mg/dL." ++ "}".

(** The dialog with the report selected and a title typed. *)
Definition ready : World :=
  mkWorld (mkState (Some report) "CBC  March" false EmptyString false None false None)
    false [].

Definition key : string := "u7/1700000000000-CBC_March.pdf".

End Sample.

(* ================================================================== *)
(** * Observations on strings, logs and states                         *)
(* ================================================================== *)

(** Predicates in which the properties of the helpers and of the handlers
    are stated. *)
Module Observe.
Import Js Pdf Analysis Modal.

(** No code unit of [s] is white space. *)
Fixpoint no_ws (s : string) : bool :=
  match s with
  | EmptyString => true
  | String c s' => negb (isWhiteSpace c) && no_ws s'
  end.

(** The code unit [c] occurs in [s]. *)
Fixpoint mentions (c : ascii) (s : string) : bool :=
  match s with
  | EmptyString => false
  | String d s' => Ascii.eqb d c || mentions c s'
  end.

(** [e] is a request to the model, to the object store or to the database. *)
Definition leaves_browser (e : Effect) : bool :=
  match e with
  | GenerateContent _ _ | StorageUpload _ _ | AddDoc _ => true
  | _ => false
  end.

Definition is_GetDocument (e : Effect) : bool :=
  match e with GetDocument _ => true | _ => false end.

Definition is_GenerateContent (e : Effect) : bool :=
  match e with GenerateContent _ _ => true | _ => false end.


(** The message thrown when the Supabase client was not created. *)
Definition SUPABASE_MISSING : string :=
  "Supabase is not configured. Please add VITE_SUPABASE_URL and VITE_SUPABASE_ANON_KEY to your .env file".

(** The message thrown when the key of the model is missing. *)
Definition GEMINI_KEY_MISSING : string :=
  "Gemini API key missing. Add VITE_GEMINI_API_KEY to your .env file.".

(** The header of the document part. *)
Definition DOCUMENT_HEADER : string := LF ++ LF ++ "Document Text:" ++ LF.

(** The categories a stored record can have. *)
Definition CATEGORIES : list string :=
  ["Blood Test"; "Kidney Function"; "Liver Function"; "Thyroid"; "Prescription";
   "General Medical Report"; "Uncategorized"].

End Observe.

(* ================================================================== *)
(** * The documents page ([Documents.tsx])                              *)
(* ================================================================== *)

Module Documents.
Import Js Modal.

(** [interface Document] *)
Record Document : Type := mkDocument {
  id : string;
  title : string;
  fileUrl : string;
  category : string;
  documentType : string;
  summary : string;
  anomalies : list string;
  processingStatus : string;
  createdAt : string
}.

(** The three [useState] cells of the page. *)
Record PageState : Type := mkPage {
  uploadModalOpen : bool;
  documents : list Document;
  loading : bool
}.

(** [useState(false)], [useState<Document[]>([])], [useState(true)] *)
Definition initialPage : PageState := mkPage false [] true.

Definition setUploadModalOpen (v : bool) (s : PageState) : PageState :=
  mkPage v (documents s) (loading s).

Definition setDocuments (v : list Document) (s : PageState) : PageState :=
  mkPage (uploadModalOpen s) v (loading s).

Definition setLoading (v : bool) (s : PageState) : PageState :=
  mkPage (uploadModalOpen s) (documents s) v.

(** [fetchDocuments]: the body of the [try] only logs and sets the empty
    array, so the [catch] clause is not entered; the [finally] clause
    follows. *)
Definition fetchDocuments (s : PageState) : PageState :=
  setLoading false (setDocuments [] (setLoading true s)).

(** [handleDocumentAdded] *)
Definition handleDocumentAdded (s : PageState) : PageState := fetchDocuments s.

(** What the page shows for one document (lines 94-104). *)
Record Card : Type := mkCard {
  heading : string;
  subtitle : string;
  text : string;
  processing : bool
}.

Definition card (doc : Document) : Card :=
  {| heading := title doc;
     subtitle := category doc ++ " - " ++ documentType doc;
     text := summary doc;
     processing := String.eqb (processingStatus doc) "PENDING" |}.

(** The part of the page under the header (lines 88-121). *)
Inductive View : Type :=
| Spinner
| DocumentList (cards : list Card)
| NoDocuments.

Definition render (s : PageState) : View :=
  if loading s then Spinner
  else if 0 <? List.length (documents s) then DocumentList (map card (documents s))
  else NoDocuments.

(** What happens to the page: it is mounted (the effect of line 61), one of
    the two Upload Document buttons is pressed, and the dialog calls one of
    its two callbacks. *)
Inductive PageEvent : Type :=
| Mount
| ClickUpload
| OpenChange (open : bool)
| DocumentAdded.

Definition handle (ev : PageEvent) (s : PageState) : PageState :=
  match ev with
  | Mount => fetchDocuments s
  | ClickUpload => setUploadModalOpen true s
  | OpenChange open => setUploadModalOpen open s
  | DocumentAdded => handleDocumentAdded s
  end.

Inductive page_reachable : PageState -> Prop :=
| page_initial : page_reachable initialPage
| page_step (ev : PageEvent) (s : PageState) :
    page_reachable s -> page_reachable (handle ev s).

(** The callbacks of the dialog (lines 123-127): what an effect of the
    dialog does to the page. *)
Definition notify (e : Effect) (s : PageState) : PageState :=
  match e with
  | OnOpenChange open => handle (OpenChange open) s
  | OnDocumentAdded => handle DocumentAdded s
  | _ => s
  end.

(** The page after the effects of a run of the dialog, in their order. *)
Definition after_log (l : list Effect) (s : PageState) : PageState :=
  fold_left (fun s' e => notify e s') l s.

End Documents.

(* ================================================================== *)
(** * The login page ([LoginPage], in the file of the documents page)   *)
(* ================================================================== *)

Module Login.
Import Js Modal.

(** [userCredential.user]: [email] is a string or [null]. *)
Record User : Type := mkUser {
  uid : string;
  email : option string
}.

(** What [signInWithEmailAndPassword] does: it resolves with a user, or
    rejects with an error, whose [code] may be missing. *)
Inductive SignIn : Type :=
| SignedIn (user : User)
| Rejected (code : option string).

(** [localStorage] *)
Definition LocalStorage : Type := string -> option string.

Definition getItem (k : string) (st : LocalStorage) : option string := st k.

Definition setItem (k v : string) (st : LocalStorage) : LocalStorage :=
  fun k' => if String.eqb k' k then Some v else st k'.

(** What the page does to the outside. *)
Inductive LoginEffect : Type :=
| LoginToast (title description : string)
| Navigate (to : string).

Record LoginWorld : Type := mkLogin {
  localStorage : LocalStorage;
  shown : list LoginEffect
}.

(** Lines 240-254: the message for an error code. *)
Definition errorMessage (code : option string) : string :=
  match code with
  | Some c =>
      if String.eqb c "auth/user-not-found" then "No account found with this email."
      else if String.eqb c "auth/wrong-password" then "Incorrect password."
      else if String.eqb c "auth/invalid-email" then "Invalid email address."
      else if String.eqb c "auth/user-disabled" then "This account has been disabled."
      else if String.eqb c "auth/too-many-requests"
           then "Too many failed attempts. Please try again later."
      else "Failed to sign in. Please check your credentials."
  | None => "Failed to sign in. Please check your credentials."
  end.

(** [`${user.email}`] *)
Definition show_email (e : option string) : string :=
  match e with Some s => s | None => "null" end.

(** [handleLogin(values)]; the toast, the two [setItem] and [navigate]
    return. *)
Definition handleLogin (signIn : string -> string -> SignIn)
    (values_email values_password : string) (w : LoginWorld) : LoginWorld :=
  match signIn values_email values_password with
  | SignedIn user =>
      mkLogin
        (setItem "userEmail" (opt_or_else (email user) EmptyString)
           (setItem "userId" (uid user) (localStorage w)))
        (shown w
         ++ [LoginToast "Login Successful"
               ("Welcome back, " ++ show_email (email user) ++ "!");
             Navigate "/patient/dashboard"])%list
  | Rejected code =>
      mkLogin (localStorage w)
        (shown w ++ [LoginToast "Login Failed" (errorMessage code)])%list
  end.

(** [getOrCreateDeviceId()], with the value [crypto.randomUUID()] would
    give: the identifier and the storage after the call. *)
Definition getOrCreateDeviceId (randomUUID : string) (st : LocalStorage)
  : string * LocalStorage :=
  match getItem "deviceId" st with
  | Some deviceId =>
      if is_empty deviceId
      then (randomUUID, setItem "deviceId" randomUUID st)
      else (deviceId, st)
  | None => (randomUUID, setItem "deviceId" randomUUID st)
  end.

(** The services of the dialog when [localStorage] is [st]. *)
Definition with_storage (st : LocalStorage) (e : Env) : Env :=
  mkEnv (supabase e) (geminiApiKey e) (getItem "userId" st) (Date_now e)
    (createdAt_now e) (processedAt_now e) (getDocument e) (generateContent e)
    (storage_upload e) (getPublicUrl e) (addDoc e).

End Login.

(* ================================================================== *)
(** * Facts about the string primitives                                *)
(* ================================================================== *)

Module JsFacts.
Import Js.

Lemma append_nil_r (s : string) : s ++ EmptyString = s.
Proof. induction s as [|c s IH]; simpl; [reflexivity | now rewrite IH]. Qed.

Lemma append_assoc (a b c : string) : (a ++ b) ++ c = a ++ (b ++ c).
Proof. induction a as [|x a IH]; simpl; [reflexivity | now rewrite IH]. Qed.

Lemma length_append (a b : string) :
  String.length (a ++ b) = String.length a + String.length b.
Proof. induction a as [|x a IH]; simpl; [reflexivity | now rewrite IH]. Qed.

Lemma is_empty_true (s : string) : is_empty s = true <-> s = EmptyString.
Proof. destruct s; simpl; split; congruence. Qed.

Lemma is_empty_append (a b : string) :
  is_empty (a ++ b) = is_empty a && is_empty b.
Proof. destruct a; reflexivity. Qed.

(** [concat] with the empty separator is plain concatenation. *)
Lemma concat_empty_cons (x : string) (l : list string) :
  String.concat EmptyString (x :: l) = x ++ String.concat EmptyString l.
Proof.
  destruct l as [|y l]; simpl.
  - now rewrite append_nil_r.
  - reflexivity.
Qed.

(** ** [trimEnd] *)

Lemma trimEnd_all_ws (t : string) : all_ws t = true -> trimEnd t = EmptyString.
Proof.
  induction t as [|c t IH]; simpl; [reflexivity|].
  intros H. apply andb_prop in H as [Hc Ht].
  rewrite (IH Ht), Hc. reflexivity.
Qed.

(** White space at the end is dropped. *)
Lemma trimEnd_app_ws (s t : string) :
  all_ws t = true -> trimEnd (s ++ t) = trimEnd s.
Proof.
  intros Ht. induction s as [|c s IH]; simpl.
  - now apply trimEnd_all_ws.
  - now rewrite IH.
Qed.

(** What precedes a part that is not all white space is kept. *)
Lemma trimEnd_app_keep (s t : string) :
  is_empty (trimEnd t) = false -> trimEnd (s ++ t) = s ++ trimEnd t.
Proof.
  intros Ht. induction s as [|c s IH]; simpl; [reflexivity|].
  rewrite IH, is_empty_append, Ht, !andb_false_r. reflexivity.
Qed.

Lemma trimEnd_idem_nonws (s : string) (c : ascii) :
  isWhiteSpace c = false ->
  trimEnd (s ++ String c EmptyString) = s ++ String c EmptyString.
Proof.
  intros Hc. rewrite trimEnd_app_keep; simpl; rewrite Hc; reflexivity.
Qed.

End JsFacts.

(* ================================================================== *)
(** * Text extraction                                                  *)
(* ================================================================== *)

Module PdfFacts.
Import Js Pdf JsFacts.

Lemma pageLoop_segments (pdf : PDFDocumentProxy) (pages : list (list string)) :
  forall k fullText,
    (forall i, i < List.length pages ->
               getPageItems pdf (k + i) = Ok (nth i pages [])) ->
    pageLoop pdf (List.length pages) k fullText
    = Ok (fullText ++ String.concat EmptyString (segments k pages)).
Proof.
  induction pages as [|items pages IH]; intros k fullText Hget.
  - simpl. now rewrite append_nil_r.
  - cbn [List.length pageLoop].
    generalize (Hget 0 (Nat.lt_0_succ _)). rewrite Nat.add_0_r. cbn [nth].
    intros ->.
    rewrite IH.
    + unfold segments. cbn [List.length seq combine map fst snd].
      rewrite concat_empty_cons, append_assoc. reflexivity.
    + intros i Hi. rewrite Nat.add_succ_l, <- Nat.add_succ_r.
      apply (Hget (S i)). simpl. lia.
Qed.

(** C6.  For a document whose pages all load, the extracted text is the
    trimmed concatenation of one segment per page, taken in page order from
    page 1: each segment is two line feeds, the header [=== Page N ===], a
    line feed and the items of the page joined by single spaces.  The text
    is a function of the pages that pdf.js reads from the bytes: two
    readings with the same pages give the same text. *)
Theorem extractText_pages_in_order (pdf : PDFDocumentProxy) (pages : list (list string)) :
  numPages pdf = List.length pages ->
  (forall i, i < List.length pages ->
             getPageItems pdf (S i) = Ok (nth i pages [])) ->
  extractText pdf = Ok (trim (String.concat EmptyString (segments 1 pages)))
  /\ List.length (segments 1 pages) = numPages pdf
  /\ (forall i, i < numPages pdf ->
        nth i (segments 1 pages) EmptyString
        = LF ++ LF ++ "=== Page " ++ show_nat (S i) ++ " ===" ++ LF
          ++ join " " (nth i pages []))
  /\ (forall pdf',
        numPages pdf' = List.length pages ->
        (forall i, i < List.length pages ->
                   getPageItems pdf' (S i) = Ok (nth i pages [])) ->
        extractText pdf' = extractText pdf).
Proof.
  intros Hn Hget.
  assert (Hclosed : forall p,
             numPages p = List.length pages ->
             (forall i, i < List.length pages ->
                        getPageItems p (S i) = Ok (nth i pages [])) ->
             extractText p = Ok (trim (String.concat EmptyString (segments 1 pages)))).
  { intros p Hp Hgetp. unfold extractText. rewrite Hp.
    rewrite (pageLoop_segments p pages 1 EmptyString); [reflexivity|].
    intros i Hi. now apply Hgetp. }
  split; [|split; [|split]].
  - now apply Hclosed.
  - unfold segments. rewrite length_map, length_combine, length_seq, Hn.
    apply Nat.min_id.
  - intros i Hi. rewrite Hn in Hi. unfold segments.
    set (f := fun p : nat * list string => pageSegment (fst p) (snd p)).
    rewrite (nth_indep _ EmptyString (f (0, [])))
      by (now rewrite length_map, length_combine, length_seq, Nat.min_id).
    rewrite map_nth, combine_nth by (now rewrite length_seq).
    rewrite seq_nth by assumption.
    unfold f, pageSegment, pageHeader. cbn [fst snd].
    rewrite !append_assoc. reflexivity.
  - intros pdf' Hn' Hget'. now rewrite !Hclosed.
Qed.

Lemma extractText_pages_in_order_witness :
  extractText (pdf_of_pages [["Hb"; "9.1"]; ["TSH"]])
  = Ok ("=== Page 1 ===" ++ LF ++ "Hb 9.1" ++ LF ++ LF ++ "=== Page 2 ===" ++ LF ++ "TSH").
Proof.
  destruct (extractText_pages_in_order
              (pdf_of_pages [["Hb"; "9.1"]; ["TSH"]]) [["Hb"; "9.1"]; ["TSH"]])
    as [H _].
  - reflexivity.
  - intros i Hi. simpl. now rewrite Nat.sub_0_r.
  - rewrite H. reflexivity.
Defined.

(** ** Documents without text *)

Lemma trimEnd_pageHeader (k : nat) : trimEnd (pageHeader k) = pageHeader k.
Proof.
  unfold pageHeader.
  change " ===" with (" ==" ++ "=").
  rewrite <- !append_assoc.
  apply trimEnd_idem_nonws. reflexivity.
Qed.

Lemma join_headers_nonempty (k n : nat) :
  is_empty (join SEP3 (map pageHeader (seq k (S n)))) = false.
Proof. destruct n; reflexivity. Qed.

Lemma segments_text_free (k n : nat) :
  segments k (repeat [] (S n))
  = (LF ++ LF ++ pageHeader k ++ LF) :: segments (S k) (repeat [] n).
Proof.
  unfold segments. cbn [repeat List.length seq combine map fst snd].
  unfold pageSegment at 1. cbn [join String.concat].
  now rewrite append_nil_r.
Qed.

Lemma trimEnd_text_free (n : nat) : forall k,
  trimEnd (pageHeader k ++ LF
           ++ String.concat EmptyString (segments (S k) (repeat [] n)))
  = join SEP3 (map pageHeader (seq k (S n))).
Proof.
  induction n as [|n IH]; intros k.
  - cbn [repeat segments List.length seq combine map String.concat join].
    rewrite <- append_assoc, append_nil_r.
    rewrite trimEnd_app_ws by reflexivity.
    apply trimEnd_pageHeader.
  - rewrite segments_text_free, concat_empty_cons.
    replace (pageHeader k ++ LF ++ (LF ++ LF ++ pageHeader (S k) ++ LF)
             ++ String.concat EmptyString (segments (S (S k)) (repeat [] n)))
      with ((pageHeader k ++ SEP3)
            ++ (pageHeader (S k) ++ LF
                ++ String.concat EmptyString (segments (S (S k)) (repeat [] n))))
      by (unfold SEP3; now rewrite !append_assoc).
    rewrite trimEnd_app_keep; rewrite IH.
    + change (seq k (S (S n))) with (k :: seq (S k) (S n)).
      cbn [map]. unfold join.
      change (seq (S k) (S n)) with (S k :: seq (S (S k)) n). cbn [map String.concat].
      now rewrite append_assoc.
    + apply join_headers_nonempty.
Qed.

(** C5, as the handler has it.  When every page of the document loads and
    no page has a text item, extraction succeeds and returns the page
    headers [=== Page 1 ===], ..., [=== Page n ===] separated by three
    line feeds; this is the empty string exactly when the document has no
    page. *)
Theorem extractText_text_free (pdf : PDFDocumentProxy) :
  (forall i, i < numPages pdf -> getPageItems pdf (S i) = Ok []) ->
  extractText pdf = Ok (join SEP3 (headers (numPages pdf)))
  /\ (join SEP3 (headers (numPages pdf)) = EmptyString <-> numPages pdf = 0).
Proof.
  intros Hget. split.
  - unfold extractText.
    rewrite <- (repeat_length (@nil string) (numPages pdf)) at 1.
    rewrite (pageLoop_segments pdf (repeat [] (numPages pdf)) 1 EmptyString).
    + f_equal. cbn [append]. unfold headers.
      destruct (numPages pdf) as [|n]; [reflexivity|].
      rewrite segments_text_free, concat_empty_cons.
      unfold trim.
      replace (trimStart ((LF ++ LF ++ pageHeader 1 ++ LF)
                 ++ String.concat EmptyString (segments 2 (repeat [] n))))
        with (pageHeader 1 ++ LF
                 ++ String.concat EmptyString (segments 2 (repeat [] n)))
        by reflexivity.
      apply trimEnd_text_free.
    + intros i Hi. rewrite repeat_length in Hi.
      rewrite nth_repeat. now apply Hget.
  - unfold headers. destruct (numPages pdf) as [|n].
    + split; reflexivity.
    + split; [|discriminate].
      intros H. generalize (join_headers_nonempty 1 n). rewrite H. discriminate.
Qed.

Lemma extractText_text_free_witness :
  extractText (pdf_of_pages [[]; []])
  = Ok ("=== Page 1 ===" ++ LF ++ LF ++ LF ++ "=== Page 2 ===").
Proof.
  destruct (extractText_text_free (pdf_of_pages [[]; []])) as [H _].
  - intros [|[|i]] Hi; simpl in *; try reflexivity; lia.
  - exact H.
Defined.

(** C5, as stated, fails: a one-page document without any text item is
    extracted to its page header, not to the empty string. *)
Lemma extractText_text_free_not_empty :
  (forall n, getPageItems (pdf_of_pages [[]]) n = Ok [])
  /\ extractText (pdf_of_pages [[]]) = Ok "=== Page 1 ==="
  /\ Ok "=== Page 1 ===" <> Ok EmptyString.
Proof.
  split; [|split].
  - intros [|[|[|n]]]; reflexivity.
  - reflexivity.
  - discriminate.
Qed.

End PdfFacts.

(* ================================================================== *)
(** * White space around a JSON text                                   *)
(* ================================================================== *)

Module JsonFacts.
Import Js Json JsFacts.

(** The seven white-space code units. *)
Lemma isWhiteSpace_cases (c : ascii) :
  isWhiteSpace c = true ->
  In (nat_of_ascii c) [9; 10; 11; 12; 13; 32; 160].
Proof.
  destruct c as [[|] [|] [|] [|] [|] [|] [|] [|]]; cbv; intros H;
    try discriminate H; auto 10.
Qed.

Lemma ascii_of_code (c : ascii) (n : nat) : nat_of_ascii c = n -> c = ascii_of_nat n.
Proof. intros <-. symmetry. apply ascii_nat_embedding. Qed.

(** Case analysis on a white-space code unit. *)
Ltac ws_cases c H :=
  apply isWhiteSpace_cases in H; cbn [In] in H;
  repeat match type of H with
         | _ \/ _ => destruct H as [H | H]
         | False => contradiction
         end;
  symmetry in H; apply ascii_of_code in H; subst c.

(** No letter of a literal name is white space. *)
Lemma literal_letter (l : literal) (read : nat) (r : ascii) :
  String.get read (literal_name l) = Some r -> isWhiteSpace r = false.
Proof.
  destruct l; do 6 (destruct read as [|read]; cbn;
                    [intros [= <-]; reflexivity | try discriminate]).
Qed.

Lemma num_step_ws (ns : num_state) (c : ascii) :
  isWhiteSpace c = true -> num_step ns c = None.
Proof. intros H. ws_cases c H; destruct ns; reflexivity. Qed.

(** In front of a token a white-space code unit is skipped or refused. *)
Lemma step_start_ws (c : ascii) :
  isWhiteSpace c = true ->
  step_start c = Next LStart [] \/ step_start c = Bad.
Proof. intros H. ws_cases c H; cbv; auto. Qed.

(** A white-space code unit never completes anything: if the lexer accepts
    it and can stop after it, it could stop before it with the same
    tokens. *)
Lemma step_ws_finish (st st' : lex_state) (c : ascii) (emitted ts : list token) :
  isWhiteSpace c = true ->
  step st c = Next st' emitted ->
  finish st' = Tokens ts ->
  finish st = Tokens (emitted ++ ts)%list.
Proof.
  intros Hws Hstep Hfin. destruct st as [|acc|acc|acc read code|ns acc|l read].
  - destruct (step_start_ws c Hws) as [E | E]; cbn [step] in Hstep;
      rewrite E in Hstep; [|discriminate].
    injection Hstep as <- <-. exact Hfin.
  - ws_cases c Hws; cbv in Hstep; try discriminate Hstep;
      injection Hstep as <- <-; discriminate Hfin.
  - ws_cases c Hws; cbv in Hstep; discriminate Hstep.
  - ws_cases c Hws; cbv in Hstep; discriminate Hstep.
  - cbn [step] in Hstep. rewrite (num_step_ws ns c Hws) in Hstep.
    cbn [finish]. destruct (num_final ns); [|discriminate].
    destruct (step_start_ws c Hws) as [E | E]; rewrite E in Hstep; [|discriminate].
    injection Hstep as <- <-. cbn [finish] in Hfin. injection Hfin as <-.
    reflexivity.
  - cbn [step] in Hstep.
    destruct (String.get read (literal_name l)) as [r|] eqn:Hget; [|discriminate].
    destruct (Ascii.eqb c r) eqn:Ecr; [|discriminate].
    apply Ascii.eqb_eq in Ecr. subst r.
    rewrite (literal_letter l read c Hget) in Hws. discriminate.
Qed.

(** White space alone adds no token. *)
Lemma lex_from_all_ws (s : string) : forall st ts,
  all_ws s = true -> lex_from st s = Tokens ts -> finish st = Tokens ts.
Proof.
  induction s as [|c s IH]; intros st ts Hws Hlex.
  - exact Hlex.
  - cbn [all_ws] in Hws. apply andb_prop in Hws as [Hc Hs].
    cbn [lex_from] in Hlex.
    destruct (step st c) as [st' emitted| |] eqn:Hstep; try discriminate.
    destruct (lex_from st' s) as [ts'| |] eqn:Hrest; try discriminate.
    injection Hlex as <-.
    apply (step_ws_finish st st' c emitted ts' Hc Hstep).
    now apply IH.
Qed.

Lemma trimEnd_empty_all_ws (s : string) :
  is_empty (trimEnd s) = true -> all_ws s = true.
Proof.
  induction s as [|c s IH]; [reflexivity|].
  cbn [trimEnd all_ws].
  destruct (isWhiteSpace c); cbn [andb]; [|discriminate].
  destruct (is_empty (trimEnd s)); [intros _; now apply IH | discriminate].
Qed.

(** Trimming the end of an accepted text leaves its tokens. *)
Lemma lex_from_trimEnd (s : string) : forall st ts,
  lex_from st s = Tokens ts -> lex_from st (trimEnd s) = Tokens ts.
Proof.
  induction s as [|c s IH]; intros st ts Hlex; [exact Hlex|].
  cbn [trimEnd].
  destruct (isWhiteSpace c && is_empty (trimEnd s)) eqn:E.
  - apply andb_prop in E as [Hc Hs]. cbn [lex_from].
    apply (lex_from_all_ws (String c s)); [|exact Hlex].
    cbn [all_ws]. rewrite Hc. now apply trimEnd_empty_all_ws.
  - cbn [lex_from] in *.
    destruct (step st c) as [st' emitted| |]; try discriminate.
    destruct (lex_from st' s) as [ts'| |] eqn:Hrest; try discriminate.
    now rewrite (IH st' ts' Hrest).
Qed.

(** Trimming the start of an accepted text leaves its tokens. *)
Lemma lex_trimStart (s : string) (ts : list token) :
  lex s = Tokens ts -> lex (trimStart s) = Tokens ts.
Proof.
  unfold lex. induction s as [|c s IH]; intros Hlex; [exact Hlex|].
  cbn [trimStart]. destruct (isWhiteSpace c) eqn:Hc; [|exact Hlex].
  cbn [lex_from step] in Hlex.
  destruct (step_start_ws c Hc) as [E | E]; rewrite E in Hlex; [|discriminate].
  apply IH. destruct (lex_from LStart s); try discriminate. exact Hlex.
Qed.

Lemma lex_trim (s : string) (ts : list token) :
  lex s = Tokens ts -> lex (trim s) = Tokens ts.
Proof.
  intros H. unfold trim, lex. apply lex_from_trimEnd. now apply lex_trimStart.
Qed.

(** A line feed after the text changes nothing. *)
Lemma lex_from_app_LF (s : string) : forall st,
  lex_from st (s ++ LF) = lex_from st s.
Proof.
  induction s as [|c s IH]; intros st.
  - cbn [append]. change LF with (String (ascii_of_nat 10) EmptyString).
    cbn [lex_from].
    destruct st as [|acc|acc|acc read code|ns acc|l read]; try reflexivity.
    + cbn [step finish]. rewrite (num_step_ws ns (ascii_of_nat 10) eq_refl).
      destruct (num_final ns); reflexivity.
    + cbn [step finish].
      destruct (String.get read (literal_name l)) as [r|] eqn:Hget; [|reflexivity].
      destruct (Ascii.eqb (ascii_of_nat 10) r) eqn:Ecr; [|reflexivity].
      apply Ascii.eqb_eq in Ecr. subst r.
      apply literal_letter in Hget. discriminate.
  - cbn [append lex_from]. destruct (step st c); try reflexivity.
    now rewrite IH.
Qed.

Lemma JSON_parse_app_LF (s : string) : JSON_parse (s ++ LF) = JSON_parse s.
Proof. unfold JSON_parse, lex. now rewrite lex_from_app_LF. Qed.

Lemma JSON_parse_lexed (s : string) (v : JsValue) :
  JSON_parse s = Parsed v -> exists ts, lex s = Tokens ts.
Proof.
  unfold JSON_parse. destruct (lex s) as [ts| |]; try discriminate. eauto.
Qed.

(** [JSON.parse] reads a trimmed well-formed text as it reads the text. *)
Lemma JSON_parse_trim (s : string) (v : JsValue) :
  JSON_parse s = Parsed v -> JSON_parse (trim s) = Parsed v.
Proof.
  intros H. destruct (JSON_parse_lexed s v H) as [ts Hts].
  unfold JSON_parse in *. rewrite Hts in H. now rewrite (lex_trim s ts Hts).
Qed.

(** A well-formed text does not start with a backquote. *)
Lemma JSON_parse_no_backquote (s rest : string) (v : JsValue) :
  JSON_parse s = Parsed v -> trim s <> String "`" rest.
Proof.
  intros H E. apply JSON_parse_trim in H. rewrite E in H.
  discriminate H.
Qed.

End JsonFacts.

(* ================================================================== *)
(** * Derived metadata                                                 *)
(* ================================================================== *)

Module AnalysisFacts.
Import Js Json Analysis JsFacts.

(** ** Substrings *)

Lemma prefix_iff (p s : string) :
  prefix p s = true <-> exists post, s = p ++ post.
Proof.
  revert s. induction p as [|c p IH]; intros s.
  - destruct s; simpl; split; eauto.
  - destruct s as [|d s]; simpl.
    + split; [discriminate | intros [post H]; discriminate].
    + destruct (ascii_dec c d) as [->|Hcd].
      * rewrite IH. split; intros [post H]; exists post; congruence.
      * split; [discriminate|]. intros [post H]. congruence.
Qed.

Lemma includes_iff (s p : string) :
  includes s p = true <-> exists pre post, s = pre ++ p ++ post.
Proof.
  induction s as [|c s IH].
  - cbn [includes]. rewrite orb_false_r, prefix_iff. split.
    + intros [post H]. exists EmptyString, post. exact H.
    + intros [pre [post H]]. destruct pre; [|discriminate]. eauto.
  - cbn [includes]. rewrite orb_true_iff, IH, prefix_iff. split.
    + intros [[post H] | [pre [post H]]].
      * exists EmptyString, post. exact H.
      * exists (String c pre), post. simpl. now rewrite H.
    + intros [pre [post H]]. destruct pre as [|d pre].
      * left. exists post. exact H.
      * right. exists pre, post. simpl in H. congruence.
Qed.

Lemma toLowerCase_app (a b : string) :
  toLowerCase (a ++ b) = toLowerCase a ++ toLowerCase b.
Proof. induction a as [|c a IH]; simpl; [reflexivity | now rewrite IH]. Qed.

Lemma toLowerCase_split (a b : string) : forall t,
  toLowerCase t = a ++ b ->
  exists t1 t2, t = t1 ++ t2 /\ toLowerCase t1 = a /\ toLowerCase t2 = b.
Proof.
  induction a as [|c a IH]; intros t H.
  - exists EmptyString, t. auto.
  - destruct t as [|d t]; [discriminate|].
    simpl in H. injection H as Hc Ht.
    destruct (IH t Ht) as [t1 [t2 [-> [H1 H2]]]].
    exists (String d t1), t2. simpl. rewrite Hc, H1. auto.
Qed.

(** Looking for a keyword in the lower-cased title is looking for it in the
    title without regard to letter case. *)
Lemma includes_lower_ci (title kw : string) :
  includes (toLowerCase title) (toLowerCase kw) = true <-> ci_substring title kw.
Proof.
  rewrite includes_iff. unfold ci_substring. split.
  - intros [pre [post H]].
    apply toLowerCase_split in H as [t1 [r [-> [_ H]]]].
    apply toLowerCase_split in H as [t2 [t3 [-> [H2 _]]]].
    now exists t1, t2, t3.
  - intros [pre [mid [post [-> H]]]].
    exists (toLowerCase pre), (toLowerCase post).
    now rewrite !toLowerCase_app, H.
Qed.

(** ** The category *)

Lemma or_else_empty (s : string) : or_else s EmptyString = s.
Proof. now destruct s. Qed.

(** The chain of tests of the handler is the ordered list of rules, read on
    the title the model supplied. *)
Lemma deriveCategory_rules (pa : GeminiAnalysis) :
  deriveCategory pa = categoryOf (modelTitle pa).
Proof.
  unfold deriveCategory, categoryOf, modelTitle.
  destruct (report_title pa) as [s|]; [rewrite or_else_empty|]; reflexivity.
Qed.

Lemma firstMatch_first (title : string) (before after : list (string * string))
    (kw cat : string) :
  toLowerCase kw = kw ->
  Forall (fun r => toLowerCase (fst r) = fst r) before ->
  ci_substring title kw ->
  (forall r, In r before -> ~ ci_substring title (fst r)) ->
  firstMatch (before ++ (kw, cat) :: after) title = cat.
Proof.
  intros Hkw Hlow Hin Hbefore.
  induction before as [|[kw' cat'] before IH]; cbn [app firstMatch].
  - rewrite <- Hkw, (proj2 (includes_lower_ci title kw) Hin). reflexivity.
  - inversion Hlow as [|? ? Hkw' Hlow']; subst. cbn [fst] in Hkw'.
    destruct (includes (toLowerCase title) kw') eqn:E.
    + exfalso. apply (Hbefore (kw', cat')); [now left|].
      cbn [fst]. apply includes_lower_ci. now rewrite Hkw'.
    + apply IH; [assumption|]. intros r Hr. apply Hbefore. now right.
Qed.

Lemma firstMatch_none (title : string) (rules : list (string * string)) :
  Forall (fun r => toLowerCase (fst r) = fst r) rules ->
  (forall r, In r rules -> ~ ci_substring title (fst r)) ->
  firstMatch rules title = DEFAULT_CATEGORY.
Proof.
  intros Hlow Hnone.
  induction rules as [|[kw cat] rules IH]; cbn [firstMatch]; [reflexivity|].
  inversion Hlow as [|? ? Hkw Hlow']; subst. cbn [fst] in Hkw.
  destruct (includes (toLowerCase title) kw) eqn:E.
  - exfalso. apply (Hnone (kw, cat)); [now left|].
    cbn [fst]. apply includes_lower_ci. now rewrite Hkw.
  - apply IH; [assumption|]. intros r Hr. apply Hnone. now right.
Qed.

Lemma categoryRules_lower :
  Forall (fun r => toLowerCase (fst r) = fst r) categoryRules.
Proof. repeat constructor. Qed.

Lemma Forall_app_l {A} (P : A -> Prop) (l1 l2 : list A) :
  Forall P (l1 ++ l2)%list -> Forall P l1.
Proof. intros H. now apply Forall_app in H. Qed.

(** C7, as the handler has it.  The category is a function of the report
    title the model supplied (the empty string when it supplied none): it is
    the category of the first rule, in the order blood, kidney, liver,
    thyroid, prescription, whose keyword occurs in that title when letter
    case is ignored, and General Medical Report when no keyword occurs. *)
Theorem category_first_rule (pa : GeminiAnalysis) :
  deriveCategory pa = categoryOf (modelTitle pa)
  /\ (forall before kw cat after,
        categoryRules = (before ++ (kw, cat) :: after)%list ->
        ci_substring (modelTitle pa) kw ->
        (forall r, In r before -> ~ ci_substring (modelTitle pa) (fst r)) ->
        deriveCategory pa = cat)
  /\ ((forall r, In r categoryRules -> ~ ci_substring (modelTitle pa) (fst r)) ->
      deriveCategory pa = "General Medical Report").
Proof.
  split; [apply deriveCategory_rules|]. split.
  - intros before kw cat after Hrules Hin Hbefore.
    rewrite deriveCategory_rules. unfold categoryOf. rewrite Hrules.
    pose proof categoryRules_lower as Hlow. rewrite Hrules in Hlow.
    apply firstMatch_first; try assumption.
    + apply Forall_app in Hlow as [_ Hlow].
      inversion Hlow; subst. assumption.
    + now apply Forall_app_l in Hlow.
  - intros Hnone. rewrite deriveCategory_rules.
    apply firstMatch_none; [apply categoryRules_lower | assumption].
Qed.

Lemma category_first_rule_witness :
  deriveCategory (mkAnalysis (Some "Kidney Function Test Report") None None None None)
  = "Kidney Function".
Proof.
  destruct (category_first_rule
              (mkAnalysis (Some "Kidney Function Test Report") None None None None))
    as [_ [Hfirst _]].
  apply (Hfirst [("blood", "Blood Test")] "kidney" "Kidney Function"
           [("liver", "Liver Function"); ("thyroid", "Thyroid");
            ("prescription", "Prescription")]).
  - reflexivity.
  - exists EmptyString, "Kidney", " Function Test Report". split; reflexivity.
  - intros r [<- | []] Hin. apply includes_lower_ci in Hin. discriminate Hin.
Defined.

(** The example of the specification. *)
Example category_kidney_report :
  deriveCategory (mkAnalysis (Some "Kidney Function Test Report") None None None None)
  = "Kidney Function".
Proof. reflexivity. Qed.

(** The order of the rules matters: a title with two keywords. *)
Example category_blood_before_liver :
  deriveCategory (mkAnalysis (Some "LIVER panel and Blood count") None None None None)
  = "Blood Test".
Proof. reflexivity. Qed.

(** C7, as stated, fails on the stored [reportTitle]: when the model's
    answer is not JSON the stored findings take the title of the document,
    here one with the keyword blood, and the category is still General
    Medical Report. *)
Lemma category_ignores_stored_title :
  let pa := fallbackAnalysis "Sorry, I cannot read this report." in
  let d := buildDocumentData "Blood work" "https://store/key" "key"
             "application/pdf" 1 "u" "t0" "t1" None (Some pa) in
  parseAnalysis "Sorry, I cannot read this report." = Some (Some pa)
  /\ option_map reportTitle (aiAnalysis d) = Some "Blood work"
  /\ categoryOf "Blood work" = "Blood Test"
  /\ category d = "General Medical Report".
Proof. repeat split; vm_compute; reflexivity. Qed.

(** ** Anomalies *)

Lemma deriveAnomalies_spec (pa : GeminiAnalysis) (documentTitle now : string) :
  deriveAnomalies pa
  = (map anomalyLine (ai_tests (buildAiAnalysis pa documentTitle now)),
     0 <? List.length (ai_tests (buildAiAnalysis pa documentTitle now)),
     List.length (ai_tests (buildAiAnalysis pa documentTitle now))).
Proof.
  unfold deriveAnomalies, buildAiAnalysis. cbn [ai_tests].
  destruct (tests pa) as [[|t ts]|]; reflexivity.
Qed.

(** C8.  In the record built from a parsed analysis, the metadata is
    derived from the [tests] of that analysis (no test when the analysis
    has none), which are also the tests stored in [aiAnalysis]:
    [anomalies] has one line per test, in the same order, the line of a
    test being its parameter, a colon, its value, its unit and its status
    in parentheses; [anomalyCount] is the number of tests; [hasAnomalies]
    is true exactly when that number is positive. *)
Theorem anomalies_follow_tests
    (documentTitle publicUrl fileName fileType : string) (fileSize : N)
    (userId createdAt processedAt : string) (extractedText : option string)
    (pa : GeminiAnalysis) :
  let d := buildDocumentData documentTitle publicUrl fileName fileType fileSize
             userId createdAt processedAt extractedText (Some pa) in
  let the_tests := match tests pa with Some ts => ts | None => [] end in
  option_map ai_tests (aiAnalysis d) = Some the_tests
  /\ anomalyCount d = Some (List.length the_tests)
  /\ (exists lines,
        anomalies d = Some lines
        /\ List.length lines = List.length the_tests
        /\ forall i test,
             nth_error the_tests i = Some test ->
             nth_error lines i
             = Some (t_parameter test ++ ": " ++ t_value test ++ " " ++ t_unit test
                     ++ " (" ++ t_status test ++ ")"))
  /\ (exists has,
        hasAnomalies d = Some has
        /\ (has = true <-> 0 < List.length the_tests)).
Proof.
  cbv zeta. unfold buildDocumentData.
  rewrite (deriveAnomalies_spec pa documentTitle processedAt).
  cbn [aiAnalysis anomalies hasAnomalies anomalyCount option_map].
  unfold buildAiAnalysis. cbn [ai_tests].
  split; [reflexivity|]. split; [reflexivity|]. split.
  - eexists. split; [reflexivity|]. split; [apply length_map|].
    intros i test Hi. rewrite nth_error_map, Hi. reflexivity.
  - eexists. split; [reflexivity|]. apply Nat.ltb_lt.
Qed.

(** ** The title behind the category *)

(** C10.  The category is read off the [report_title] of the parsed
    analysis alone, lower-cased, the empty string standing for a missing
    one.  When the model supplied none, the category is General Medical
    Report, while the stored findings carry the title of the document as
    their [reportTitle]. *)
Theorem category_without_model_title
    (documentTitle publicUrl fileName fileType : string) (fileSize : N)
    (userId createdAt processedAt : string) (extractedText : option string)
    (pa : GeminiAnalysis) :
  let d := buildDocumentData documentTitle publicUrl fileName fileType fileSize
             userId createdAt processedAt extractedText (Some pa) in
  category d = firstMatch categoryRules (modelTitle pa)
  /\ (report_title pa = None ->
      category d = "General Medical Report"
      /\ option_map reportTitle (aiAnalysis d) = Some documentTitle).
Proof.
  intros d. subst d. unfold buildDocumentData.
  destruct (deriveAnomalies pa) as [[lines has] count].
  cbn [category aiAnalysis option_map].
  rewrite deriveCategory_rules. split; [reflexivity|].
  intros Hnone. unfold modelTitle, buildAiAnalysis.
  cbn [reportTitle]. rewrite Hnone. split; reflexivity.
Qed.

Lemma category_without_model_title_witness :
  let pa := mkAnalysis None (Some "Dr. Rao") None None (Some "Thyroid values are fine.") in
  let d := buildDocumentData "Thyroid check" "https://store/key" "key"
             "application/pdf" 1 "u" "t0" "t1" None (Some pa) in
  report_title pa = None
  /\ category d = "General Medical Report"
  /\ option_map reportTitle (aiAnalysis d) = Some "Thyroid check".
Proof.
  cbv zeta. split; [reflexivity|].
  apply (category_without_model_title "Thyroid check" "https://store/key" "key"
           "application/pdf" 1 "u" "t0" "t1" None
           (mkAnalysis None (Some "Dr. Rao") None None (Some "Thyroid values are fine."))).
  reflexivity.
Defined.

(** ** The fence *)

Lemma includes_cons_false (a : ascii) (s pat : string) :
  includes (String a s) pat = false ->
  prefix pat (String a s) = false /\ includes s pat = false.
Proof. cbn [includes]. intros H. now apply orb_false_elim in H. Qed.

(** A pattern without the code unit [c] cannot reach across a [c]. *)
Lemma prefix_app_sep (c : ascii) (t : string) (pat : string) : forall x,
  includes pat (String c EmptyString) = false ->
  prefix pat (x ++ String c t) = prefix pat x.
Proof.
  induction pat as [|p pat IH]; intros x Hc.
  - now destruct x.
  - apply includes_cons_false in Hc as [Hp Hrest].
    destruct x as [|a x]; cbn [append prefix].
    + cbn [prefix] in Hp. destruct (ascii_dec p c) as [->|Hpc]; [|reflexivity].
      destruct (ascii_dec c c) as [_|Hcc]; [|contradiction].
      destruct pat; discriminate Hp.
    + destruct (ascii_dec p a); [now apply IH | reflexivity].
Qed.

(** Deleting a pattern that does not occur before a separating [c]. *)
Lemma remove_all_app_sep (pat : string) (c : ascii) (t : string) : forall s,
  includes s pat = false ->
  includes pat (String c EmptyString) = false ->
  remove_all pat 0 (s ++ String c t) = s ++ remove_all pat 0 (String c t).
Proof.
  induction s as [|a s IH]; intros Hs Hc; [reflexivity|].
  apply includes_cons_false in Hs as [Hp Hs].
  cbn [append remove_all].
  change (String a (s ++ String c t)) with (String a s ++ String c t).
  rewrite prefix_app_sep, Hp by assumption.
  now rewrite IH.
Qed.

Lemma eqb_length_neq (x y : string) :
  String.length x <> String.length y -> String.eqb x y = false.
Proof. intros H. apply String.eqb_neq. intros ->. now apply H. Qed.

(** The closing fence after a line feed is deleted, the line feed stays. *)
Lemma remove_final_closing (s : string) :
  remove_final FENCE (s ++ LF ++ FENCE) = s ++ LF.
Proof.
  induction s as [|a s IH]; [reflexivity|].
  cbn [append remove_final].
  rewrite !eqb_length_neq, IH; [reflexivity | |];
    cbn [String.length]; rewrite !length_append; cbn; lia.
Qed.

(** A text between backquotes is trimmed already. *)
Lemma trim_backquoted (x : string) :
  trim (String "`" (x ++ "`")) = String "`" (x ++ "`").
Proof.
  unfold trim. cbn [trimStart]. change (isWhiteSpace "`") with false. cbv iota.
  change (String "`" (x ++ "`")) with (String "`" x ++ "`").
  now apply trimEnd_idem_nonws.
Qed.

Lemma trim_fence_tagged (s : string) : trim (fence_tagged s) = fence_tagged s.
Proof.
  unfold fence_tagged, JSON_FENCE, FENCE.
  replace ("```json" ++ LF ++ s ++ LF ++ "```")
    with (String "`" (("``json" ++ LF ++ s ++ LF ++ "``") ++ "`"))
    by (cbn [append]; now rewrite !append_assoc).
  apply trim_backquoted.
Qed.

Lemma trim_fence_plain (s : string) : trim (fence_plain s) = fence_plain s.
Proof.
  unfold fence_plain, FENCE.
  replace ("```" ++ LF ++ s ++ LF ++ "```")
    with (String "`" (("``" ++ LF ++ s ++ LF ++ "``") ++ "`"))
    by (cbn [append]; now rewrite !append_assoc).
  apply trim_backquoted.
Qed.

(** What is handed to [JSON.parse] for a fenced answer that does not
    contain the marker: the answer and a line feed. *)
Lemma cleanJson_fence_tagged (s : string) :
  includes s JSON_FENCE = false -> cleanJson (fence_tagged s) = s ++ LF.
Proof.
  intros Hs. unfold cleanJson. rewrite trim_fence_tagged.
  replace (startsWith (fence_tagged s) JSON_FENCE) with true by reflexivity.
  replace (remove_all JSON_FENCE 0 (fence_tagged s))
    with (remove_all JSON_FENCE 0 (s ++ String (ascii_of_nat 10) FENCE))
    by reflexivity.
  rewrite remove_all_app_sep by (assumption || reflexivity).
  replace (remove_all JSON_FENCE 0 (String (ascii_of_nat 10) FENCE))
    with (LF ++ FENCE) by reflexivity.
  apply remove_final_closing.
Qed.

Lemma cleanJson_fence_plain (s : string) :
  includes s FENCE = false -> cleanJson (fence_plain s) = s ++ LF.
Proof.
  intros Hs. unfold cleanJson. rewrite trim_fence_plain.
  replace (startsWith (fence_plain s) JSON_FENCE) with false by reflexivity.
  replace (startsWith (fence_plain s) FENCE) with true by reflexivity.
  replace (remove_all FENCE 0 (fence_plain s))
    with (remove_all FENCE 0 (s ++ String (ascii_of_nat 10) FENCE))
    by reflexivity.
  rewrite remove_all_app_sep by (assumption || reflexivity).
  reflexivity.
Qed.

(** An answer that [JSON.parse] accepts has no fence to remove. *)
Lemma cleanJson_well_formed (s : string) (v : JsValue) :
  JSON_parse s = Parsed v -> cleanJson s = trim s.
Proof.
  intros H. unfold cleanJson, startsWith.
  destruct (prefix JSON_FENCE (trim s)) eqn:E1.
  - apply prefix_iff in E1 as [post E1].
    now apply (JsonFacts.JSON_parse_no_backquote s _ v H) in E1.
  - destruct (prefix FENCE (trim s)) eqn:E2; [|reflexivity].
    apply prefix_iff in E2 as [post E2].
    now apply (JsonFacts.JSON_parse_no_backquote s _ v H) in E2.
Qed.

(** X27.  The fence is removed without loss from a well-formed answer in
    which the marker does not occur: [```json] for the tagged fence, three
    backquotes for the plain one. *)
Theorem fence_removed_without_marker (s : string) (v : JsValue) :
  JSON_parse s = Parsed v ->
  JSON_parse (cleanJson s) = Parsed v
  /\ (includes s JSON_FENCE = false ->
      parseAnalysis (fence_tagged s) = parseAnalysis s)
  /\ (includes s FENCE = false ->
      parseAnalysis (fence_plain s) = parseAnalysis s).
Proof.
  intros H.
  assert (H0 : JSON_parse (cleanJson s) = Parsed v).
  { rewrite (cleanJson_well_formed s v H). now apply JsonFacts.JSON_parse_trim. }
  split; [exact H0|]. split; intros Hs; unfold parseAnalysis.
  - now rewrite cleanJson_fence_tagged, JsonFacts.JSON_parse_app_LF, H, H0.
  - now rewrite cleanJson_fence_plain, JsonFacts.JSON_parse_app_LF, H, H0.
Qed.

Lemma fence_removed_without_marker_witness :
  includes Sample.answer FENCE = false
  /\ parseAnalysis (fence_plain Sample.answer) = parseAnalysis Sample.answer.
Proof.
  split; [reflexivity|].
  destruct (JSON_parse Sample.answer) as [v| |] eqn:E; try discriminate E.
  apply (fence_removed_without_marker Sample.answer v E). reflexivity.
Defined.

(** The examples of a fenced answer: the fence is removed. *)
Example fence_tagged_removed :
  parseAnalysis (fence_tagged Sample.answer) = parseAnalysis Sample.answer
  /\ parseAnalysis (fence_plain Sample.answer) = parseAnalysis Sample.answer.
Proof. split; vm_compute; reflexivity. Qed.

(** C4 at an answer whose summary mentions the marker: without the fence
    the summary is kept, inside a tagged fence the marker is cut out of the
    summary, inside a plain fence the three backquotes are. *)
Lemma fence_removal_alters_summary :
  option_map (option_map summary) (parseAnalysis Sample.answer_with_marker)
  = Some (Some (Some "Values after ```json are in mg/dL."))
  /\ option_map (option_map summary)
       (parseAnalysis (fence_tagged Sample.answer_with_marker))
     = Some (Some (Some "Values after  are in mg/dL."))
  /\ option_map (option_map summary)
       (parseAnalysis (fence_plain Sample.answer_with_marker))
     = Some (Some (Some "Values after json are in mg/dL.")).
Proof. repeat split; vm_compute; reflexivity. Qed.

End AnalysisFacts.

(* ================================================================== *)
(** * The handlers                                                     *)
(* ================================================================== *)

Module ModalFacts.
Import Js Pdf Analysis Modal JsFacts.
Local Open Scope handler_scope.

(** Unfolds the handlers and the monad, nothing else. *)
Ltac run_handlers :=
  cbv beta iota zeta delta
    [handleUpload uploadBody step0 analyse saveDocument
     Modal.extractTextFromPdf runGeminiAnalysis
     handleFileChange handleRemoveFile handleExtract handleAnalyze
     bind ret throw unfollowed try_catch try_finally await emit toast update read
     setSelectedFile setDocumentTitle setUploading setUploadProgress
     setAiLoading setAiOutput setExtractLoading setExtractedText
     configurePdfWorker
     modal workerConfigured effects
     selectedFile documentTitle uploading uploadProgress aiLoading aiOutput
     extractLoading Modal.extractedText].

Ltac run_handlers_in H :=
  cbv beta iota zeta delta
    [handleUpload uploadBody step0 analyse saveDocument
     Modal.extractTextFromPdf runGeminiAnalysis
     handleFileChange handleRemoveFile handleExtract handleAnalyze
     bind ret throw unfollowed try_catch try_finally await emit toast update read
     setSelectedFile setDocumentTitle setUploading setUploadProgress
     setAiLoading setAiOutput setExtractLoading setExtractedText
     configurePdfWorker
     modal workerConfigured effects
     selectedFile documentTitle uploading uploadProgress aiLoading aiOutput
     extractLoading Modal.extractedText] in H.

Lemma handleUpload_validation (env : Env) (w : World) :
  selectedFile (modal w) = None \/ trim (documentTitle (modal w)) = EmptyString ->
  handleUpload env w
  = (Returned tt,
     mkWorld (modal w) (workerConfigured w)
       (effects w ++ [ShowToast MissingInformation])%list).
Proof.
  destruct w as [[file title ? ? ? ? ? ?] wc log]. cbn [modal selectedFile documentTitle].
  intros [H | H]; run_handlers.
  - rewrite H. reflexivity.
  - destruct file; [rewrite H|]; reflexivity.
Qed.

(** ** The log of a run *)

(** Puts a log in the form [before ++ new]. *)
Ltac flatten_log := repeat rewrite <- app_assoc; cbn [app].

(** Case analysis on the answers of the services a run depends on: the
    innermost undecided test first, then the handlers are unfolded again. *)
Ltac split_run H :=
  repeat match type of H with
         | context [match ?x with _ => _ end] =>
             lazymatch x with
             | context [match _ with _ => _ end] => fail
             | _ => destruct x eqn:?; run_handlers_in H
             end
         end.

(** Uses the recorded answers in the goal. *)
Ltac use_answers :=
  repeat match goal with
         | E : ?x = _ |- context [match ?x with _ => _ end] => rewrite E
         end.

Lemma writes_follow_upload_sound (env : Env) (log : list Effect) :
  forall uploaded,
    writes_follow_upload env uploaded log = true ->
    forall d before after,
      log = (before ++ AddDoc d :: after)%list ->
      uploaded = true
      \/ exists fileName file,
           In (StorageUpload fileName file) before
           /\ storage_upload env fileName file = None.
Proof.
  induction log as [|e log IH]; intros uploaded Hok d before after Hlog.
  - destruct before; discriminate.
  - destruct before as [|e' before].
    + injection Hlog as -> _. cbn [writes_follow_upload] in Hok.
      apply andb_prop in Hok as [Hu _]. now left.
    + injection Hlog as <- Hlog.
      assert (Hlift : forall u,
                 writes_follow_upload env u log = true ->
                 u = true
                 \/ exists k f, In (StorageUpload k f) (e :: before)
                                /\ storage_upload env k f = None).
      { intros u Hu. destruct (IH u Hu d before after Hlog) as [Ht | [k [f [Hin Hs]]]].
        - now left.
        - right. exists k, f. split; [now right | exact Hs]. }
      destruct e as [t | text | f0 | p dp | k0 f0 | d0 | o | ];
        cbn [writes_follow_upload] in Hok;
        try (destruct (Hlift _ Hok) as [Hu | Hex]; [now left | now right]).
      * destruct (storage_upload env k0 f0) eqn:Eup.
        -- destruct (Hlift _ Hok) as [Hu | Hex]; [now left | now right].
        -- right. exists k0, f0. split; [now left | exact Eup].
      * apply andb_prop in Hok as [Hu _]. now left.
Qed.

Lemma handleUpload_log (env : Env) (w w' : World) (out : Outcome unit) :
  handleUpload env w = (out, w') ->
  exists l, effects w' = (effects w ++ l)%list
            /\ writes_follow_upload env false l = true.
Proof.
  destruct w as [[file title ? ? ? ? ? ?] wc log].
  intros H. run_handlers_in H. split_run H.
  all: injection H as Hout Hw; subst out w'; cbn [effects]; flatten_log.
  all: eexists; split; [reflexivity|].
  all: cbn [writes_follow_upload andb].
  all: use_answers; reflexivity.
Qed.

(** Starts the analysis of a run recorded in [H]. *)
Ltac analyse_run H :=
  run_handlers_in H; split_run H;
  match type of H with
  | (_, _) = (?out, ?w') =>
      injection H as ? ?; subst out w'; cbn [effects modal]; flatten_log
  end.

(** Decides a membership in a log that is written out. *)
Ltac log_cases H :=
  cbn [In] in H;
  repeat match type of H with
         | _ \/ _ => destruct H as [H | H]
         end;
  try contradiction; try discriminate H.

(** [handleUpload] catches what its stages throw: a run returns, unless
    the model answered with JSON outside the declared type, where the
    embedding stops. *)
Lemma handleUpload_returns (env : Env) (w w' : World) (out : Outcome unit) :
  handleUpload env w = (out, w') ->
  out = Returned tt
  \/ (out = Unfollowed
      /\ exists text raw,
           generateContent env DefaultPrompt (documentPart text) = Ok raw
           /\ parseAnalysis raw = None).
Proof.
  destruct w as [[file title ? ? ? ? ? ?] wc log].
  intros H. run_handlers_in H. split_run H.
  all: injection H as Hout Hw; subst out w'.
  all: try (now left).
  all: right; split; [reflexivity|].
  all: change (choosePrompt None) with DefaultPrompt in *; eauto.
Qed.

(** ** Validation *)

Lemma file_accepted_false (f : File) :
  file_accepted f = false
  <-> (MAX_FILE_SIZE < size f)%N \/ ~ In (type f) allowedTypes.
Proof.
  unfold file_accepted, type_allowed.
  rewrite andb_false_iff, negb_false_iff, N.ltb_lt.
  split; (intros [H | H]; [now left | right]).
  - intros Hin. rewrite <- not_true_iff_false in H. apply H.
    apply existsb_exists. exists (type f). split; [assumption | apply String.eqb_refl].
  - apply not_true_iff_false. intros Hex.
    apply existsb_exists in Hex as [t [Hin Heq]].
    apply String.eqb_eq in Heq. subst t. contradiction.
Qed.

Lemma handleFileChange_rejects (file : File) (w : World) :
  file_accepted file = false ->
  exists t,
    handleFileChange (Some file) w
    = (Returned tt,
       mkWorld (modal w) (workerConfigured w) (effects w ++ [ShowToast t])%list)
    /\ (t = FileTooLarge \/ t = InvalidFileType).
Proof.
  unfold file_accepted. intros H. run_handlers.
  destruct (MAX_FILE_SIZE <? size file)%N.
  - exists FileTooLarge. auto.
  - cbn [negb andb] in H. rewrite H. cbn [negb].
    exists InvalidFileType. auto.
Qed.

(** What holds of every world the dialog can be in: the selected file, and
    every file a stage has worked on, passed the tests of the selection. *)
Lemma perform_keeps_accepted (env : Env) (a : Action) (w w' : World)
    (out : Outcome unit) :
  perform env a w = (out, w') ->
  (forall f, selectedFile (modal w) = Some f -> file_accepted f = true) ->
  (forall f, selectedFile (modal w') = Some f -> file_accepted f = true)
  /\ exists l, effects w' = (effects w ++ l)%list
               /\ forall e f, In e l -> stage_file e = Some f -> file_accepted f = true.
Proof.
  destruct w as [[file title ? ? ? ? ? ?] wc log].
  cbn [modal selectedFile]. intros H Hsel.
  destruct a as [[picked|] | | v | | | ]; cbn [perform] in H.
  - (* a file is picked *)
    run_handlers_in H.
    destruct (MAX_FILE_SIZE <? size picked)%N eqn:Hsize;
      [|destruct (type_allowed (type picked)) eqn:Htype; cbn [negb] in H;
        [destruct (is_empty title)|]];
      injection H as ? ?; subst out w'; cbn [effects modal selectedFile]; flatten_log.
    all: split;
      [ try assumption
      | try (exists []; split; [now rewrite app_nil_r | intros ? ? []]);
        try (eexists; split; [reflexivity | intros eff afile He; log_cases He; subst eff; discriminate]) ].
    all: intros afile Hf; injection Hf as <-; unfold file_accepted;
      now rewrite Hsize, Htype.
  - injection H as ? ?; subst out w'. split; [assumption|].
    exists []. split; [now rewrite app_nil_r | intros ? ? []].
  - run_handlers_in H. injection H as ? ?; subst out w'.
    cbn [modal selectedFile effects]. split; [discriminate|].
    exists []. split; [now rewrite app_nil_r | intros ? ? []].
  - run_handlers_in H. injection H as ? ?; subst out w'.
    cbn [modal selectedFile effects]. split; [assumption|].
    exists []. split; [now rewrite app_nil_r | intros ? ? []].
  - analyse_run H.
    all: cbn [selectedFile]; split; [try assumption; try discriminate|].
    all: eexists; split; [reflexivity|].
    all: intros eff afile He Hst; log_cases He; subst eff; try discriminate Hst.
    all: injection Hst as <-; now apply Hsel.
  - analyse_run H.
    all: cbn [selectedFile]; split; [try assumption; try discriminate|].
    all: eexists; split; [reflexivity|].
    all: intros eff afile He Hst; log_cases He; subst eff; try discriminate Hst.
    all: injection Hst as <-; now apply Hsel.
  - analyse_run H.
    all: cbn [selectedFile]; split; [try assumption; try discriminate|].
    all: eexists; split; [reflexivity|].
    all: intros eff afile He Hst; log_cases He; subst eff; try discriminate Hst.
    all: injection Hst as <-; now apply Hsel.
Qed.

Lemma reachable_accepted (w : World) :
  reachable w ->
  (forall f, selectedFile (modal w) = Some f -> file_accepted f = true)
  /\ (forall e f, In e (effects w) -> stage_file e = Some f -> file_accepted f = true).
Proof.
  induction 1 as [|env a w w' out Hreach [IHsel IHlog] Hstep].
  - split; [discriminate | intros ? ? []].
  - destruct (perform_keeps_accepted env a w w' out Hstep IHsel)
      as [Hsel [l [Hl Hnew]]].
    split; [assumption|].
    intros e f He. rewrite Hl in He. apply in_app_or in He as [He | He].
    + now apply IHlog.
    + now apply Hnew.
Qed.

(** C9.  Without a selected file, or with a title that is empty once
    trimmed, [handleUpload] only shows the toast Missing information: the
    state is unchanged and no stage runs.  A file above 10 MiB or of a type
    outside the accepted ones is turned down by [handleFileChange] with a
    toast and no other change; such a file is therefore never the selected
    file, and no stage ever works on it. *)
Theorem invalid_input_rejected_before_pipeline (env : Env) (w : World) (file : File) :
  (selectedFile (modal w) = None \/ trim (documentTitle (modal w)) = EmptyString ->
   handleUpload env w
   = (Returned tt,
      mkWorld (modal w) (workerConfigured w)
        (effects w ++ [ShowToast MissingInformation])%list))
  /\ ((10 * 1024 * 1024 < size file)%N
      \/ ~ In (type file) ["application/pdf"; "image/jpeg"; "image/png"; "image/jpg"] ->
      (exists t,
         handleFileChange (Some file) w
         = (Returned tt,
            mkWorld (modal w) (workerConfigured w) (effects w ++ [ShowToast t])%list)
         /\ (t = FileTooLarge \/ t = InvalidFileType))
      /\ (reachable w ->
          selectedFile (modal w) <> Some file
          /\ forall e, In e (effects w) -> stage_file e <> Some file)).
Proof.
  split; [apply handleUpload_validation|].
  intros Hbad. apply file_accepted_false in Hbad.
  split; [now apply handleFileChange_rejects|].
  intros Hreach. apply reachable_accepted in Hreach as [Hsel Hlog].
  split.
  - intros Hf. apply Hsel in Hf. congruence.
  - intros e He Hf. apply (Hlog e file He) in Hf. congruence.
Qed.

(** A run of C9: an oversized scan is turned down, and pressing the upload
    button without a file only shows a toast. *)
Lemma invalid_input_rejected_witness :
  let big := mkFile "scan.pdf" 20000000 "application/pdf" [] in
  handleFileChange (Some big) initialWorld
  = (Returned tt, mkWorld initialState false [ShowToast FileTooLarge])
  /\ handleUpload (mkEnv true "k" None 0 "t0" "t1" (fun _ => Throw (mkError "no"))
                     (fun _ _ => Throw (mkError "no")) (fun _ _ => None)
                     (fun k => k) (fun _ => Ok "id")) initialWorld
     = (Returned tt, mkWorld initialState false [ShowToast MissingInformation]).
Proof.
  cbv zeta.
  pose proof (invalid_input_rejected_before_pipeline
                (mkEnv true "k" None 0 "t0" "t1" (fun _ => Throw (mkError "no"))
                   (fun _ _ => Throw (mkError "no")) (fun _ _ => None)
                   (fun k => k) (fun _ => Ok "id"))
                initialWorld
                (mkFile "scan.pdf" 20000000 "application/pdf" [])) as [Hup Hsel].
  split.
  - reflexivity.
  - apply Hup. left. reflexivity.
Defined.

(** ** The upload gates the database write *)

(** C2.  In every run of [handleUpload], a write to the database comes
    after an upload that the object store accepted.  When the store
    refuses the upload, the run writes no record, and the error of the
    store is reported by the toast Upload failed. *)
Theorem upload_failure_writes_nothing (env : Env) (w w' : World) (out : Outcome unit) :
  handleUpload env w = (out, w') ->
  exists l,
    effects w' = (effects w ++ l)%list
    /\ (forall d before after,
          l = (before ++ AddDoc d :: after)%list ->
          exists fileName file,
            In (StorageUpload fileName file) before
            /\ storage_upload env fileName file = None)
    /\ (forall fileName file uploadError,
          In (StorageUpload fileName file) l ->
          storage_upload env fileName file = Some uploadError ->
          written l = []
          /\ out = Returned tt
          /\ In (ShowToast (UploadFailed
                   (or_else (message uploadError) "Failed to upload document"))) l).
Proof.
  intros H.
  destruct (handleUpload_log env w w' out H) as [l [Hl Hfollow]].
  exists l. split; [exact Hl|]. split.
  - intros d before after Hsplit.
    destruct (writes_follow_upload_sound env l false Hfollow d before after Hsplit)
      as [Hfalse | Hex]; [discriminate | exact Hex].
  - destruct w as [[file title ? ? ? ? ? ?] wc log].
    cbn [effects] in Hl. analyse_run H.
    all: cbn [effects] in Hl; repeat rewrite <- app_assoc in Hl; cbn [app] in Hl.
    all: apply app_inv_head in Hl; subst l.
    all: intros key afile uploadError Hin Hup; log_cases Hin.
    all: inversion Hin; subst key afile; clear Hin.
    all: revert Hup;
      match goal with
      | E : storage_upload _ _ _ = _ |- _ => rewrite E
      end; intros Hup; try discriminate Hup.
    all: injection Hup as ->.
    all: repeat split; cbn [In]; auto 10.
Qed.

Lemma upload_failure_witness :
  exists l,
    effects (snd (handleUpload Sample.env_store_down Sample.ready)) = l
    /\ In (StorageUpload Sample.key Sample.report) l
    /\ written l = []
    /\ In (ShowToast (UploadFailed "Bucket not found")) l.
Proof.
  destruct (upload_failure_writes_nothing Sample.env_store_down Sample.ready
              (snd (handleUpload Sample.env_store_down Sample.ready))
              (fst (handleUpload Sample.env_store_down Sample.ready)))
    as [l [Hl [_ Hfail]]]; [apply surjective_pairing|].
  exists l. cbn [effects Sample.ready app] in Hl. split; [exact Hl|].
  assert (Hin : In (StorageUpload Sample.key Sample.report) l).
  { rewrite <- Hl. vm_compute. auto 10. }
  split; [exact Hin|].
  destruct (Hfail _ _ (mkError "Bucket not found") Hin eq_refl) as [Hw [_ Ht]].
  split; [exact Hw | exact Ht].
Defined.

(** ** A failed analysis does not stop the ingestion *)

(** C1, as the handler has it.  For a PDF whose text is extracted, when
    the call to the model throws (no API key, or the service fails), the
    run goes on: it warns, uploads the file, and, once the store accepts
    the upload, writes one record.  That record has [processingStatus]
    uploaded_without_analysis and [category] Uncategorized, and has no
    [aiAnalysis], [anomalies], [hasAnomalies] or [anomalyCount] member. *)
Theorem analysis_failure_still_uploads (env : Env) (w : World) (file : File)
    (text : string) :
  selectedFile (modal w) = Some file ->
  is_empty (trim (documentTitle (modal w))) = false ->
  supabase env = true ->
  type file = "application/pdf" ->
  Pdf.textOfDocument (getDocument env file) = Ok text ->
  (geminiApiKey env = EmptyString
   \/ exists aiErr, generateContent env DefaultPrompt (documentPart text) = Throw aiErr) ->
  let userId := opt_or_else (localStorage_userId env) "anonymous" in
  let key := storageKey userId (Date_now env) (documentTitle (modal w)) file in
  exists w' l,
    handleUpload env w = (Returned tt, w')
    /\ effects w' = (effects w ++ l)%list
    /\ In (ShowToast AIAnalysisWarning) l
    /\ In (StorageUpload key file) l
    /\ (storage_upload env key file = None ->
        exists d,
          written l = [d]
          /\ processingStatus d = "uploaded_without_analysis"
          /\ category d = "Uncategorized"
          /\ anomalies d = None
          /\ hasAnomalies d = None
          /\ anomalyCount d = None
          /\ aiAnalysis d = None
          /\ fileName d = key
          /\ (forall id, addDoc env d = Ok id ->
                In (ShowToast (UploadSuccessful None)) l /\ In OnDocumentAdded l)).
Proof.
  destruct w as [[sel title ? ? ? ? ? ?] wc log].
  cbn [modal selectedFile documentTitle effects].
  intros Hsel Htitle Hsup Htype Htext Hfail. subst sel.
  assert (Hpdf : String.eqb (type file) PDF = true)
    by (rewrite Htype; reflexivity).
  assert (Hkey : is_empty (geminiApiKey env) = true
                 \/ exists aiErr,
                      generateContent env DefaultPrompt (documentPart text) = Throw aiErr).
  { destruct Hfail as [-> | H]; [now left | now right]. }
  clear Hfail.
  match goal with
  | |- context [handleUpload ?e ?w0] =>
      destruct (handleUpload e w0) as [out w'] eqn:H
  end.
  analyse_run H.
  all: try congruence.
  all: injection Htext as Ha; subst.
  all: change (choosePrompt None) with DefaultPrompt in *.
  all: try (destruct Hkey as [Hk | [aiErr Hk]]; congruence).
  all: eexists; eexists; split; [reflexivity|]; split; [reflexivity|].
  all: split; [cbn [In]; auto 20|]; split; [cbn [In]; auto 20|].
  all: intros Hup; try congruence.
  all: eexists; split; [reflexivity|].
  all: repeat (split; [reflexivity|]).
  all: intros id Hid; try (unfold buildDocumentData in *; congruence).
  all: split; cbn [In]; auto 20.
Qed.

Lemma analysis_failure_witness :
  exists w' l d,
    handleUpload Sample.env_model_down Sample.ready = (Returned tt, w')
    /\ effects w' = l
    /\ In (StorageUpload Sample.key Sample.report) l
    /\ written l = [d]
    /\ processingStatus d = "uploaded_without_analysis"
    /\ category d = "Uncategorized"
    /\ anomalies d = None.
Proof.
  destruct (analysis_failure_still_uploads Sample.env_model_down Sample.ready
              Sample.report
              ("=== Page 1 ===" ++ LF ++ "Complete Blood Count" ++ LF ++ LF
               ++ "=== Page 2 ===" ++ LF ++ "Hemoglobin 9.1 g/dL"))
    as [w' [l [Hrun [Hl [_ [Hup Hdb]]]]]];
    try reflexivity.
  - right. exists (mkError "503 Service Unavailable"). reflexivity.
  - destruct (Hdb eq_refl) as [d [Hw [Hst [Hcat [Han _]]]]].
    exists w', l, d. repeat split; assumption.
Defined.

(** C1, as stated, fails in one point: the record written after a failed
    analysis has no [anomalies] member at all, where the claim has the
    empty list. *)
Lemma failed_analysis_record_has_no_anomalies :
  exists d,
    written (effects (snd (handleUpload Sample.env_model_down Sample.ready))) = [d]
    /\ processingStatus d = "uploaded_without_analysis"
    /\ category d = "Uncategorized"
    /\ anomalies d = None
    /\ anomalies d <> Some [].
Proof.
  eexists. split; [vm_compute; reflexivity|].
  repeat split. discriminate.
Qed.

(** ** An answer that is not JSON *)

Lemma parseAnalysis_fallback (raw : string) :
  Json.JSON_parse (cleanJson raw) = Json.SyntaxError ->
  parseAnalysis raw = Some (Some (fallbackAnalysis raw)).
Proof. intros H. unfold parseAnalysis. now rewrite H. Qed.

Lemma or_else_nonempty (a b : string) : a <> EmptyString -> or_else a b = a.
Proof. destruct a; [congruence | reflexivity]. Qed.

(** C3, as the handler has it.  When the answer of the model, once the
    fence is removed, is not JSON, parsing does not throw: the parsed
    analysis has the raw answer as its [summary] and no other member.  In
    the run of [handleUpload], no warning is shown and the record written
    has [processingStatus] completed, no tests and no anomalies; its stored
    summary is the raw answer when that is not empty, and No summary
    available when the answer is the empty string. *)
Theorem unparseable_answer_falls_back (raw : string) :
  Json.JSON_parse (cleanJson raw) = Json.SyntaxError ->
  parseAnalysis raw = Some (Some (fallbackAnalysis raw))
  /\ summary (fallbackAnalysis raw) = Some raw
  /\ tests (fallbackAnalysis raw) = None
  /\ forall (env : Env) (w : World) (file : File) (text : string),
       selectedFile (modal w) = Some file ->
       is_empty (trim (documentTitle (modal w))) = false ->
       supabase env = true ->
       type file = "application/pdf" ->
       Pdf.textOfDocument (getDocument env file) = Ok text ->
       is_empty (geminiApiKey env) = false ->
       generateContent env DefaultPrompt (documentPart text) = Ok raw ->
       storage_upload env
         (storageKey (opt_or_else (localStorage_userId env) "anonymous")
            (Date_now env) (documentTitle (modal w)) file) file = None ->
       exists w' l d findings,
         handleUpload env w = (Returned tt, w')
         /\ effects w' = (effects w ++ l)%list
         /\ ~ In (ShowToast AIAnalysisWarning) l
         /\ written l = [d]
         /\ aiAnalysis d = Some findings
         /\ ai_tests findings = []
         /\ ai_summary findings = or_else raw "No summary available"
         /\ (raw <> EmptyString -> ai_summary findings = raw)
         /\ anomalies d = Some []
         /\ processingStatus d = "completed".
Proof.
  intros Hbad. pose proof (parseAnalysis_fallback raw Hbad) as Hparse.
  split; [exact Hparse|]. split; [reflexivity|]. split; [reflexivity|].
  intros env w file text.
  destruct w as [[sel title ? ? ? ? ? ?] wc log].
  cbn [modal selectedFile documentTitle effects].
  intros Hsel Htitle Hsup Htype Htext Hkey Hgen Hup. subst sel.
  assert (Hpdf : String.eqb (type file) PDF = true)
    by (rewrite Htype; reflexivity).
  match goal with
  | |- context [handleUpload ?e ?w0] =>
      destruct (handleUpload e w0) as [out w'] eqn:H
  end.
  analyse_run H.
  all: try congruence.
  all: injection Htext as Ha; subst.
  all: change (choosePrompt None) with DefaultPrompt in *.
  all: try congruence.
  all: match goal with
       | E : parseAnalysis ?a = Some ?o |- _ =>
           is_var o;
           assert (a = raw) by congruence; subst a;
           assert (o = Some (fallbackAnalysis raw)) by congruence; subst o
       end.
  all: eexists; eexists; eexists; eexists.
  all: split; [reflexivity|]; split; [reflexivity|].
  all: split; [intros Hin; log_cases Hin|].
  all: split; [reflexivity|]; split; [reflexivity|]; split; [reflexivity|].
  all: split; [reflexivity|].
  all: split; [intros Hne; cbn [buildAiAnalysis ai_summary fallbackAnalysis summary opt_or_else];
               now apply or_else_nonempty|].
  all: split; reflexivity.
Qed.

Lemma unparseable_answer_witness :
  Json.JSON_parse (cleanJson Sample.prose) = Json.SyntaxError
  /\ exists w' l d findings,
       handleUpload Sample.env_prose Sample.ready = (Returned tt, w')
       /\ effects w' = l
       /\ written l = [d]
       /\ aiAnalysis d = Some findings
       /\ ai_tests findings = []
       /\ ai_summary findings = "I am sorry, I cannot read this report."
       /\ processingStatus d = "completed".
Proof.
  assert (Hbad : Json.JSON_parse (cleanJson Sample.prose) = Json.SyntaxError)
    by reflexivity.
  split; [exact Hbad|].
  destruct (unparseable_answer_falls_back Sample.prose Hbad) as [_ [_ [_ Hrun]]].
  destruct (Hrun Sample.env_prose Sample.ready Sample.report
              ("=== Page 1 ===" ++ LF ++ "Complete Blood Count" ++ LF ++ LF
               ++ "=== Page 2 ===" ++ LF ++ "Hemoglobin 9.1 g/dL"))
    as [w' [l [d [findings [H1 [H2 [_ [H3 [H4 [H5 [H6 [_ [_ H7]]]]]]]]]]]]];
    try reflexivity.
  exists w', l, d, findings. repeat split; assumption.
Defined.

(** C3, as stated, fails for the empty answer: it is not JSON, and the
    summary stored for it is No summary available, not the answer. *)
Lemma empty_answer_summary_is_replaced :
  Json.JSON_parse (cleanJson EmptyString) = Json.SyntaxError
  /\ exists d findings,
       written (effects (snd (handleUpload Sample.env_silent Sample.ready))) = [d]
       /\ aiAnalysis d = Some findings
       /\ ai_summary findings = "No summary available"
       /\ ai_summary findings <> EmptyString.
Proof.
  split; [reflexivity|].
  eexists. eexists. split; [vm_compute; reflexivity|].
  split; [reflexivity|]. split; [reflexivity | discriminate].
Qed.

(** ** Two complete runs *)

(** A two-page report with two abnormal tests: the record is completed,
    counts two anomalies and takes its category from the report title. *)
Example run_analysed_report :
  exists d,
    written (effects (snd (handleUpload Sample.env Sample.ready))) = [d]
    /\ processingStatus d = "completed"
    /\ anomalyCount d = Some 2
    /\ anomalies d = Some ["Hemoglobin: 9.1 g/dL (LOW)"; "WBC: 13.2 10^3/uL (HIGH)"]
    /\ category d = "Blood Test"
    /\ fileName d = Sample.key.
Proof. eexists. split; [vm_compute; reflexivity | repeat split]. Qed.

(** An image: extraction and analysis are skipped, the upload and the
    write go on. *)
Example run_image :
  exists d,
    map is_stage (effects (snd (handleUpload Sample.env Sample.ready_scan)))
    = [false; true; false; true; false; false; false; false; false]
    /\ written (effects (snd (handleUpload Sample.env Sample.ready_scan))) = [d]
    /\ processingStatus d = "uploaded_without_analysis"
    /\ Analysis.extractedText d = None
    /\ fileType d = "image/png".
Proof. eexists. split; [vm_compute; reflexivity|]. split; [vm_compute; reflexivity | repeat split]. Qed.

End ModalFacts.

(* ================================================================== *)
(** * The helpers of the storage key and of the default title          *)
(* ================================================================== *)

Module KeyFacts.
Import Js Modal Observe JsFacts.

(** ** White space in the title *)

Lemma replace_ws_runs_no_ws (s : string) : forall in_run,
  no_ws (replace_ws_runs in_run s) = true.
Proof.
  induction s as [|c s IH]; intros in_run; [reflexivity|].
  cbn [replace_ws_runs]. destruct (isWhiteSpace c) eqn:Hc.
  - destruct in_run; [apply IH|].
    cbn [no_ws]. rewrite IH. reflexivity.
  - cbn [no_ws]. now rewrite Hc, IH.
Qed.

Lemma replace_ws_runs_id (s : string) :
  no_ws s = true -> replace_ws_runs false s = s.
Proof.
  induction s as [|c s IH]; [reflexivity|].
  cbn [no_ws replace_ws_runs]. intros H. apply andb_prop in H as [Hc Hs].
  apply negb_true_iff in Hc. now rewrite Hc, IH.
Qed.

Lemma replace_ws_runs_length (s : string) : forall in_run,
  String.length (replace_ws_runs in_run s) <= String.length s.
Proof.
  induction s as [|c s IH]; intros in_run; [reflexivity|].
  cbn [replace_ws_runs String.length].
  destruct (isWhiteSpace c); [destruct in_run|]; cbn [String.length];
    try (apply le_n_S; apply IH).
  apply Nat.le_trans with (String.length s); [apply IH | apply Nat.le_succ_diag_r].
Qed.

(** X1.  The title as it enters the storage key has no white space left
    (every run of white space has become one underscore), is never longer
    than the title, and is the title itself when the title has no white
    space. *)
Theorem key_title_has_no_white_space (documentTitle : string) :
  no_ws (replace_ws_runs false documentTitle) = true
  /\ String.length (replace_ws_runs false documentTitle) <= String.length documentTitle
  /\ (no_ws documentTitle = true -> replace_ws_runs false documentTitle = documentTitle).
Proof.
  split; [apply replace_ws_runs_no_ws|].
  split; [apply replace_ws_runs_length | apply replace_ws_runs_id].
Qed.

(** ** The extension *)

Lemma split_not_nil (sep : ascii) (s : string) : split sep s <> [].
Proof.
  destruct s as [|c s]; cbn [split]; [discriminate|].
  destruct (Ascii.eqb c sep); [discriminate|].
  destruct (split sep s); discriminate.
Qed.

Lemma split_no_sep (sep : ascii) (s : string) :
  mentions sep s = false -> split sep s = [s].
Proof.
  induction s as [|c s IH]; [reflexivity|].
  cbn [mentions split]. intros H. apply orb_false_elim in H as [Hc Hs].
  now rewrite Hc, (IH Hs).
Qed.

Lemma split_with_sep (sep : ascii) (s : string) :
  mentions sep s = true -> exists h x t, split sep s = h :: x :: t.
Proof.
  induction s as [|c s IH]; [discriminate|].
  cbn [mentions split]. destruct (Ascii.eqb c sep) eqn:Hc.
  - intros _. destruct (split sep s) as [|x t] eqn:E.
    + now apply split_not_nil in E.
    + now exists EmptyString, x, t.
  - cbn [orb]. intros Hs. destruct (IH Hs) as [h [x [t ->]]].
    now exists (String c h), x, t.
Qed.

Lemma split_pop_sep (sep : ascii) (s : string) :
  split_pop sep (String sep s) = split_pop sep s.
Proof.
  unfold split_pop. cbn [split]. rewrite Ascii.eqb_refl.
  destruct (split sep s) as [|x t] eqn:E; [now apply split_not_nil in E|].
  reflexivity.
Qed.

Lemma split_pop_other (sep c : ascii) (s : string) :
  Ascii.eqb c sep = false -> mentions sep s = true ->
  split_pop sep (String c s) = split_pop sep s.
Proof.
  intros Hc Hs. unfold split_pop. cbn [split]. rewrite Hc.
  destruct (split_with_sep sep s Hs) as [h [x [t ->]]]. reflexivity.
Qed.

Lemma split_pop_no_sep (sep : ascii) (s : string) :
  mentions sep s = false -> split_pop sep s = s.
Proof. intros H. unfold split_pop. now rewrite (split_no_sep sep s H). Qed.

Lemma split_pop_spec (sep : ascii) (s : string) :
  mentions sep (split_pop sep s) = false
  /\ exists pre,
       s = pre ++ split_pop sep s
       /\ (pre = EmptyString \/ exists p, pre = p ++ String sep EmptyString).
Proof.
  induction s as [|c s [IHno [pre [IHs IHpre]]]].
  - split; [reflexivity|]. exists EmptyString. auto.
  - destruct (Ascii.eqb c sep) eqn:Hc.
    + apply Ascii.eqb_eq in Hc. subst c. rewrite split_pop_sep.
      split; [exact IHno|]. exists (String sep pre). split.
      * cbn [append]. now rewrite <- IHs.
      * right. destruct IHpre as [-> | [p ->]].
        -- now exists EmptyString.
        -- now exists (String sep p).
    + destruct (mentions sep s) eqn:Hs.
      * rewrite (split_pop_other sep c s Hc Hs).
        split; [exact IHno|]. exists (String c pre). split.
        -- cbn [append]. now rewrite <- IHs.
        -- right. destruct IHpre as [-> | [p ->]].
           ++ cbn [append] in IHs. rewrite <- IHs in IHno. congruence.
           ++ now exists (String c p).
      * rewrite split_pop_no_sep by (cbn [mentions]; now rewrite Hc, Hs).
        split; [cbn [mentions]; now rewrite Hc, Hs|].
        exists EmptyString. auto.
Qed.

(** X2.  The extension put at the end of the storage key is what follows
    the last dot of the file name: it has no dot, and the name is a part
    that is empty or ends with a dot, followed by the extension.  A name
    without a dot is its own extension. *)
Theorem extension_follows_last_dot (fileName : string) :
  mentions "." (split_pop "." fileName) = false
  /\ (exists pre,
        fileName = pre ++ split_pop "." fileName
        /\ (pre = EmptyString \/ exists p, pre = p ++ "."))
  /\ (mentions "." fileName = false -> split_pop "." fileName = fileName).
Proof.
  destruct (split_pop_spec "." fileName) as [Hno Hpre].
  split; [exact Hno|]. split; [exact Hpre | apply split_pop_no_sep].
Qed.

End KeyFacts.

Module TitleFacts.
Import Js Modal Observe JsFacts KeyFacts.

(** ** The default title *)

Lemma no_slash_dot_app_dot (b x : string) :
  no_slash_dot (b ++ String "." x) = false.
Proof.
  induction b as [|c b IH]; cbn [append no_slash_dot].
  - rewrite andb_false_r. reflexivity.
  - rewrite IH. apply andb_false_r.
Qed.

Lemma no_slash_dot_mentions (s : string) :
  no_slash_dot s = true -> mentions "." s = false.
Proof.
  induction s as [|c s IH]; [reflexivity|].
  cbn [no_slash_dot mentions]. intros H.
  apply andb_prop in H as [H Hs]. apply andb_prop in H as [_ Hc].
  apply negb_true_iff in Hc. now rewrite Hc, IH.
Qed.

Lemma strip_extension_no_dot (s : string) :
  mentions "." s = false -> strip_extension s = s.
Proof.
  induction s as [|c s IH]; [reflexivity|].
  cbn [mentions strip_extension]. intros H.
  apply orb_false_elim in H as [Hc Hs]. now rewrite Hc, IH.
Qed.

(** X3.  The title proposed for a file is its name without the last
    extension: for a name made of a base, a dot and a non-empty extension
    without slash or dot, it is the base, whatever dots the base has; a
    name without a dot is kept; a name that is only an extension gives the
    empty title. *)
Theorem default_title_drops_last_extension (base ext : string) :
  is_empty ext = false ->
  no_slash_dot ext = true ->
  strip_extension (base ++ "." ++ ext) = base
  /\ strip_extension ("." ++ ext) = EmptyString
  /\ strip_extension ext = ext.
Proof.
  intros Hne Hext.
  assert (Hdot : strip_extension (String "." ext) = EmptyString).
  { cbn [strip_extension]. now rewrite Hne, Hext. }
  split; [|split].
  - induction base as [|c base IH]; [exact Hdot|].
    cbn [append strip_extension].
    change (base ++ String "." (EmptyString ++ ext)) with (base ++ String "." ext).
    rewrite no_slash_dot_app_dot, andb_false_r.
    cbn [append] in IH. now rewrite IH.
  - exact Hdot.
  - apply strip_extension_no_dot. now apply no_slash_dot_mentions.
Qed.

Lemma default_title_witness :
  strip_extension "cbc.report.v2.pdf" = "cbc.report.v2".
Proof.
  apply (default_title_drops_last_extension "cbc.report.v2" "pdf"); reflexivity.
Defined.

(** ** Two uploads of the same file *)

Lemma append_cancel_l (a x y : string) : a ++ x = a ++ y -> x = y.
Proof.
  induction a as [|c a IH]; cbn [append]; [auto|].
  intros [= H]. now apply IH.
Qed.

Lemma append_cancel_r (r : string) : forall a b, a ++ r = b ++ r -> a = b.
Proof.
  intros a b H.
  assert (Hlen : String.length a = String.length b).
  { apply (f_equal String.length) in H. rewrite !length_append in H. lia. }
  revert b H Hlen. induction a as [|c a IH]; intros [|d b] H Hlen;
    try discriminate Hlen; [reflexivity|].
  cbn [append] in H. injection H as -> H. f_equal.
  apply IH; [exact H | now injection Hlen].
Qed.

Lemma show_N_inj (n m : N) : show_N n = show_N m -> n = m.
Proof.
  unfold show_N. intros H. apply DecimalN.Unsigned.to_uint_inj.
  pose proof (NilEmpty.usu (N.to_uint n)) as Hn.
  rewrite H, NilEmpty.usu in Hn. now injection Hn.
Qed.

(** X4.  For the same user, title and file, two uploads at different
    milliseconds get different storage keys. *)
Theorem storage_key_tells_time (userId documentTitle : string) (file : File)
    (t1 t2 : N) :
  t1 <> t2 ->
  storageKey userId t1 documentTitle file <> storageKey userId t2 documentTitle file.
Proof.
  unfold storageKey. intros Hne H. apply Hne.
  apply append_cancel_l in H. apply append_cancel_l in H.
  apply append_cancel_r in H. now apply show_N_inj.
Qed.

Lemma storage_key_tells_time_witness :
  (1700000000000 <> 1700000000001)%N
  /\ storageKey "u7" 1700000000000 "CBC March" Sample.report
     <> storageKey "u7" 1700000000001 "CBC March" Sample.report.
Proof.
  assert (H : (1700000000000 <> 1700000000001)%N) by discriminate.
  split; [exact H|].
  exact (storage_key_tells_time "u7" "CBC March" Sample.report _ _ H).
Defined.

End TitleFacts.

Module PageFacts.
Import Js Pdf Observe JsFacts PdfFacts.

(** ** Where the text starts, and what a page that fails does *)

Lemma pageLoop_extends (pdf : PDFDocumentProxy) (todo : nat) : forall k acc full,
  pageLoop pdf todo k acc = Ok full -> exists rest, full = acc ++ rest.
Proof.
  induction todo as [|todo IH]; intros k acc full H.
  - injection H as <-. exists EmptyString. now rewrite append_nil_r.
  - cbn [pageLoop] in H. destruct (getPageItems pdf k) as [items|e]; [|discriminate].
    apply IH in H as [rest ->]. exists (pageSegment k items ++ rest).
    now rewrite append_assoc.
Qed.

Lemma trimEnd_keeps_prefix (h x : string) :
  trimEnd h = h -> exists y, trimEnd (h ++ x) = h ++ y.
Proof.
  intros Hh. destruct (is_empty (trimEnd x)) eqn:E.
  - exists EmptyString. rewrite append_nil_r.
    rewrite trimEnd_app_ws; [exact Hh|].
    now apply JsonFacts.trimEnd_empty_all_ws.
  - exists (trimEnd x). now apply trimEnd_app_keep.
Qed.

(** X5.  The text extracted from a document with at least one page starts
    with the header of page 1, so it is not empty: the stored record of a
    PDF lacks [extractedText] only for a document without pages. *)
Theorem extracted_text_starts_with_first_header (pdf : PDFDocumentProxy) (text : string) :
  extractText pdf = Ok text ->
  1 <= numPages pdf ->
  (exists tail, text = "=== Page 1 ===" ++ tail)
  /\ is_empty text = false.
Proof.
  unfold extractText. intros H Hn.
  destruct (numPages pdf) as [|n]; [lia|].
  cbn [pageLoop] in H.
  destruct (getPageItems pdf 1) as [items|e]; [|discriminate].
  destruct (pageLoop pdf n 2 (EmptyString ++ pageSegment 1 items)) as [full|e] eqn:E;
    [|discriminate].
  injection H as <-.
  apply pageLoop_extends in E as [rest ->].
  cbn [append]. unfold pageSegment.
  assert (Hstart : exists tail,
             trim ((LF ++ LF ++ pageHeader 1 ++ LF ++ join " " items) ++ rest)
             = pageHeader 1 ++ tail).
  { unfold trim.
    replace (trimStart ((LF ++ LF ++ pageHeader 1 ++ LF ++ join " " items) ++ rest))
      with (pageHeader 1 ++ (LF ++ join " " items) ++ rest).
    - apply trimEnd_keeps_prefix. apply trimEnd_pageHeader.
    - rewrite !append_assoc. reflexivity. }
  destruct Hstart as [tail ->]. split; [now exists tail | reflexivity].
Qed.

Lemma extracted_text_first_header_witness :
  exists tail,
    extractText (pdf_of_pages Sample.pages) = Ok ("=== Page 1 ===" ++ tail).
Proof.
  destruct (extractText (pdf_of_pages Sample.pages)) as [text|e] eqn:E;
    [|discriminate E].
  destruct (extracted_text_starts_with_first_header _ text E) as [[tail ->] _].
  - cbn. lia.
  - now exists tail.
Defined.

Lemma pageLoop_throws (pdf : PDFDocumentProxy) (e : Error) (k : nat) :
  forall start acc todo,
    k < todo ->
    (forall i, i < k -> exists items, getPageItems pdf (start + i) = Ok items) ->
    getPageItems pdf (start + k) = Throw e ->
    pageLoop pdf todo start acc = Throw e.
Proof.
  induction k as [|k IH]; intros start acc todo Hk Hok Hbad.
  - destruct todo as [|todo]; [lia|]. cbn [pageLoop].
    rewrite Nat.add_0_r in Hbad. now rewrite Hbad.
  - destruct todo as [|todo]; [lia|]. cbn [pageLoop].
    destruct (Hok 0 (Nat.lt_0_succ k)) as [items Hitems].
    rewrite Nat.add_0_r in Hitems. rewrite Hitems.
    apply IH.
    + lia.
    + intros i Hi. rewrite Nat.add_succ_l, <- Nat.add_succ_r. apply Hok. lia.
    + now rewrite Nat.add_succ_l, <- Nat.add_succ_r.
Qed.

(** X6.  When the pages before page [k+1] load and page [k+1] fails,
    extraction throws the error of that page: no text of the earlier pages
    is returned. *)
Theorem extraction_throws_first_page_error (pdf : PDFDocumentProxy) (e : Error)
    (k : nat) :
  k < numPages pdf ->
  (forall i, i < k -> exists items, getPageItems pdf (S i) = Ok items) ->
  getPageItems pdf (S k) = Throw e ->
  extractText pdf = Throw e.
Proof.
  intros Hk Hok Hbad. unfold extractText.
  now rewrite (pageLoop_throws pdf e k 1 EmptyString (numPages pdf) Hk Hok Hbad).
Qed.

Lemma extraction_throws_witness :
  extractText (mkPdf 3 (fun n => if n =? 2 then Throw (mkError "bad xref")
                                 else Ok ["text"]))
  = Throw (mkError "bad xref").
Proof.
  apply (extraction_throws_first_page_error _ (mkError "bad xref") 1).
  - cbn. lia.
  - intros i Hi. assert (i = 0) by lia. subst i. now exists ["text"].
  - reflexivity.
Defined.

End PageFacts.

Module GeminiFacts.
Import Js Pdf Analysis Modal Observe JsFacts ModalFacts.
Local Open Scope handler_scope.

(** ** The request to the model *)

Lemma substring0_length (n : nat) : forall s,
  String.length (substring0 n s) = Nat.min n (String.length s).
Proof.
  unfold substring0. induction n as [|n IH]; intros [|c s]; cbn; auto.
Qed.

Lemma substring0_prefix (n : nat) : forall s,
  exists rest, s = substring0 n s ++ rest.
Proof.
  unfold substring0. induction n as [|n IH]; intros [|c s]; cbn.
  - now exists EmptyString.
  - now exists (String c s).
  - now exists EmptyString.
  - destruct (IH s) as [rest Hrest]. exists rest. now rewrite <- Hrest.
Qed.

Lemma substring0_short (n : nat) : forall s,
  String.length s <= n -> substring0 n s = s.
Proof.
  unfold substring0. induction n as [|n IH]; intros [|c s] H; cbn in *;
    try reflexivity; try lia.
  rewrite IH; [reflexivity | lia].
Qed.

(** X7.  Without an API key [runGeminiAnalysis] throws before anything is
    sent.  With a key it sends one request, whose document part is the
    header followed by the first 60000 code units of the text: a text of at
    most 60000 code units is sent whole, a longer one loses its end without
    any notice. *)
Theorem analysis_request_is_truncated (env : Env) (text : string)
    (customPrompt : option string) (w : World) :
  (geminiApiKey env = EmptyString ->
   runGeminiAnalysis env text customPrompt w
   = (Threw (mkError GEMINI_KEY_MISSING), w))
  /\ (geminiApiKey env <> EmptyString ->
      exists sent,
        runGeminiAnalysis env text customPrompt w
        = (match generateContent env (choosePrompt customPrompt)
                   (DOCUMENT_HEADER ++ sent) with
           | Ok answer => Returned answer
           | Throw e => Threw e
           end,
           mkWorld (modal w) (workerConfigured w)
             (effects w ++ [GenerateContent (choosePrompt customPrompt)
                              (DOCUMENT_HEADER ++ sent)])%list)
        /\ String.length sent = Nat.min MAX_CHARS (String.length text)
        /\ (exists rest, text = sent ++ rest)
        /\ (String.length text <= MAX_CHARS -> sent = text)).
Proof.
  split.
  - intros Hkey. unfold runGeminiAnalysis. rewrite Hkey. reflexivity.
  - intros Hkey. exists (substring0 MAX_CHARS text). split; [|split; [|split]].
    + unfold runGeminiAnalysis.
      destruct (geminiApiKey env) as [|c k]; [congruence|]. cbn [is_empty].
      unfold documentPart, DOCUMENT_HEADER. rewrite !append_assoc.
      cbv beta iota zeta delta [bind emit await ret throw modal workerConfigured effects].
      destruct (generateContent env (choosePrompt customPrompt)
                  (LF ++ LF ++ "Document Text:" ++ LF ++ substring0 MAX_CHARS text));
        reflexivity.
    + apply substring0_length.
    + apply substring0_prefix.
    + apply substring0_short.
Qed.

End GeminiFacts.

Module SelectionFacts.
Import Js Pdf Analysis Modal Observe JsFacts ModalFacts.
Local Open Scope handler_scope.

(** ** Selecting and removing a file *)

Lemma file_accepted_true (f : File) :
  file_accepted f = true
  <-> (size f <= 10 * 1024 * 1024)%N /\ In (type f) allowedTypes.
Proof.
  unfold file_accepted, type_allowed.
  rewrite andb_true_iff, negb_true_iff, N.ltb_ge.
  split; intros [Hs Ht]; (split; [exact Hs|]).
  - apply existsb_exists in Ht as [t [Hin Heq]].
    apply String.eqb_eq in Heq. now subst t.
  - apply existsb_exists. exists (type f). split; [exact Ht | apply String.eqb_refl].
Qed.

(** X8.  A file of at most 10 MiB (the bound included) whose type is one of
    the accepted ones becomes the selected file, with no toast and no
    stage.  The title is then proposed only when none was typed: an empty
    title becomes the file name without its last extension, a title that
    is not empty is kept. *)
Theorem accepted_file_is_selected (file : File) (w : World) :
  (size file <= 10 * 1024 * 1024)%N ->
  In (type file) ["application/pdf"; "image/jpeg"; "image/png"; "image/jpg"] ->
  exists w',
    handleFileChange (Some file) w = (Returned tt, w')
    /\ effects w' = effects w
    /\ selectedFile (modal w') = Some file
    /\ documentTitle (modal w')
       = (if is_empty (documentTitle (modal w)) then strip_extension (name file)
          else documentTitle (modal w))
    /\ uploading (modal w') = uploading (modal w)
    /\ aiOutput (modal w') = aiOutput (modal w)
    /\ Modal.extractedText (modal w') = Modal.extractedText (modal w).
Proof.
  intros Hsize Htype.
  assert (Hacc : file_accepted file = true) by (apply file_accepted_true; auto).
  unfold file_accepted in Hacc. apply andb_prop in Hacc as [Hs Ht].
  apply negb_true_iff in Hs.
  destruct w as [[sel title ? ? ? ? ? ?] wc log].
  run_handlers. rewrite Hs, Ht. cbn [negb].
  destruct (is_empty title); eexists; (split; [reflexivity|]); repeat split.
Qed.

Lemma accepted_file_witness :
  exists w',
    handleFileChange
      (Some (mkFile "cbc.report.pdf" (10 * 1024 * 1024) "application/pdf" []))
      initialWorld
    = (Returned tt, w')
    /\ selectedFile (modal w')
       = Some (mkFile "cbc.report.pdf" (10 * 1024 * 1024) "application/pdf" [])
    /\ documentTitle (modal w') = "cbc.report".
Proof.
  destruct (accepted_file_is_selected
              (mkFile "cbc.report.pdf" (10 * 1024 * 1024) "application/pdf" [])
              initialWorld)
    as [w' [Hrun [_ [Hsel [Htitle _]]]]].
  - cbn [size]. apply N.le_refl.
  - cbn. auto.
  - exists w'. repeat split; assumption.
Defined.

(** X9.  Removing the file clears the selection and the two previews and
    keeps the title; after it each of the three buttons only shows a toast
    and runs no stage. *)
Theorem removed_file_disables_buttons (env : Env) (w : World) :
  exists w0,
    handleRemoveFile w = (Returned tt, w0)
    /\ effects w0 = effects w
    /\ selectedFile (modal w0) = None
    /\ aiOutput (modal w0) = None
    /\ Modal.extractedText (modal w0) = None
    /\ documentTitle (modal w0) = documentTitle (modal w)
    /\ handleUpload env w0
       = (Returned tt,
          mkWorld (modal w0) (workerConfigured w0)
            (effects w ++ [ShowToast MissingInformation])%list)
    /\ handleExtract env w0
       = (Returned tt,
          mkWorld (modal w0) (workerConfigured w0)
            (effects w ++ [ShowToast NoFileSelected])%list)
    /\ handleAnalyze env w0
       = (Returned tt,
          mkWorld (modal w0) (workerConfigured w0)
            (effects w ++ [ShowToast NoFileSelected])%list).
Proof.
  destruct w as [[sel title ? ? ? ? ? ?] wc log].
  eexists. split; [run_handlers; reflexivity|].
  cbn [modal effects selectedFile aiOutput Modal.extractedText documentTitle
       workerConfigured].
  repeat split.
Qed.

End SelectionFacts.

Module PreviewFacts.
Import Js Pdf Analysis Modal Observe JsFacts ModalFacts.
Local Open Scope handler_scope.

(** ** The two preview buttons *)

(** Turns the recorded tests on the type of the file into (in)equalities. *)
Ltac type_tests :=
  repeat match goal with
         | E : negb _ = true |- _ => apply negb_true_iff in E
         | E : negb _ = false |- _ => apply negb_false_iff in E
         | E : String.eqb _ PDF = true |- _ => apply String.eqb_eq in E
         | E : String.eqb _ PDF = false |- _ => apply String.eqb_neq in E
         end.

Ltac in_log := cbn [In]; auto 20.

(** The key cannot be both empty and not. *)
Ltac key_clash Hk :=
  match goal with
  | E : is_empty _ = false |- _ => rewrite Hk in E; discriminate E
  end.

(** X10.  The Extract button never sends anything to the model, the store
    or the database and never changes the file, the title or the AI
    preview.  Without a file, or with a file that is not a PDF, it only
    shows a toast.  For a PDF it ends with the button free and the progress
    text cleared, and the preview is the extracted text, or nothing when
    extraction failed. *)
Theorem extract_button_only_extracts (env : Env) (w w' : World) (out : Outcome unit) :
  handleExtract env w = (out, w') ->
  out = Returned tt
  /\ selectedFile (modal w') = selectedFile (modal w)
  /\ documentTitle (modal w') = documentTitle (modal w)
  /\ aiOutput (modal w') = aiOutput (modal w)
  /\ exists l,
       effects w' = (effects w ++ l)%list
       /\ Forall (fun e => leaves_browser e = false) l
       /\ ((selectedFile (modal w) = None
            /\ l = [ShowToast NoFileSelected] /\ modal w' = modal w)
           \/ (exists f,
                 selectedFile (modal w) = Some f /\ type f <> "application/pdf"
                 /\ l = [ShowToast UnsupportedFile] /\ modal w' = modal w)
           \/ (exists f text,
                 selectedFile (modal w) = Some f
                 /\ Pdf.textOfDocument (getDocument env f) = Ok text
                 /\ Modal.extractedText (modal w') = Some text
                 /\ In (ShowToast ExtractionSuccessful) l
                 /\ extractLoading (modal w') = false
                 /\ uploadProgress (modal w') = EmptyString)
           \/ (exists f e,
                 selectedFile (modal w) = Some f
                 /\ Pdf.textOfDocument (getDocument env f) = Throw e
                 /\ Modal.extractedText (modal w') = None
                 /\ In (ShowToast (ExtractionFailed
                          (or_else (message e) "Could not extract text"))) l
                 /\ extractLoading (modal w') = false
                 /\ uploadProgress (modal w') = EmptyString)).
Proof.
  destruct w as [[sel title ? ? ? ? ? ?] wc log].
  intros H. analyse_run H. all: type_tests.
  all: cbn [selectedFile documentTitle aiOutput Modal.extractedText extractLoading
            uploadProgress].
  all: do 4 (split; [reflexivity|]).
  all: eexists; split; [reflexivity|]; split; [repeat constructor|].
  all: first
    [ solve [left; repeat split]
    | solve [right; left; eexists; repeat split; assumption]
    | solve [right; right; left; do 2 eexists;
             repeat split; try eassumption; in_log]
    | solve [right; right; right; do 2 eexists;
             repeat split; try eassumption; in_log] ].
Qed.

Lemma extract_button_witness :
  exists w' l,
    handleExtract Sample.env Sample.ready = (Returned tt, w')
    /\ effects w' = l
    /\ Forall (fun e => leaves_browser e = false) l
    /\ selectedFile (modal w') = Some Sample.report.
Proof.
  destruct (handleExtract Sample.env Sample.ready) as [out w'] eqn:E.
  destruct (extract_button_only_extracts _ _ _ _ E)
    as [-> [Hsel [_ [_ [l [Hl [Hno _]]]]]]].
  exists w', l. repeat split; assumption.
Defined.

(** X11.  The Analyze button never uploads nor writes to the database and
    never changes the file, the title or the text preview.  It contacts the
    model only for a PDF whose text was extracted and only when an API key
    is set; the AI preview is then the raw answer of the model, unparsed.
    Every failure, the missing key included, ends with the toast Analysis
    failed, an empty AI preview, the button free and the progress text
    cleared. *)
Theorem analyze_button_only_previews (env : Env) (w w' : World) (out : Outcome unit) :
  handleAnalyze env w = (out, w') ->
  out = Returned tt
  /\ selectedFile (modal w') = selectedFile (modal w)
  /\ documentTitle (modal w') = documentTitle (modal w)
  /\ Modal.extractedText (modal w') = Modal.extractedText (modal w)
  /\ exists l,
       effects w' = (effects w ++ l)%list
       /\ Forall (fun e => is_StorageUpload e = false /\ is_AddDoc e = false) l
       /\ ((selectedFile (modal w) = None
            /\ l = [ShowToast NoFileSelected] /\ modal w' = modal w)
           \/ (exists f,
                 selectedFile (modal w) = Some f /\ type f <> "application/pdf"
                 /\ l = [ShowToast UnsupportedFile] /\ modal w' = modal w)
           \/ (exists f text answer,
                 selectedFile (modal w) = Some f
                 /\ Pdf.textOfDocument (getDocument env f) = Ok text
                 /\ geminiApiKey env <> EmptyString
                 /\ generateContent env DefaultPrompt (documentPart text) = Ok answer
                 /\ aiOutput (modal w') = Some answer
                 /\ In (GenerateContent DefaultPrompt (documentPart text)) l
                 /\ In (ShowToast AnalysisComplete) l
                 /\ aiLoading (modal w') = false
                 /\ uploadProgress (modal w') = EmptyString)
           \/ (exists description,
                 aiOutput (modal w') = None
                 /\ In (ShowToast (AnalysisFailed description)) l
                 /\ aiLoading (modal w') = false
                 /\ uploadProgress (modal w') = EmptyString
                 /\ (geminiApiKey env = EmptyString ->
                     Forall (fun e => is_GenerateContent e = false) l))).
Proof.
  destruct w as [[sel title ? ? ? ? ? ?] wc log].
  intros H. analyse_run H. all: type_tests.
  all: change (choosePrompt None) with DefaultPrompt in *.
  all: cbn [selectedFile documentTitle aiOutput Modal.extractedText aiLoading
            uploadProgress].
  all: do 4 (split; [reflexivity|]).
  all: eexists; split; [reflexivity|]; split; [repeat constructor|].
  all: repeat match goal with
              | E : is_empty ?k = true |- _ => apply is_empty_true in E
              end.
  all: first
    [ solve [left; repeat split]
    | solve [right; left; eexists; repeat split; assumption]
    | solve [right; right; left; do 3 eexists;
             repeat split; try eassumption; try in_log;
             intros Hk; key_clash Hk]
    | solve [right; right; right; eexists; repeat split; try in_log;
             intros Hk; first [ key_clash Hk | repeat constructor ]] ].
Qed.

Lemma analyze_button_witness :
  exists w' l,
    handleAnalyze Sample.env_prose Sample.ready = (Returned tt, w')
    /\ effects w' = l
    /\ Forall (fun e => is_StorageUpload e = false /\ is_AddDoc e = false) l
    /\ aiOutput (modal w') = Some Sample.prose.
Proof.
  destruct (handleAnalyze Sample.env_prose Sample.ready) as [out w'] eqn:E.
  destruct (analyze_button_only_previews _ _ _ _ E)
    as [-> [_ [_ [_ [l [Hl [Hno _]]]]]]].
  exists w', l. repeat split; try assumption.
  injection E as <-. reflexivity.
Defined.

End PreviewFacts.

Module RecordFacts.
Import Js Pdf Analysis Modal Observe JsFacts AnalysisFacts ModalFacts.
Local Open Scope handler_scope.

(** ** The two shapes of a stored record *)

Lemma deriveCategory_cases (pa : GeminiAnalysis) :
  In (deriveCategory pa)
     ["Blood Test"; "Kidney Function"; "Liver Function"; "Thyroid"; "Prescription";
      "General Medical Report"].
Proof.
  unfold deriveCategory.
  repeat match goal with
         | |- context [if ?b then _ else _] => destruct b
         end; cbn [In]; auto 10.
Qed.

Lemma deriveCategory_not_uncategorized (pa : GeminiAnalysis) :
  deriveCategory pa <> "Uncategorized".
Proof.
  pose proof (deriveCategory_cases pa) as H. cbn [In] in H.
  intros E. rewrite E in H.
  repeat destruct H as [H | H]; try discriminate H. exact H.
Qed.

(** X12.  A stored record has one of two shapes.  With a parsed analysis it
    is completed, carries [aiAnalysis], [anomalies], [hasAnomalies] and
    [anomalyCount], and its category is one of the six report categories.
    Without one it is uploaded_without_analysis, carries none of the four
    members, and its category is Uncategorized.  No other status, PENDING
    included, is ever written. *)
Theorem record_has_one_of_two_shapes
    (documentTitle publicUrl fileName fileType : string) (fileSize : N)
    (userId createdAt processedAt : string) (extractedText : option string)
    (parsedAnalysis : option GeminiAnalysis) :
  let d := buildDocumentData documentTitle publicUrl fileName fileType fileSize
             userId createdAt processedAt extractedText parsedAnalysis in
  (parsedAnalysis <> None
   /\ processingStatus d = "completed"
   /\ aiAnalysis d <> None /\ anomalies d <> None
   /\ hasAnomalies d <> None /\ anomalyCount d <> None
   /\ In (category d)
        ["Blood Test"; "Kidney Function"; "Liver Function"; "Thyroid";
         "Prescription"; "General Medical Report"]
   /\ category d <> "Uncategorized")
  \/ (parsedAnalysis = None
      /\ processingStatus d = "uploaded_without_analysis"
      /\ aiAnalysis d = None /\ anomalies d = None
      /\ hasAnomalies d = None /\ anomalyCount d = None
      /\ category d = "Uncategorized").
Proof.
  cbv zeta. destruct parsedAnalysis as [pa|]; [left | right].
  - unfold buildDocumentData. destruct (deriveAnomalies pa) as [[lines has] count].
    cbn [processingStatus aiAnalysis anomalies hasAnomalies anomalyCount category].
    repeat split; try discriminate.
    + apply deriveCategory_cases.
    + apply deriveCategory_not_uncategorized.
  - repeat split.
Qed.

(** ** Defaults of the stored findings *)

Lemma or_else_default_nonempty (a b : string) :
  b <> EmptyString -> or_else a b <> EmptyString.
Proof. destruct a; cbn; [auto | discriminate]. Qed.

Lemma opt_or_else_default_nonempty (a : option string) (b : string) :
  b <> EmptyString -> opt_or_else a b <> EmptyString.
Proof. destruct a; cbn [opt_or_else]; [apply or_else_default_nonempty | auto]. Qed.

Lemma nonblank_nonempty (s : string) :
  is_empty (trim s) = false -> s <> EmptyString.
Proof. intros H ->. discriminate H. Qed.

(** X13.  The findings stored for a document whose title is not blank have
    no empty field: a missing or empty report title is replaced by the
    title of the document, a missing or empty doctor name or report date
    by Not specified, a missing or empty summary by No summary available;
    and [tests] is the list of the model, empty when there was none. *)
Theorem stored_findings_have_no_empty_field (parsedAnalysis : GeminiAnalysis)
    (documentTitle now : string) :
  is_empty (trim documentTitle) = false ->
  let findings := buildAiAnalysis parsedAnalysis documentTitle now in
  reportTitle findings <> EmptyString
  /\ doctorName findings <> EmptyString
  /\ reportDate findings <> EmptyString
  /\ ai_summary findings <> EmptyString
  /\ (report_title parsedAnalysis = None \/ report_title parsedAnalysis = Some EmptyString ->
      reportTitle findings = documentTitle)
  /\ (doctor_name parsedAnalysis = None \/ doctor_name parsedAnalysis = Some EmptyString ->
      doctorName findings = "Not specified")
  /\ (report_date parsedAnalysis = None \/ report_date parsedAnalysis = Some EmptyString ->
      reportDate findings = "Not specified")
  /\ (summary parsedAnalysis = None \/ summary parsedAnalysis = Some EmptyString ->
      ai_summary findings = "No summary available")
  /\ (tests parsedAnalysis = None -> ai_tests findings = []).
Proof.
  intros Htitle. apply nonblank_nonempty in Htitle. cbv zeta.
  unfold buildAiAnalysis. cbn [reportTitle doctorName reportDate ai_summary ai_tests].
  repeat split.
  - now apply opt_or_else_default_nonempty.
  - apply opt_or_else_default_nonempty. discriminate.
  - apply opt_or_else_default_nonempty. discriminate.
  - apply opt_or_else_default_nonempty. discriminate.
  - intros [-> | ->]; reflexivity.
  - intros [-> | ->]; reflexivity.
  - intros [-> | ->]; reflexivity.
  - intros [-> | ->]; reflexivity.
  - intros ->. reflexivity.
Qed.

Lemma stored_findings_witness :
  let findings :=
    buildAiAnalysis (mkAnalysis (Some EmptyString) None (Some "2024-03-02") None None)
      "CBC March" "t1" in
  reportTitle findings = "CBC March"
  /\ doctorName findings = "Not specified"
  /\ reportDate findings = "2024-03-02"
  /\ ai_summary findings = "No summary available".
Proof.
  cbv zeta.
  destruct (stored_findings_have_no_empty_field
              (mkAnalysis (Some EmptyString) None (Some "2024-03-02") None None)
              "CBC March" "t1" eq_refl)
    as [_ [_ [_ [_ [Ht [Hd [_ [Hs _]]]]]]]].
  split; [apply Ht; now right|].
  split; [apply Hd; now left|].
  split; [reflexivity|].
  apply Hs. now left.
Defined.

End RecordFacts.

Module UploadFacts.
Import Js Pdf Analysis Modal Observe JsFacts AnalysisFacts ModalFacts PreviewFacts.
Local Open Scope handler_scope.

(** ** Failures before the upload *)

(** The state after the [finally] of [handleUpload]. *)
Lemma handleUpload_unconfigured (env : Env) (w : World) (file : File) :
  selectedFile (modal w) = Some file ->
  is_empty (trim (documentTitle (modal w))) = false ->
  supabase env = false ->
  handleUpload env w
  = (Returned tt,
     mkWorld
       (mkState (Some file) (documentTitle (modal w)) false EmptyString
          (aiLoading (modal w)) (aiOutput (modal w)) (extractLoading (modal w))
          (Modal.extractedText (modal w)))
       (workerConfigured w)
       (effects w ++ [ShowToast (UploadFailed SUPABASE_MISSING); Progress EmptyString])%list).
Proof.
  destruct w as [[sel title ? ? ? ? ? ?] wc log].
  cbn [modal selectedFile documentTitle aiLoading aiOutput extractLoading
       Modal.extractedText workerConfigured effects].
  intros -> Htitle Hsup. run_handlers. rewrite Htitle, Hsup.
  cbv beta iota. flatten_log. reflexivity.
Qed.

(** X14.  When the Supabase client was not created, [handleUpload] stops
    before every stage: the file is not read, the model is not called,
    nothing is uploaded or written.  It shows the toast Upload failed with
    the configuration message, frees the button and keeps the file and the
    title. *)
Theorem unconfigured_store_stops_upload (env : Env) (w : World) (file : File) :
  selectedFile (modal w) = Some file ->
  is_empty (trim (documentTitle (modal w))) = false ->
  supabase env = false ->
  exists w',
    handleUpload env w = (Returned tt, w')
    /\ effects w'
       = (effects w ++ [ShowToast (UploadFailed SUPABASE_MISSING); Progress EmptyString])%list
    /\ Forall (fun e => is_stage e = false)
         [ShowToast (UploadFailed SUPABASE_MISSING); Progress EmptyString]
    /\ selectedFile (modal w') = Some file
    /\ documentTitle (modal w') = documentTitle (modal w)
    /\ uploading (modal w') = false
    /\ workerConfigured w' = workerConfigured w.
Proof.
  intros Hsel Htitle Hsup. eexists.
  split; [apply (handleUpload_unconfigured env w file Hsel Htitle Hsup)|].
  cbn [effects modal selectedFile documentTitle uploading workerConfigured].
  repeat split; repeat constructor.
Qed.

Lemma unconfigured_store_witness :
  exists w',
    handleUpload (mkEnv false "secret" None 0 "t0" "t1" (getDocument Sample.env)
                    (generateContent Sample.env) (storage_upload Sample.env)
                    (getPublicUrl Sample.env) (addDoc Sample.env)) Sample.ready
    = (Returned tt, w')
    /\ effects w' = [ShowToast (UploadFailed SUPABASE_MISSING); Progress EmptyString]
    /\ selectedFile (modal w') = Some Sample.report.
Proof.
  destruct (unconfigured_store_stops_upload
              (mkEnv false "secret" None 0 "t0" "t1" (getDocument Sample.env)
                 (generateContent Sample.env) (storage_upload Sample.env)
                 (getPublicUrl Sample.env) (addDoc Sample.env))
              Sample.ready Sample.report eq_refl eq_refl eq_refl)
    as [w' [Hrun [Hl [_ [Hsel _]]]]].
  exists w'. repeat split; assumption.
Defined.

(** X15.  When the PDF cannot be read, [handleUpload] stops after the
    extraction: the model is not called, nothing is uploaded or written,
    the error of pdf.js is shown by the toast Upload failed, and the file
    and the title are kept. *)
Theorem unreadable_pdf_stops_upload (env : Env) (w : World) (file : File)
    (e : Error) :
  selectedFile (modal w) = Some file ->
  is_empty (trim (documentTitle (modal w))) = false ->
  supabase env = true ->
  type file = "application/pdf" ->
  Pdf.textOfDocument (getDocument env file) = Throw e ->
  exists w',
    handleUpload env w = (Returned tt, w')
    /\ effects w'
       = (effects w
          ++ [Progress "Extracting text from PDF..."; GetDocument file;
              ShowToast (UploadFailed (or_else (message e) "Failed to upload document"));
              Progress EmptyString])%list
    /\ selectedFile (modal w') = Some file
    /\ documentTitle (modal w') = documentTitle (modal w)
    /\ uploading (modal w') = false.
Proof.
  destruct w as [[sel title ? ? ? ? ? ?] wc log].
  cbn [modal selectedFile documentTitle effects].
  intros -> Htitle Hsup Htype Htext.
  assert (Hpdf : String.eqb (type file) PDF = true) by (rewrite Htype; reflexivity).
  eexists. split.
  - run_handlers. rewrite Htitle, Hsup. cbv beta iota. rewrite Hpdf.
    run_handlers. rewrite Htext. cbv beta iota. flatten_log. reflexivity.
  - cbn [effects modal selectedFile documentTitle uploading]. repeat split.
Qed.

Lemma unreadable_pdf_witness :
  exists w',
    handleUpload (mkEnv true "secret" None 0 "t0" "t1"
                    (fun _ => Throw (mkError "Invalid PDF structure"))
                    (generateContent Sample.env) (storage_upload Sample.env)
                    (getPublicUrl Sample.env) (addDoc Sample.env)) Sample.ready
    = (Returned tt, w')
    /\ effects w'
       = [Progress "Extracting text from PDF..."; GetDocument Sample.report;
          ShowToast (UploadFailed "Invalid PDF structure"); Progress EmptyString].
Proof.
  destruct (unreadable_pdf_stops_upload
              (mkEnv true "secret" None 0 "t0" "t1"
                 (fun _ => Throw (mkError "Invalid PDF structure"))
                 (generateContent Sample.env) (storage_upload Sample.env)
                 (getPublicUrl Sample.env) (addDoc Sample.env))
              Sample.ready Sample.report (mkError "Invalid PDF structure")
              eq_refl eq_refl eq_refl eq_refl eq_refl)
    as [w' [Hrun [Hl _]]].
  exists w'. split; [exact Hrun | exact Hl].
Defined.

End UploadFacts.

Module RunFacts.
Import Js Pdf Analysis Modal Observe JsFacts AnalysisFacts ModalFacts PreviewFacts.
Local Open Scope handler_scope.

(** ** What every run of [handleUpload] keeps *)

(** The members of a record that do not depend on the analysis. *)
Lemma buildDocumentData_file_members
    (documentTitle publicUrl key fileType : string) (fileSize : N)
    (userId createdAt processedAt : string) (extractedText : option string)
    (parsedAnalysis : option GeminiAnalysis) :
  let d := buildDocumentData documentTitle publicUrl key fileType fileSize
             userId createdAt processedAt extractedText parsedAnalysis in
  title d = documentTitle /\ fileUrl d = publicUrl /\ fileName d = key
  /\ Analysis.fileType d = fileType /\ Analysis.fileSize d = fileSize
  /\ Analysis.userId d = userId /\ Analysis.createdAt d = createdAt.
Proof.
  cbv zeta. unfold buildDocumentData. destruct parsedAnalysis as [pa|].
  - destruct (deriveAnomalies pa) as [[lines has] count]. repeat split.
  - repeat split.
Qed.

(** Reads the members of the written record that come from the file. *)
Ltac file_members :=
  try match goal with
      | |- context [buildDocumentData ?a ?b ?c ?d ?e ?f ?g ?h ?i ?j] =>
          let Ht := fresh in let Hu := fresh in let Hk := fresh in
          let Hty := fresh in let Hsz := fresh in let Hid := fresh in
          destruct (buildDocumentData_file_members a b c d e f g h i j)
            as [Ht [Hu [Hk [Hty [Hsz [Hid _]]]]]];
          rewrite ?Ht, ?Hu, ?Hk, ?Hty, ?Hsz, ?Hid
      end;
  cbn [title fileUrl fileName Analysis.fileType Analysis.fileSize Analysis.userId
       modal selectedFile documentTitle uploading].

(** Names the record of a write found in the log. *)
Ltac the_record H :=
  match type of H with
  | AddDoc ?x = AddDoc ?d =>
      let E := fresh in
      assert (E : d = x) by congruence; subst d; clear H
  end.

(** Starts the analysis of the log of a run recorded in [H]: the goal
    becomes a statement on the new effects, written out. *)
Ltac run_log H :=
  analyse_run H; type_tests;
  (eexists; split; [reflexivity|]).

(** X16.  A run of [handleUpload] writes at most one record, and the
    record describes the file that the run uploaded: its [fileName] is the
    key of the upload, its [fileUrl] the public URL of that key, its type,
    size and title those of the selected file and of the dialog, its
    [userId] the stored user or anonymous. *)
Theorem written_record_describes_upload (env : Env) (w w' : World)
    (out : Outcome unit) :
  handleUpload env w = (out, w') ->
  exists l,
    effects w' = (effects w ++ l)%list
    /\ List.length (written l) <= 1
    /\ forall d, In (AddDoc d) l ->
         exists file,
           selectedFile (modal w) = Some file
           /\ In (StorageUpload (fileName d) file) l
           /\ fileName d
              = storageKey (opt_or_else (localStorage_userId env) "anonymous")
                  (Date_now env) (documentTitle (modal w)) file
           /\ fileUrl d = getPublicUrl env (fileName d)
           /\ Analysis.fileType d = type file
           /\ Analysis.fileSize d = size file
           /\ title d = documentTitle (modal w)
           /\ Analysis.userId d = opt_or_else (localStorage_userId env) "anonymous".
Proof.
  destruct w as [[sel title0 ? ? ? ? ? ?] wc log].
  intros H. run_log H.
  all: split; [cbn [written List.length]; lia|].
  all: intros d Hin; log_cases Hin.
  all: the_record Hin.
  all: file_members.
  all: eexists; split; [reflexivity|].
  all: repeat split; in_log.
Qed.

Lemma written_record_witness :
  exists l d,
    effects (snd (handleUpload Sample.env Sample.ready)) = l
    /\ written l = [d]
    /\ In (StorageUpload (fileName d) Sample.report) l
    /\ fileUrl d = "https://store.example/u7/1700000000000-CBC_March.pdf".
Proof.
  destruct (written_record_describes_upload Sample.env Sample.ready
              (snd (handleUpload Sample.env Sample.ready))
              (fst (handleUpload Sample.env Sample.ready)))
    as [l [Hl [_ Hd]]]; [apply surjective_pairing|].
  cbn [effects Sample.ready app] in Hl.
  assert (Hw : exists d, written l = [d] /\ In (AddDoc d) l
                         /\ fileName d = Sample.key).
  { rewrite <- Hl. vm_compute. eexists. split; [reflexivity|]. split; auto 10. }
  destruct Hw as [d [Hw [Hin Hkey]]].
  destruct (Hd d Hin) as [file [Hsel [Hup [_ [Hurl _]]]]].
  injection Hsel as <-.
  exists l, d. repeat split; try assumption.
  rewrite Hurl, Hkey. reflexivity.
Defined.

(** ** After the upload *)

(** X17.  When the database refuses the record, the file is already in the
    store (the upload was accepted and is not undone), the error is shown
    twice, by the toasts Firestore save failed and Upload failed, the
    dialog stays open with the file and the title, and the list is not
    refreshed. *)
Theorem database_failure_leaves_uploaded_file (env : Env) (w w' : World)
    (out : Outcome unit) :
  handleUpload env w = (out, w') ->
  exists l,
    effects w' = (effects w ++ l)%list
    /\ forall d dbError,
         In (AddDoc d) l ->
         addDoc env d = Throw dbError ->
         (exists file,
            In (StorageUpload (fileName d) file) l
            /\ storage_upload env (fileName d) file = None)
         /\ In (ShowToast (FirestoreSaveFailed
                  (or_else (message dbError) "Could not save to Firestore"))) l
         /\ In (ShowToast (UploadFailed
                  (or_else (message dbError) "Failed to upload document"))) l
         /\ ~ In OnDocumentAdded l
         /\ ~ In (OnOpenChange false) l
         /\ selectedFile (modal w') = selectedFile (modal w)
         /\ documentTitle (modal w') = documentTitle (modal w)
         /\ uploading (modal w') = false.
Proof.
  destruct w as [[sel title0 ? ? ? ? ? ?] wc log].
  intros H. run_log H.
  all: intros d dbError Hin Hdb; log_cases Hin.
  all: the_record Hin.
  all: match goal with
       | E : addDoc _ _ = ?r |- _ =>
           tryif constr_eq r (Throw dbError) then fail
           else assert (Hsame : r = Throw dbError) by (rewrite <- E; exact Hdb)
       end; try discriminate Hsame.
  all: injection Hsame as ->; clear Hdb.
  all: file_members.
  all: cbn [modal selectedFile documentTitle uploading].
  all: split; [eexists; split; [in_log | eassumption]|].
  all: split; [in_log|]; split; [in_log|].
  all: split; [intros Hin; log_cases Hin|].
  all: split; [intros Hin; log_cases Hin|].
  all: repeat split.
Qed.

Lemma database_failure_witness :
  let env := mkEnv true "secret" (Some "u7") 1700000000000 "t0" "t1"
               (getDocument Sample.env) (generateContent Sample.env)
               (storage_upload Sample.env) (getPublicUrl Sample.env)
               (fun _ => Throw (mkError "Missing or insufficient permissions.")) in
  exists l,
    effects (snd (handleUpload env Sample.ready)) = l
    /\ In (StorageUpload Sample.key Sample.report) l
    /\ In (ShowToast (FirestoreSaveFailed "Missing or insufficient permissions.")) l
    /\ In (ShowToast (UploadFailed "Missing or insufficient permissions.")) l
    /\ selectedFile (modal (snd (handleUpload env Sample.ready))) = Some Sample.report.
Proof.
  cbv zeta.
  set (env := mkEnv true "secret" (Some "u7") 1700000000000 "t0" "t1"
                (getDocument Sample.env) (generateContent Sample.env)
                (storage_upload Sample.env) (getPublicUrl Sample.env)
                (fun _ => Throw (mkError "Missing or insufficient permissions."))).
  destruct (database_failure_leaves_uploaded_file env Sample.ready
              (snd (handleUpload env Sample.ready))
              (fst (handleUpload env Sample.ready)))
    as [l [Hl Hfail]]; [apply surjective_pairing|].
  cbn [effects Sample.ready app] in Hl.
  assert (Hw : exists d, In (AddDoc d) l /\ fileName d = Sample.key).
  { rewrite <- Hl. vm_compute. eexists. split; [auto 10 | reflexivity]. }
  destruct Hw as [d [Hin Hkey]].
  destruct (Hfail d (mkError "Missing or insufficient permissions.") Hin eq_refl)
    as [[file [Hup _]] [Hfs [Huf [_ [_ [Hsel _]]]]]].
  exists l. split; [exact Hl|].
  split; [rewrite <- Hl; vm_compute; auto 10|].
  split; [exact Hfs|]. split; [exact Huf|].
  rewrite Hsel. reflexivity.
Defined.

End RunFacts.

Module DialogFacts.
Import Js Pdf Json Analysis Modal Observe JsFacts AnalysisFacts ModalFacts PreviewFacts RunFacts.
Local Open Scope handler_scope.

(** ** The end of a run of [handleUpload] *)

(** X18.  A run of [handleUpload] ends in one of two ways.  Either a record
    was written and accepted: then the success toast is shown, the dialog
    is closed, the list is refreshed and the file, the title and the two
    previews are cleared.  Or none of this happens: the dialog is not
    closed, the list is not refreshed, no success toast is shown, the file,
    the title and the two previews are kept, and a record that was written
    was refused. *)
Theorem form_reset_only_when_saved (env : Env) (w w' : World) (out : Outcome unit) :
  handleUpload env w = (out, w') ->
  exists l,
    effects w' = (effects w ++ l)%list
    /\ (((exists d id, In (AddDoc d) l /\ addDoc env d = Ok id
                       /\ In (ShowToast (UploadSuccessful (anomalyCount d))) l)
         /\ In (OnOpenChange false) l
         /\ In OnDocumentAdded l
         /\ selectedFile (modal w') = None
         /\ documentTitle (modal w') = EmptyString
         /\ aiOutput (modal w') = None
         /\ Modal.extractedText (modal w') = None)
        \/ ((forall d, In (AddDoc d) l -> exists dbError, addDoc env d = Throw dbError)
            /\ (forall open, ~ In (OnOpenChange open) l)
            /\ ~ In OnDocumentAdded l
            /\ (forall found, ~ In (ShowToast (UploadSuccessful found)) l)
            /\ selectedFile (modal w') = selectedFile (modal w)
            /\ documentTitle (modal w') = documentTitle (modal w)
            /\ aiOutput (modal w') = aiOutput (modal w)
            /\ Modal.extractedText (modal w') = Modal.extractedText (modal w))).
Proof.
  destruct w as [[sel title0 ? ? ? ? ? ?] wc log].
  intros H. run_log H.
  all: cbn [modal selectedFile documentTitle aiOutput Modal.extractedText].
  all: first
    [ solve [ left; split;
              [ eexists; eexists; split; [in_log|]; split; [eassumption|];
                file_members; in_log
              | repeat split; in_log ] ]
    | solve [ right; split;
              [ intros d Hin; log_cases Hin; the_record Hin; eexists; eassumption
              | split; [intros open Hin; log_cases Hin|];
                split; [intros Hin; log_cases Hin|];
                split; [intros found Hin; log_cases Hin|];
                repeat split ] ] ].
Qed.

Lemma form_reset_witness :
  exists l,
    effects (snd (handleUpload Sample.env Sample.ready)) = l
    /\ In OnDocumentAdded l
    /\ selectedFile (modal (snd (handleUpload Sample.env Sample.ready))) = None
    /\ In (ShowToast (UploadSuccessful (Some 2))) l.
Proof.
  destruct (form_reset_only_when_saved Sample.env Sample.ready
              (snd (handleUpload Sample.env Sample.ready))
              (fst (handleUpload Sample.env Sample.ready)))
    as [l [Hl Hcases]]; [apply surjective_pairing|].
  cbn [effects Sample.ready app] in Hl.
  exists l. split; [exact Hl|].
  destruct Hcases as [[_ [_ [Hadded [Hsel _]]]] | [_ [Hopen _]]].
  - split; [exact Hadded|]. split; [exact Hsel|].
    rewrite <- Hl. vm_compute. auto 20.
  - exfalso. apply (Hopen false). rewrite <- Hl. vm_compute. auto 20.
Defined.

(** ** The busy flags *)



(** ** The PDF.js worker *)




(** ** A file that is not a PDF *)

(** X21.  The upload of a file that is not a PDF opens no document and
    sends nothing to the model, shows no warning about the analysis, and
    returns; the record it writes has no [extractedText], is
    uploaded_without_analysis and Uncategorized: an image is stored without
    any finding. *)
Theorem image_is_stored_without_analysis (env : Env) (w w' : World)
    (out : Outcome unit) (file : File) :
  handleUpload env w = (out, w') ->
  selectedFile (modal w) = Some file ->
  type file <> "application/pdf" ->
  out = Returned tt
  /\ workerConfigured w' = workerConfigured w
  /\ exists l,
       effects w' = (effects w ++ l)%list
       /\ Forall (fun e => is_GetDocument e = false /\ is_GenerateContent e = false) l
       /\ ~ In (ShowToast AIAnalysisWarning) l
       /\ forall d,
            In (AddDoc d) l ->
            Analysis.extractedText d = None
            /\ aiAnalysis d = None
            /\ anomalies d = None
            /\ category d = "Uncategorized"
            /\ processingStatus d = "uploaded_without_analysis".
Proof.
  destruct w as [[sel title0 ? ? ? ? ? ?] wc log].
  cbn [modal selectedFile]. intros H Hsel Htype. subst sel.
  analyse_run H; type_tests; try contradiction.
  all: split; [reflexivity|]; split; [reflexivity|].
  all: eexists; split; [reflexivity|].
  all: split; [repeat constructor|].
  all: split; [intros Hin; log_cases Hin|].
  all: intros d Hin; log_cases Hin; the_record Hin; repeat split.
Qed.

Lemma image_upload_witness :
  exists l d,
    effects (snd (handleUpload Sample.env Sample.ready_scan)) = l
    /\ written l = [d]
    /\ Analysis.extractedText d = None
    /\ processingStatus d = "uploaded_without_analysis".
Proof.
  destruct (image_is_stored_without_analysis Sample.env Sample.ready_scan
              (snd (handleUpload Sample.env Sample.ready_scan))
              (fst (handleUpload Sample.env Sample.ready_scan)) Sample.scan)
    as [_ [_ [l [Hl [_ [_ Hd]]]]]];
    [apply surjective_pairing | reflexivity | discriminate |].
  cbn [effects Sample.ready_scan app] in Hl.
  assert (Hw : exists d, written l = [d] /\ In (AddDoc d) l).
  { rewrite <- Hl. vm_compute. eexists. split; [reflexivity|]. auto 10. }
  destruct Hw as [d [Hw Hin]].
  destruct (Hd d Hin) as [Htext [_ [_ [_ Hstatus]]]].
  exists l, d. repeat split; assumption.
Defined.

(** ** An answer that is the JSON value null *)

(** X22.  When the model answers a PDF with text that parses to the JSON
    value null, the analysis is lost without notice: no warning is shown,
    the upload goes on, and the record written is
    uploaded_without_analysis and Uncategorized, with the extracted text
    but no finding.  When the record is accepted the toast is the one of a
    document without analysis. *)
Theorem null_answer_is_dropped_silently (env : Env) (w w' : World)
    (out : Outcome unit) (file : File) (text answer : string) :
  handleUpload env w = (out, w') ->
  selectedFile (modal w) = Some file ->
  trim (documentTitle (modal w)) <> EmptyString ->
  type file = "application/pdf" ->
  supabase env = true ->
  Pdf.textOfDocument (getDocument env file) = Ok text ->
  geminiApiKey env <> EmptyString ->
  generateContent env DefaultPrompt (documentPart text) = Ok answer ->
  JSON_parse (cleanJson answer) = Parsed JNull ->
  out = Returned tt
  /\ exists l,
       effects w' = (effects w ++ l)%list
       /\ In (GenerateContent DefaultPrompt (documentPart text)) l
       /\ ~ In (ShowToast AIAnalysisWarning) l
       /\ (exists key, In (StorageUpload key file) l)
       /\ (forall d,
             In (AddDoc d) l ->
             aiAnalysis d = None
             /\ anomalies d = None
             /\ category d = "Uncategorized"
             /\ processingStatus d = "uploaded_without_analysis"
             /\ Analysis.extractedText d = (if is_empty text then None else Some text)
             /\ (forall id, addDoc env d = Ok id ->
                   In (ShowToast (UploadSuccessful None)) l)).
Proof.
  destruct w as [[sel title0 ? ? ? ? ? ?] wc log].
  cbn [modal selectedFile documentTitle].
  intros H Hsel Htitle Htype Hstore Htext Hkey Hanswer Hnull. subst sel.
  assert (Hparse : parseAnalysis answer = Some None).
  { unfold parseAnalysis. rewrite Hnull. reflexivity. }
  analyse_run H; type_tests; try contradiction.
  all: change (choosePrompt None) with DefaultPrompt in *.
  all: repeat match goal with
              | E : is_empty _ = true |- _ => apply is_empty_true in E
              end.
  all: try congruence.
  all: try match goal with
           | E : Pdf.textOfDocument _ = Ok ?t |- _ =>
               tryif constr_eq t text then fail
               else (assert (t = text) by congruence; subst t)
           end.
  all: try match goal with
           | E : generateContent _ _ _ = Ok ?r |- _ =>
               tryif constr_eq r answer then fail
               else (assert (r = answer) by congruence; subst r)
           end.
  all: try congruence.
  all: split; [reflexivity|].
  all: eexists; split; [reflexivity|].
  all: split; [in_log|].
  all: split; [intros Hin; log_cases Hin|].
  all: split; [eexists; in_log|].
  all: intros d Hin; log_cases Hin; the_record Hin.
  all: try match goal with
           | E : parseAnalysis _ = Some ?o |- _ =>
               tryif constr_eq o (@None GeminiAnalysis) then fail
               else (assert (o = None) by congruence; subst o)
           end.
  all: repeat split.
  all: intros id Hid; first [solve [in_log] | exfalso; congruence].
Qed.

Lemma null_answer_witness :
  let env := Sample.with_model (fun _ _ => Ok "null") Sample.env in
  exists l d,
    effects (snd (handleUpload env Sample.ready)) = l
    /\ written l = [d]
    /\ processingStatus d = "uploaded_without_analysis"
    /\ In (ShowToast (UploadSuccessful None)) l.
Proof.
  cbv zeta.
  set (env := Sample.with_model (fun _ _ => Ok "null") Sample.env).
  destruct (null_answer_is_dropped_silently env Sample.ready
              (snd (handleUpload env Sample.ready))
              (fst (handleUpload env Sample.ready)) Sample.report
              (match Pdf.textOfDocument (getDocument Sample.env Sample.report) with Ok t => t | Throw _ => EmptyString end) "null")
    as [_ [l [Hl [_ [_ [_ Hd]]]]]];
    [ apply surjective_pairing | reflexivity | vm_compute; discriminate
    | reflexivity | reflexivity | reflexivity | vm_compute; discriminate
    | reflexivity | vm_compute; reflexivity | ].
  cbn [effects Sample.ready app] in Hl.
  assert (Hw : exists d, written l = [d] /\ In (AddDoc d) l /\ addDoc env d = Ok "doc1").
  { rewrite <- Hl. vm_compute. eexists. split; [reflexivity|]. split; auto 10. }
  destruct Hw as [d [Hw [Hin Hok]]].
  destruct (Hd d Hin) as [_ [_ [_ [Hstatus [_ Htoast]]]]].
  exists l, d. repeat split; try assumption.
  exact (Htoast "doc1" Hok).
Defined.

End DialogFacts.

Module PageStateFacts.
Import Js Pdf Analysis Modal Observe JsFacts AnalysisFacts ModalFacts PreviewFacts RunFacts.
Import Documents.
Local Open Scope handler_scope.

(** ** The list of the page *)

Lemma handle_no_documents (ev : PageEvent) (s : PageState) :
  documents s = [] -> documents (handle ev s) = [].
Proof. destruct ev; intros H; cbn; assumption || reflexivity. Qed.

Lemma handle_loaded (ev : PageEvent) (s : PageState) :
  loading s = false -> loading (handle ev s) = false.
Proof. destruct ev; intros H; cbn; assumption || reflexivity. Qed.

Lemma render_no_documents (s : PageState) :
  documents s = [] ->
  render s = (if loading s then Spinner else NoDocuments).
Proof. unfold render. intros ->. reflexivity. Qed.

(** X23.  Whatever happens to the page, it holds no document: it shows the
    spinner or the text No documents found, never a card, so the label
    Processing... is never shown.  Once a fetch has ended the spinner is
    gone for good, the fetches that follow included. *)
Theorem page_never_lists_documents (s : PageState) :
  page_reachable s ->
  documents s = []
  /\ (forall cards, render s <> DocumentList cards)
  /\ (forall ev, render (handle ev s) = Spinner -> render s = Spinner)
  /\ render (fetchDocuments s) = NoDocuments.
Proof.
  intros Hreach.
  assert (Hdocs : documents s = []).
  { induction Hreach as [|ev s Hreach IH]; [reflexivity|].
    now apply handle_no_documents. }
  split; [exact Hdocs|]. split.
  - intros cards. rewrite (render_no_documents s Hdocs).
    destruct (loading s); discriminate.
  - split; [|reflexivity].
    intros ev. rewrite (render_no_documents s Hdocs).
    rewrite (render_no_documents _ (handle_no_documents ev s Hdocs)).
    destruct (loading s) eqn:Hl; [reflexivity|].
    now rewrite (handle_loaded ev s Hl).
Qed.

Lemma page_never_lists_witness :
  let s := handle DocumentAdded (handle (OpenChange false) (handle ClickUpload
             (handle Mount initialPage))) in
  page_reachable s /\ documents s = [] /\ render s = NoDocuments.
Proof.
  cbv zeta.
  assert (Hreach : page_reachable
            (handle DocumentAdded (handle (OpenChange false) (handle ClickUpload
               (handle Mount initialPage))))).
  { repeat apply page_step. apply page_initial. }
  split; [exact Hreach|]. split; [|reflexivity].
  apply (page_never_lists_documents _ Hreach).
Defined.

(** ** The page and the dialog *)

(** X24.  A run of [handleUpload] reaches the page through its two
    callbacks only.  When the run saved a record, the page closes the
    dialog and fetches again, and still shows No documents found: the
    document that was just saved is not listed.  Otherwise the page is left
    as it was. *)
Theorem saved_document_is_not_listed (env : Env) (w w' : World) (out : Outcome unit) :
  handleUpload env w = (out, w') ->
  exists l,
    effects w' = (effects w ++ l)%list
    /\ forall s,
         page_reachable s ->
         page_reachable (after_log l s)
         /\ (In OnDocumentAdded l ->
             (exists d id, In (AddDoc d) l /\ addDoc env d = Ok id)
             /\ uploadModalOpen (after_log l s) = false
             /\ documents (after_log l s) = []
             /\ render (after_log l s) = NoDocuments)
         /\ (~ In OnDocumentAdded l -> after_log l s = s).
Proof.
  destruct w as [[sel title0 ? ? ? ? ? ?] wc log].
  intros H. run_log H.
  all: intros s Hreach; cbn [after_log fold_left notify].
  all: split; [repeat apply page_step; exact Hreach|].
  all: split;
    [ intros Hin; first
        [ solve [log_cases Hin]
        | split; [eexists; eexists; split; [in_log | eassumption]|];
          repeat split ]
    | intros Hnot; first
        [ reflexivity | exfalso; apply Hnot; in_log ] ].
Qed.

Lemma saved_document_witness :
  exists l,
    effects (snd (handleUpload Sample.env Sample.ready)) = l
    /\ In OnDocumentAdded l
    /\ render (after_log l (handle ClickUpload (handle Mount initialPage)))
       = NoDocuments
    /\ uploadModalOpen (after_log l (handle ClickUpload (handle Mount initialPage)))
       = false.
Proof.
  destruct (saved_document_is_not_listed Sample.env Sample.ready
              (snd (handleUpload Sample.env Sample.ready))
              (fst (handleUpload Sample.env Sample.ready)))
    as [l [Hl Hpage]]; [apply surjective_pairing|].
  cbn [effects Sample.ready app] in Hl.
  assert (Hin : In OnDocumentAdded l) by (rewrite <- Hl; vm_compute; auto 20).
  destruct (Hpage (handle ClickUpload (handle Mount initialPage)))
    as [_ [Hsaved _]]; [repeat apply page_step; apply page_initial|].
  destruct (Hsaved Hin) as [_ [Hopen [_ Hview]]].
  exists l. repeat split; assumption.
Defined.

End PageStateFacts.

Module LoginFacts.
Import Js Pdf Analysis Modal Observe JsFacts AnalysisFacts ModalFacts PreviewFacts RunFacts.
Import Login.
Local Open Scope handler_scope.

(** ** The owner of a record *)

(** The owner and the key of a written record come from the stored user. *)
Lemma written_record_owner (env : Env) (w w' : World) (out : Outcome unit) :
  handleUpload env w = (out, w') ->
  exists l,
    effects w' = (effects w ++ l)%list
    /\ forall d,
         In (AddDoc d) l ->
         Analysis.userId d = opt_or_else (localStorage_userId env) "anonymous"
         /\ exists rest,
              fileName d
              = opt_or_else (localStorage_userId env) "anonymous" ++ "/" ++ rest.
Proof.
  destruct w as [[sel title0 ? ? ? ? ? ?] wc log].
  intros H. run_log H.
  all: intros d Hin; log_cases Hin.
  all: the_record Hin.
  all: file_members.
  all: split; [reflexivity|].
  all: unfold storageKey; eexists; reflexivity.
Qed.

(** X25.  The login decides who owns the next uploads.  After a login that
    succeeded, a record written by [handleUpload] belongs to the user who
    signed in, and its file is stored under a key that starts with the
    identifier of that user and a slash (anonymous takes its place when the
    identifier is empty).  A login that failed shows one toast, does not
    navigate and leaves [localStorage] as it was: the records that follow
    still belong to the user stored before, or to anonymous. *)
Theorem login_decides_upload_owner (signIn : string -> string -> SignIn)
    (values_email values_password : string) (page : LoginWorld)
    (env : Env) (w w' : World) (out : Outcome unit) :
  handleUpload
    (with_storage (localStorage (handleLogin signIn values_email values_password page)) env)
    w = (out, w') ->
  exists l,
    effects w' = (effects w ++ l)%list
    /\ (forall user,
          signIn values_email values_password = SignedIn user ->
          forall d,
            In (AddDoc d) l ->
            Analysis.userId d = or_else (uid user) "anonymous"
            /\ exists rest,
                 fileName d = or_else (uid user) "anonymous" ++ "/" ++ rest)
    /\ (forall code,
          signIn values_email values_password = Rejected code ->
          handleLogin signIn values_email values_password page
          = mkLogin (localStorage page)
              (shown page ++ [LoginToast "Login Failed" (errorMessage code)])%list
          /\ forall d,
               In (AddDoc d) l ->
               Analysis.userId d
               = opt_or_else (getItem "userId" (localStorage page)) "anonymous").
Proof.
  intros H.
  destruct (written_record_owner _ w w' out H) as [l [Hl Hown]].
  exists l. split; [exact Hl|]. split.
  - intros user Hin d Hd. destruct (Hown d Hd) as [Hid Hkey].
    unfold handleLogin in Hid, Hkey. rewrite Hin in Hid, Hkey.
    exact (conj Hid Hkey).
  - intros code Hrej. unfold handleLogin in *. rewrite Hrej in *.
    split; [reflexivity|].
    intros d Hd. exact (proj1 (Hown d Hd)).
Qed.

Lemma login_decides_witness :
  let signIn := fun (_ _ : string) => SignedIn (mkUser "u42" (Some "ann@example.org")) in
  let page := mkLogin (fun _ => None) [] in
  exists l d,
    effects (snd (handleUpload
                    (with_storage
                       (localStorage (handleLogin signIn "ann@example.org" "a long password" page))
                       Sample.env)
                    Sample.ready)) = l
    /\ written l = [d]
    /\ Analysis.userId d = "u42"
    /\ exists rest, fileName d = "u42/" ++ rest.
Proof.
  cbv zeta.
  set (signIn := fun (_ _ : string) => SignedIn (mkUser "u42" (Some "ann@example.org"))).
  set (page := mkLogin (fun _ => None) []).
  set (env := with_storage
                (localStorage (handleLogin signIn "ann@example.org" "a long password" page))
                Sample.env).
  destruct (login_decides_upload_owner signIn "ann@example.org" "a long password" page
              Sample.env Sample.ready
              (snd (handleUpload env Sample.ready))
              (fst (handleUpload env Sample.ready)))
    as [l [Hl [Hin _]]]; [apply surjective_pairing|].
  cbn [effects Sample.ready app] in Hl.
  assert (Hw : exists d, written l = [d] /\ In (AddDoc d) l).
  { rewrite <- Hl. vm_compute. eexists. split; [reflexivity|]. auto 10. }
  destruct Hw as [d [Hw Hd]].
  destruct (Hin (mkUser "u42" (Some "ann@example.org")) eq_refl d Hd) as [Hid Hkey].
  exists l, d. repeat split; assumption.
Defined.

(** ** The device identifier *)

(** X26.  [getOrCreateDeviceId] gives an identifier that is not empty (as
    long as the generated one is not), stores it, and keeps it: a second
    call returns the same identifier without touching [localStorage],
    whatever would be generated then.  A stored identifier that is empty
    is replaced.  No other key is changed. *)
Theorem device_id_is_stable (randomUUID nextUUID : string) (st : LocalStorage) :
  randomUUID <> EmptyString ->
  let r := getOrCreateDeviceId randomUUID st in
  fst r <> EmptyString
  /\ getItem "deviceId" (snd r) = Some (fst r)
  /\ getOrCreateDeviceId nextUUID (snd r) = r
  /\ (getItem "deviceId" st = Some EmptyString -> fst r = randomUUID)
  /\ (forall k, k <> "deviceId" -> getItem k (snd r) = getItem k st).
Proof.
  intros Hid. cbv zeta. unfold getOrCreateDeviceId.
  destruct (getItem "deviceId" st) as [stored|] eqn:Hst;
    [destruct (is_empty stored) eqn:Hempty|]; cbn [fst snd].
  - split; [exact Hid|]. split; [unfold getItem, setItem; reflexivity|].
    split.
    + unfold getItem at 1, setItem at 1. cbn [String.eqb Ascii.eqb Bool.eqb].
      destruct randomUUID; [contradiction | reflexivity].
    + split; [reflexivity|].
      intros k Hk. unfold getItem, setItem.
      destruct (String.eqb_spec k "deviceId"); [contradiction | reflexivity].
  - split; [intros ->; discriminate|]. split; [exact Hst|].
    split; [rewrite Hst, Hempty; reflexivity|].
    split; [intros Hs; injection Hs as ->; discriminate | reflexivity].
  - split; [exact Hid|]. split; [unfold getItem, setItem; reflexivity|].
    split.
    + unfold getItem at 1, setItem at 1. cbn [String.eqb Ascii.eqb Bool.eqb].
      destruct randomUUID; [contradiction | reflexivity].
    + split; [discriminate|].
      intros k Hk. unfold getItem, setItem.
      destruct (String.eqb_spec k "deviceId"); [contradiction | reflexivity].
Qed.

Lemma device_id_witness :
  let r := getOrCreateDeviceId "7f3c" (fun _ => None) in
  fst r = "7f3c" /\ getOrCreateDeviceId "99aa" (snd r) = r.
Proof.
  cbv zeta. split; [reflexivity|].
  apply (device_id_is_stable "7f3c" "99aa" (fun _ => None)). discriminate.
Defined.

End LoginFacts.
